(** * Maintenance scheduling and due-date lifecycle of the asset inventory

    A shallow embedding of the maintenance logic of [app.py] and [models.py]:
    the yearly auto-scheduler run by the home page ([index]), the due-date
    queries of the home page and of the dashboard ([maintenance_dashboard]),
    and the monthly cost report ([maintenance_report]).

    Conventions.
    - A [datetime.date] is represented by its proleptic Gregorian ordinal
      ([date.toordinal()]): [d + timedelta(days=n)] is [d + n] and the
      comparisons of dates are the comparisons of their ordinals.  Year and
      month are recovered with Python's [_ord2ymd].
      Dates stay below 9999-12-31, where Python's addition overflows.
    - A nullable column is an [option]; a [Float] column holds a binary64
      number, Rocq's primitive [float].
    - The SQLAlchemy session is explicit state: the committed rows of the
      [maintenance_record] table and the objects added in the open
      transaction, which the session writes before each query (autoflush)
      and within the commit.  What the environment decides (whether
      staging, the writing of a record or the commit raises, how the
      backend orders NULL, how floats are summed) is a parameter,
      [Env.t].  A query raises only through its autoflush. *)

From Stdlib Require Import ZArith List Bool Lia String Ascii.
From Stdlib Require Import Permutation Sorted.
From Stdlib Require Import PrimFloat FloatOps SpecFloat.
Import ListNotations.
Local Open Scope string_scope.
Local Open Scope list_scope.
Local Open Scope Z_scope.

(* ================================================================= *)
(** ** Calendar arithmetic of Python's [datetime] *)

Module PyDate.

Definition _DAYS_IN_MONTH : list Z :=
  [-1; 31; 28; 31; 30; 31; 30; 31; 31; 30; 31; 30; 31].

Definition _DAYS_BEFORE_MONTH : list Z :=
  [-1; 0; 31; 59; 90; 120; 151; 181; 212; 243; 273; 304; 334].

Definition _is_leap (year : Z) : bool :=
  (year mod 4 =? 0) && (negb (year mod 100 =? 0) || (year mod 400 =? 0)).

Definition _days_before_year (year : Z) : Z :=
  let y := year - 1 in
  y * 365 + y / 4 - y / 100 + y / 400.

Definition _days_in_month (year month : Z) : Z :=
  if (month =? 2) && _is_leap year then 29
  else nth (Z.to_nat month) _DAYS_IN_MONTH (-1).

Definition _days_before_month (year month : Z) : Z :=
  nth (Z.to_nat month) _DAYS_BEFORE_MONTH (-1)
  + (if (2 <? month) && _is_leap year then 1 else 0).

Definition _ymd2ord (year month day : Z) : Z :=
  _days_before_year year + _days_before_month year month + day.

Definition _DI400Y : Z := Eval cbv in _days_before_year 401.
Definition _DI100Y : Z := Eval cbv in _days_before_year 101.
Definition _DI4Y : Z := Eval cbv in _days_before_year 5.

Definition _ord2ymd (n : Z) : Z * Z * Z :=
  let n := n - 1 in
  let n400 := n / _DI400Y in
  let n := n mod _DI400Y in
  let year := n400 * 400 + 1 in
  let n100 := n / _DI100Y in
  let n := n mod _DI100Y in
  let n4 := n / _DI4Y in
  let n := n mod _DI4Y in
  let n1 := n / 365 in
  let n := n mod 365 in
  let year := year + (n100 * 100 + n4 * 4 + n1) in
  if (n1 =? 4) || (n100 =? 4) then (year - 1, 12, 31)
  else
    let leapyear := (n1 =? 3) && (negb (n4 =? 24) || (n100 =? 3)) in
    let month := Z.shiftr (n + 50) 5 in
    let preceding :=
      nth (Z.to_nat month) _DAYS_BEFORE_MONTH (-1)
      + (if (2 <? month) && leapyear then 1 else 0) in
    if n <? preceding then
      let month := month - 1 in
      let preceding :=
        preceding
        - (nth (Z.to_nat month) _DAYS_IN_MONTH (-1)
           + (if (month =? 2) && leapyear then 1 else 0)) in
      (year, month, n - preceding + 1)
    else (year, month, n - preceding + 1).

(** A date, by its ordinal. *)
Definition date : Type := Z.

(** [date(year, month, day)] *)
Definition mk (year month day : Z) : date := _ymd2ord year month day.

Definition year (d : date) : Z := fst (fst (_ord2ymd d)).
Definition month (d : date) : Z := snd (fst (_ord2ymd d)).
Definition day (d : date) : Z := snd (_ord2ymd d).

(** [d + timedelta(days=n)] *)
Definition add_days (d : date) (n : Z) : date := d + n.

End PyDate.

Abbreviation date := PyDate.date.

(* ================================================================= *)
(** ** The models of [models.py] *)

(** Columns that none of the functions below reads are left out:
    [price], [quantity], [purchase_date], ... of [Asset], and the primary
    key and the two timestamps of [MaintenanceRecord]. *)

Module Asset.
Record t : Type := mk {
  id : Z;
  name : string;
  status : option string;       (* 'active', 'maintenance', 'disposed' *)
  deleted_at : option Z         (* soft delete *)
}.

(** [soft_delete], at the instant [now]. *)
Definition soft_delete (now : Z) (a : t) : t :=
  mk (id a) (name a) (Some "disposed") (Some now).

Definition restore (a : t) : t :=
  mk (id a) (name a)
    (match status a with
     | Some s => if String.eqb s "disposed" then Some "active" else Some s
     | None => None
     end)
    None.
End Asset.

Module MaintenanceRecord.
Record t : Type := mk {
  asset_id : Z;
  maintenance_date : date;
  type : string;
  description : option string;
  vendor : option string;
  person_in_charge : option string;
  cost : option float;
  next_due_date : option date;
  status : option string;
  deleted_at : option Z
}.

(** [soft_delete], at the instant [now]. *)
Definition soft_delete (now : Z) (r : t) : t :=
  mk (asset_id r) (maintenance_date r) (type r) (description r) (vendor r)
    (person_in_charge r) (cost r) (next_due_date r) (status r) (Some now).

Definition restore (r : t) : t :=
  mk (asset_id r) (maintenance_date r) (type r) (description r) (vendor r)
    (person_in_charge r) (cost r) (next_due_date r) (status r) None.
End MaintenanceRecord.

Abbreviation record := MaintenanceRecord.t.

(* ================================================================= *)
(** ** What the environment decides *)

Module Env.
Record t : Type := mk {
  (** [true] on a backend where NULL sorts above every value
      (PostgreSQL), [false] where it sorts below (SQLite, the default
      of [config.py]). *)
  nulls_largest : bool;
  (** Whether building and adding this record raises in the [try] of
      the scheduling loop. *)
  add_raises : record -> bool;
  (** Whether the INSERT of this record raises when the session writes
      it (a storage failure). *)
  flush_raises : record -> bool;
  (** Whether the COMMIT of this batch of written records raises. *)
  commit_raises : list record -> bool;
  (** How the database adds the values of a SUM, given in the order of
      the rows, and how Python's [sum] adds floats: one after the other,
      or with a compensation of the rounding errors (SQLite from 3.44,
      Python from 3.12).  Neither is decided by the application. *)
  sum_sql : list float -> float;
  sum_py : list float -> float
}.
End Env.

(* ================================================================= *)
(** ** The database session *)

Module Session.

Record t : Type := mk {
  rows : list record;   (* committed rows of maintenance_record *)
  new : list record     (* pending objects of the open transaction *)
}.

(** [db.session.add(rec)] *)
Definition add (r : record) (s : t) : t :=
  mk (rows s) (new s ++ [r]).

(** [db.session.rollback()]: the open transaction is undone, and what was
    pending, written or not, is discarded. *)
Definition rollback (s : t) : t := mk (rows s) [].

(** The flush: the pending objects are written to the database, inside
    the open transaction; [None] when storage rejects one of them and
    the flush raises.  (Those written by an earlier flush were accepted
    then.) *)
Definition flush (env : Env.t) (s : t) : option t :=
  if existsb (Env.flush_raises env) (new s) then None else Some s.

(** [db.session.commit()]: a flush, then the COMMIT; [None] when it
    raises, the session being left as it was for the handler to roll
    back. *)
Definition commit (env : Env.t) (s : t) : option t :=
  match flush env s with
  | None => None
  | Some s =>
      if Env.commit_raises env (new s) then None
      else Some (mk (rows s ++ new s) [])
  end.

(** The rows a query sees, once the session has flushed its pending
    objects (autoflush). *)
Definition visible (s : t) : list record := rows s ++ new s.

(** The session of a new request: nothing pending. *)
Definition start (table : list record) : t := mk table [].

End Session.

(* ================================================================= *)
(** ** Query operators *)

Section OrderBy.
Context {A : Type} (leb : A -> A -> bool).

Fixpoint insert_by (x : A) (l : list A) : list A :=
  match l with
  | [] => [x]
  | y :: t => if leb x y then x :: l else y :: insert_by x t
  end.

(** ORDER BY, as a stable sort: rows with equal keys keep the order of
    the table. *)
Definition order_by (l : list A) : list A := fold_right insert_by [] l.
End OrderBy.

(** Comparison of a nullable date column, [a <= b] in the order of the
    backend. *)
Definition null_leb (nulls_largest : bool) (a b : option date) : bool :=
  match a, b with
  | None, None => true
  | None, Some _ => negb nulls_largest
  | Some _, None => nulls_largest
  | Some x, Some y => x <=? y
  end.

Definition next_due_asc (env : Env.t) (r1 r2 : record) : bool :=
  null_leb (Env.nulls_largest env)
    (MaintenanceRecord.next_due_date r1) (MaintenanceRecord.next_due_date r2).

Definition next_due_desc (env : Env.t) (r1 r2 : record) : bool :=
  null_leb (Env.nulls_largest env)
    (MaintenanceRecord.next_due_date r2) (MaintenanceRecord.next_due_date r1).

(** [.first()] *)
Definition first {A : Type} (l : list A) : option A := hd_error l.

(** [.limit(n)] *)
Definition limit {A : Type} (n : nat) (l : list A) : list A := firstn n l.

(** [filter_by(asset_id=i)] *)
Definition filter_by_asset_id (i : Z) (l : list record) : list record :=
  filter (fun r => MaintenanceRecord.asset_id r =? i) l.

(* ================================================================= *)
(** ** The home page: [index] *)

Module IndexPage.
(** What [index] hands to the template (asset types and users, which the
    maintenance logic does not touch, are left out). *)
Record t : Type := mk {
  assets : list Asset.t;
  total_assets : Z;
  active_assets : Z;
  due_records : list record;
  today : date;
  flashed : option (string * Z)    (* category and count of the notice *)
}.
End IndexPage.

(** What the caller gets: a redirect, the page, or an exception that
    leaves the view (an HTTP 500). *)
Inductive response : Type :=
| Redirect (endpoint : string)
| Rendered (page : IndexPage.t)
| Raised.

Definition string_eqb_opt (o : option string) (s : string) : bool :=
  match o with
  | Some x => String.eqb x s
  | None => false
  end.

(** [len([... for x in l if p x])] and [sum(1 for x in l if p x)] *)
Definition count_if {A : Type} (p : A -> bool) (l : list A) : Z :=
  Z.of_nat (List.length (filter p l)).

(** The record the scheduler builds for asset [a]. *)
Definition auto_record (a : Asset.t) (today : date) : record :=
  MaintenanceRecord.mk
    (Asset.id a)
    today
    "maintenance"
    (Some "Lịch bảo trì định kỳ (tự động)")
    None
    (Some "System")
    (Some 0%float)
    (Some (PyDate.add_days today 365))
    (Some "scheduled")
    None.

(** [last]: the asset's record with the greatest [next_due_date]. *)
Definition last_record (env : Env.t) (s : Session.t) (a : Asset.t)
  : option record :=
  first (order_by (next_due_desc env)
           (filter_by_asset_id (Asset.id a) (Session.visible s))).

(** [next_due]: [last.next_due_date] when there is a [last] with one. *)
Definition next_due_of (last : option record) : option date :=
  match last with
  | Some r => MaintenanceRecord.next_due_date r
  | None => None
  end.

Definition need_create (next_due : option date) (today : date) : bool :=
  match next_due with
  | None => true
  | Some d => d <? today
  end.

(** One iteration of [for a in assets], once its query has flushed the
    session. *)
Definition schedule_asset (env : Env.t) (today : date)
    (s : Session.t) (a : Asset.t) : Session.t :=
  let next_due := next_due_of (last_record env s a) in
  if need_create next_due today then
    let rec := auto_record a today in
    if Env.add_raises env rec then Session.rollback s
    else Session.add rec s
  else s.

(** [for a in assets]: the query of each iteration first flushes the
    session, outside every [try]; when that flush raises, the exception
    leaves the loop ([None]). *)
Fixpoint schedule_all (env : Env.t) (today : date)
    (assets : list Asset.t) (s : Session.t) : option Session.t :=
  match assets with
  | [] => Some s
  | a :: rest =>
      match Session.flush env s with
      | None => None
      | Some s => schedule_all env today rest (schedule_asset env today s a)
      end
  end.

(** [try: db.session.commit() except Exception: db.session.rollback()] *)
Definition commit_or_rollback (env : Env.t) (s : Session.t) : Session.t :=
  match Session.commit env s with
  | Some s' => s'
  | None => Session.rollback s
  end.

(** [next_due_date != None, next_due_date <= limit_date] *)
Definition due_on_or_before (limit_date : date) (r : record) : bool :=
  match MaintenanceRecord.next_due_date r with
  | Some d => d <=? limit_date
  | None => false
  end.

(** [next_due_date != None, next_due_date < today]; on the rows of the
    due list, [r.next_due_date < today]. *)
Definition due_before (today : date) (r : record) : bool :=
  match MaintenanceRecord.next_due_date r with
  | Some d => d <? today
  | None => false
  end.

(** [r.next_due_date >= today], on the rows of the due list. *)
Definition due_from (today : date) (r : record) : bool :=
  match MaintenanceRecord.next_due_date r with
  | Some d => today <=? d
  | None => false
  end.

(** The due list of the home page. *)
Definition list_due (env : Env.t) (today : date) (s : Session.t)
  : list record :=
  let due_window := PyDate.add_days today 30 in
  limit 10
    (order_by (next_due_asc env)
       (filter (due_on_or_before due_window) (Session.visible s))).

(** [logged_in] is ['user_id' in session], [today] is
    [datetime.utcnow().date()], [assets] is [Asset.query.all()].  When
    the loop raises, the exception leaves the view; the session is
    removed at the end of the request and its transaction rolled back. *)
Definition index (env : Env.t) (logged_in : bool) (today : date)
    (assets : list Asset.t) (s : Session.t) : response * Session.t :=
  if negb logged_in then (Redirect "login", s)
  else
    match schedule_all env today assets s with
    | None => (Raised, Session.rollback s)
    | Some s =>
        let s := commit_or_rollback env s in
        let due_records := list_due env today s in
        let overdue := count_if (due_before today) due_records in
        let due_soon := count_if (due_from today) due_records in
        let flashed :=
          if negb (overdue =? 0) then Some ("warning", overdue)
          else if negb (due_soon =? 0) then Some ("info", due_soon)
          else None in
        (Rendered
           (IndexPage.mk assets
              (Z.of_nat (List.length assets))
              (count_if (fun a => string_eqb_opt (Asset.status a) "active")
                 assets)
              due_records today flashed),
         s)
    end.

(** The table after a page view of a logged-in user. *)
Definition table_after (env : Env.t) (today : date)
    (assets : list Asset.t) (table : list record) : list record :=
  Session.rows (snd (index env true today assets (Session.start table))).

(* ================================================================= *)
(** ** Python numbers: true division and [round] *)

Module PyFloat.

(** The value of an [int], exactly. *)
Definition sf_of_int (z : Z) : spec_float :=
  match z with
  | Z0 => S754_zero false
  | Zpos p => S754_finite false p 0
  | Zneg p => S754_finite true p 0
  end.

(** [float(n)]: the double nearest to [n]. *)
Definition of_int (n : Z) : float :=
  SF2Prim (binary_normalize prec emax n 0 false).

(** [a / b] on two [int]s, [b] not zero: the double nearest to the
    quotient. *)
Definition int_truediv (a b : Z) : float :=
  SF2Prim (SFdiv prec emax (sf_of_int a) (sf_of_int b)).

(** [x.as_integer_ratio()], with a positive denominator (not reduced);
    [None] for an infinity or a NaN. *)
Definition to_fraction (x : float) : option (Z * Z) :=
  match Prim2SF x with
  | S754_zero _ => Some (0, 1)
  | S754_finite s m e =>
      let n := cond_Zopp s (Zpos m) in
      if 0 <=? e then Some (n * 2 ^ e, 1) else Some (n, 2 ^ (- e))
  | _ => None
  end.

(** The integer nearest to [num / den] ([den] positive), a tie going to
    the even one. *)
Definition round_half_even (num den : Z) : Z :=
  let q := num / den in
  let r := num mod den in
  if 2 * r <? den then q
  else if den <? 2 * r then q + 1
  else if Z.even q then q else q + 1.

(** [round(x)]: an [int]; [None] when it raises (infinity, NaN). *)
Definition round_int (x : float) : option Z :=
  match to_fraction x with
  | Some (n, d) => Some (round_half_even n d)
  | None => None
  end.

(** [round(x, ndigits)] for [ndigits >= 0]: the double nearest to the
    decimal with [ndigits] places nearest to [x]; infinities and NaN
    round to themselves. *)
Definition round_ndigits (x : float) (ndigits : Z) : float :=
  match to_fraction x with
  | Some (n, d) =>
      let k := round_half_even (n * 10 ^ ndigits) d in
      if k =? 0 then (if get_sign x then neg_zero else zero)
      else SF2Prim (SFdiv prec emax (sf_of_int k) (sf_of_int (10 ^ ndigits)))
  | None => x
  end.

(** [x or 0] on an optional number, the [int] 0 being written [0.0]. *)
Definition or_zero (o : option float) : float :=
  match o with
  | Some x => if PrimFloat.eqb x 0 then 0%float else x
  | None => 0%float
  end.

End PyFloat.

(* ================================================================= *)
(** ** SQL aggregation *)

(** The values of a column that are not NULL, in the order of the
    rows. *)
Fixpoint non_null (l : list (option float)) : list float :=
  match l with
  | [] => []
  | Some x :: t => x :: non_null t
  | None :: t => non_null t
  end.

(** SUM: NULL values are skipped, and the sum of no value is NULL; the
    addition of the values is the database's. *)
Definition sql_sum (env : Env.t) (l : list (option float)) : option float :=
  match non_null l with
  | [] => None
  | values => Some (Env.sum_sql env values)
  end.

(** GROUP BY key, the groups kept in the order of the key (ORDER BY
    key): one row enters its group. *)
Fixpoint group_add (k : Z) (c : option float)
    (groups : list (Z * list (option float)))
  : list (Z * list (option float)) :=
  match groups with
  | [] => [(k, [c])]
  | (k', cs) :: rest =>
      if k =? k' then (k', cs ++ [c]) :: rest
      else if k <? k' then (k, [c]) :: groups
      else (k', cs) :: group_add k c rest
  end.

Definition group_by (l : list (Z * option float))
  : list (Z * list (option float)) :=
  fold_left (fun groups kc => group_add (fst kc) (snd kc) groups) l [].

(** GROUP BY key with SUM. *)
Definition group_sum (env : Env.t) (l : list (Z * option float))
  : list (Z * option float) :=
  map (fun g => (fst g, sql_sum env (snd g))) (group_by l).

(* ================================================================= *)
(** ** The monthly report: [maintenance_report] *)

Module Report.
Record t : Type := mk {
  year : Z;
  data : list (Z * float);      (* 'month', 'total' *)
  total_year : float
}.
End Report.

(** [sum(l)] over floats: the [int] 0, written [0.0], for no item; the
    addition of the items is Python's. *)
Definition py_sum (env : Env.t) (l : list float) : float :=
  match l with
  | [] => 0%float
  | _ :: _ => Env.sum_py env l
  end.

(** [year_arg] is the [year] of the query string, [current_year] is
    [datetime.utcnow().year]. *)
Definition maintenance_report (env : Env.t) (year_arg : option Z)
    (current_year : Z) (table : list record) : Report.t :=
  let year :=
    match year_arg with
    | Some y => if y =? 0 then current_year else y
    | None => current_year
    end in
  let rows :=
    group_sum env
      (map (fun r => (PyDate.month (MaintenanceRecord.maintenance_date r),
                      MaintenanceRecord.cost r))
         (filter (fun r =>
                    PyDate.year (MaintenanceRecord.maintenance_date r) =? year)
            table)) in
  let data := map (fun r => (fst r, PyFloat.or_zero (snd r))) rows in
  let total_year := py_sum env (map snd data) in
  Report.mk year data total_year.

(* ================================================================= *)
(** ** The dashboard: [maintenance_dashboard] *)

Definition ascii_lower (c : ascii) : ascii :=
  let n := nat_of_ascii c in
  if (65 <=? n)%nat && (n <=? 90)%nat then ascii_of_nat (n + 32) else c.

(** [s.lower()], on ASCII letters. *)
Fixpoint lower (s : string) : string :=
  match s with
  | EmptyString => EmptyString
  | String c t => String (ascii_lower c) (lower t)
  end.

(** [(r.status or '').lower() == v] *)
Definition status_is (v : string) (r : record) : bool :=
  String.eqb
    (lower (match MaintenanceRecord.status r with
            | Some x => x
            | None => ""
            end)) v.

(** [maintenance_date >= lo, maintenance_date <= hi] *)
Definition maintained_between (lo hi : date) (r : record) : bool :=
  (lo <=? MaintenanceRecord.maintenance_date r)
  && (MaintenanceRecord.maintenance_date r <=? hi).

(** [next_due_date != None, next_due_date.between(lo, hi)] *)
Definition due_between (lo hi : date) (r : record) : bool :=
  match MaintenanceRecord.next_due_date r with
  | Some d => (lo <=? d) && (d <=? hi)
  | None => false
  end.

(** [round((completed / total) * 100, 1) if total else 0], the [int] 0
    being written [0.0]. *)
Definition completion_rate_of (completed total : Z) : float :=
  if total =? 0 then 0%float
  else PyFloat.round_ndigits (PyFloat.int_truediv completed total * 100)%float 1.

(** [round(total_cost / total) if total else 0]; [None] when [round]
    raises. *)
Definition avg_cost_per_record_of (total_cost : float) (total : Z)
  : option Z :=
  if total =? 0 then Some 0
  else PyFloat.round_int (total_cost / PyFloat.of_int total)%float.

Module Dashboard.
(** The figures of the year and the due counts (the figures of the month,
    the extreme costs and the recent list are left out). *)
Record t : Type := mk {
  today : date;
  year : Z;
  total_records_year : Z;
  total_cost_year : float;
  completed_year : Z;
  scheduled_year : Z;
  in_progress_year : Z;
  cancelled_year : Z;
  records_with_cost_year : Z;
  completion_rate : float;
  avg_cost_per_record : Z;
  overdue : Z;
  overdue_records : list record;
  due_30 : Z;
  upcoming : list record
}.
End Dashboard.

(** [year_records], the records maintained in the year of [today]. *)
Definition year_records (today : date) (table : list record) : list record :=
  let year := PyDate.year today in
  let start_year := PyDate.mk year 1 1 in
  let end_year := PyDate.mk year 12 31 in
  filter (maintained_between start_year end_year) table.

(** [None] when the view raises ([round] of an infinite or undefined
    average). *)
Definition maintenance_dashboard (env : Env.t) (today : date)
    (table : list record) : option Dashboard.t :=
  let year := PyDate.year today in
  let year_records := year_records today table in
  let total_records_year := Z.of_nat (List.length year_records) in
  let total_cost_year :=
    PyFloat.or_zero (sql_sum env (map MaintenanceRecord.cost year_records)) in
  let completed_year := count_if (status_is "completed") year_records in
  let completion_rate := completion_rate_of completed_year total_records_year in
  match avg_cost_per_record_of total_cost_year total_records_year with
  | None => None
  | Some avg_cost_per_record =>
      Some
        (Dashboard.mk today year total_records_year total_cost_year
           completed_year
           (count_if (status_is "scheduled") year_records)
           (count_if (status_is "in_progress") year_records)
           (count_if (status_is "cancelled") year_records)
           (count_if
              (fun r => PrimFloat.ltb 0 (PyFloat.or_zero (MaintenanceRecord.cost r)))
              year_records)
           completion_rate
           avg_cost_per_record
           (count_if (due_before today) table)
           (limit 10 (order_by (next_due_asc env) (filter (due_before today) table)))
           (count_if (due_between today (PyDate.add_days today 30)) table)
           (order_by (next_due_asc env)
              (filter (due_between today (PyDate.add_days today 30)) table)))
  end.

(* ================================================================= *)
(** ** Vocabulary of the statements *)

(** The records of the table that belong to asset [a]. *)
Definition records_of (a : Asset.t) (table : list record) : list record :=
  filter_by_asset_id (Asset.id a) table.

(** Both records have a due date, the first no later than the second. *)
Definition due_le (r1 r2 : record) : Prop :=
  match MaintenanceRecord.next_due_date r1,
        MaintenanceRecord.next_due_date r2 with
  | Some d1, Some d2 => d1 <= d2
  | _, _ => False
  end.

(** An environment in which nothing raises. *)
Definition no_failure (env : Env.t) : Prop :=
  (forall r, Env.add_raises env r = false)
  /\ (forall r, Env.flush_raises env r = false)
  /\ (forall batch, Env.commit_raises env batch = false).

(** The session after the iterations of the loop, their queries set
    aside: what [schedule_all] yields when none of them raises. *)
Definition stage_all (env : Env.t) (today : date)
    (assets : list Asset.t) (s : Session.t) : Session.t :=
  fold_left (schedule_asset env today) assets s.

(** The page view ends with its commit: no query of the loop raises, and
    the commit does not. *)
Definition commits (env : Env.t) (today : date) (assets : list Asset.t)
    (table : list record) : bool :=
  match schedule_all env today assets (Session.start table) with
  | Some s =>
      match Session.commit env s with
      | Some _ => true
      | None => false
      end
  | None => false
  end.

(** The three classes of the due-date classifier, in the words of the
    specification: overdue is a due date strictly before today, due soon
    is a due date from today to the end of the window. *)
Inductive due_class : Type := Overdue | DueSoon | Neither.

Definition classify (today : date) (window_days : Z) (r : record)
  : due_class :=
  match MaintenanceRecord.next_due_date r with
  | None => Neither
  | Some d =>
      if d <? today then Overdue
      else if d <=? today + window_days then DueSoon
      else Neither
  end.

Definition is_overdue (today : date) (window_days : Z) (r : record) : bool :=
  match classify today window_days r with Overdue => true | _ => false end.

Definition is_due_soon (today : date) (window_days : Z) (r : record) : bool :=
  match classify today window_days r with DueSoon => true | _ => false end.

(** The due date of the latest committed record of [a]. *)
Definition committed_due (env : Env.t) (a : Asset.t) (s : Session.t)
  : option date :=
  next_due_of
    (first (order_by (next_due_desc env) (records_of a (Session.rows s)))).

(** The pending records of [a] are none, or the one the scheduler builds. *)
Definition at_most_auto (today : date) (a : Asset.t) (s : Session.t) : Prop :=
  records_of a (Session.new s) = []
  \/ records_of a (Session.new s) = [auto_record a today].

(** The record of [a] is staged, or no record of [a] is pending. *)
Definition staged_or_untouched (today : date) (a : Asset.t) (s : Session.t)
  : Prop :=
  In (auto_record a today) (Session.new s)
  \/ records_of a (Session.new s) = [].

(** The record was maintained in month [m] of year [y]. *)
Definition in_month (y m : Z) (r : record) : bool :=
  (PyDate.year (MaintenanceRecord.maintenance_date r) =? y)
  && (PyDate.month (MaintenanceRecord.maintenance_date r) =? m).

(** The costs of the records maintained in month [m] of year [y], those
    without a cost left out. *)
Definition month_costs (table : list record) (y m : Z) : list float :=
  flat_map (fun r => match MaintenanceRecord.cost r with
                     | Some c => [c]
                     | None => []
                     end)
    (filter (in_month y m) table).

(** The total the report is to show for month [m] of year [y]: the sum
    of the costs of the records maintained in that month, 0 when none of
    them has a cost. *)
Definition month_total (env : Env.t) (table : list record) (y m : Z)
  : float :=
  match month_costs table y m with
  | [] => 0%float
  | costs => PyFloat.or_zero (Some (Env.sum_sql env costs))
  end.

(** The report in the words of the specification: for each calendar
    month of the year that has at least one record, from 1 to 12, the
    month with the sum of the costs of its records; and the sum across
    the months returned. *)
Definition monthly_cost_report (env : Env.t) (table : list record)
    (year : Z) : list (Z * float) * float :=
  let months :=
    filter (fun m => existsb (in_month year m) table)
      [1; 2; 3; 4; 5; 6; 7; 8; 9; 10; 11; 12] in
  let rows := map (fun m => (m, month_total env table year m)) months in
  (rows,
   match rows with
   | [] => 0%float
   | _ :: _ => Env.sum_py env (map snd rows)
   end).

(** The values of the group of key [k], none when there is no group. *)
Definition group_of (k : Z) (groups : list (Z * list (option float)))
  : list (option float) :=
  match find (fun g => fst g =? k) groups with
  | Some g => snd g
  | None => []
  end.

(** The double nearest to [k / 10]. *)
Definition tenths (k : Z) : float :=
  SF2Prim (SFdiv prec emax (PyFloat.sf_of_int k) (PyFloat.sf_of_int 10)).

(** [k] is an integer nearest to [num / den]. *)
Definition nearest_int (num den k : Z) : Prop :=
  2 * Z.abs (k * den - num) <= den.

(* ================================================================= *)
(** ** Sample data *)

Module Sample.

(** Floats added one after the other, from 0. *)
Definition plain_sum (l : list float) : float :=
  fold_left PrimFloat.add l 0%float.

(** Floats added with a compensation of the rounding errors (Kahan,
    Babuska, Neumaier): a running sum and a running error, added at the
    end. *)
Definition compensated_step (acc : float * float) (r : float)
  : float * float :=
  let (s, err) := acc in
  let t := (s + r)%float in
  if PrimFloat.ltb (PrimFloat.abs r) (PrimFloat.abs s)
  then (t, (err + ((s - t) + r))%float)
  else (t, (err + ((r - t) + s))%float).

Definition compensated_sum (l : list float) : float :=
  let (s, err) := fold_left compensated_step l (0%float, 0%float) in
  (s + err)%float.

(** SQLite ordering, nothing raises. *)
Definition env_ok : Env.t :=
  Env.mk false (fun _ => false) (fun _ => false) (fun _ => false)
    plain_sum plain_sum.

(** The COMMIT raises. *)
Definition env_commit_fails : Env.t :=
  Env.mk false (fun _ => false) (fun _ => false) (fun _ => true)
    plain_sum plain_sum.


(** As [env_ok], with the compensated sums. *)
Definition env_compensated : Env.t :=
  Env.mk false (fun _ => false) (fun _ => false) (fun _ => false)
    compensated_sum compensated_sum.

(** Storage rejects the records of asset [i]. *)
Definition env_storage_rejects (i : Z) : Env.t :=
  Env.mk false (fun _ => false) (fun r => MaintenanceRecord.asset_id r =? i)
    (fun _ => false) plain_sum plain_sum.

Definition pc : Asset.t := Asset.mk 1 "pc" (Some "active") None.

(** A soft-deleted asset: disposed, with its deletion instant. *)
Definition printer : Asset.t :=
  Asset.soft_delete 1700000000 (Asset.mk 2 "printer" (Some "active") None).

Definition day : date := PyDate.mk 2024 1 10.

(** A manual record of asset [i]. *)
Definition repair (i : Z) (maintenance_date : date) (cost : option float)
    (next_due_date : option date) (status : option string) : record :=
  MaintenanceRecord.mk i maintenance_date "repair" None None None
    cost next_due_date status None.

(** Due yesterday, due today, due in 31 days. *)
Definition boundary_table : list record :=
  [repair 1 day None (Some (day - 1)) None;
   repair 1 day None (Some day) None;
   repair 2 day None (Some (day + 31)) None].

(** Two records of 2024, one of July and one of March, and one of
    another year. *)
Definition report_table : list record :=
  [repair 1 (PyDate.mk 2024 7 4) (Some 200%float) None (Some "completed");
   repair 2 (PyDate.mk 2023 3 5) (Some 50%float) None (Some "completed");
   repair 1 (PyDate.mk 2024 3 31) (Some 100%float) None None].

(** Seven records of 2024, three of them completed, costing 1000 in
    all. *)
Definition kpi_table : list record :=
  [repair 1 (PyDate.mk 2024 1 2) (Some 400%float) None (Some "completed");
   repair 1 (PyDate.mk 2024 2 3) (Some 300%float) None (Some "Completed");
   repair 2 (PyDate.mk 2024 3 4) (Some 300%float) None (Some "completed");
   repair 2 (PyDate.mk 2024 4 5) None None (Some "scheduled");
   repair 3 (PyDate.mk 2024 5 6) None None (Some "in_progress");
   repair 3 (PyDate.mk 2024 6 7) (Some 0%float) None (Some "cancelled");
   repair 3 (PyDate.mk 2024 12 31) None None None].

End Sample.

(* ================================================================= *)
(** ** The figures of the month and the extreme costs in
       [maintenance_dashboard] *)

(** [start_month] and [end_month]. *)
Definition month_window (today : date) : date * date :=
  let year := PyDate.year today in
  let month := PyDate.month today in
  let start_month := PyDate.mk year month 1 in
  let start_next_month :=
    if month =? 12 then PyDate.mk (year + 1) 1 1
    else PyDate.mk year (month + 1) 1 in
  let end_month := PyDate.add_days start_next_month (-1) in
  (start_month, end_month).

(** [month_records], the records maintained in the month of [today]. *)
Definition month_records (today : date) (table : list record) : list record :=
  filter (maintained_between (fst (month_window today))
            (snd (month_window today))) table.

(** [[float(r.cost or 0) for r in records if (r.cost or 0) > 0]] *)
Definition positive_costs (records : list record) : list float :=
  map (fun r => PyFloat.or_zero (MaintenanceRecord.cost r))
    (filter (fun r => PrimFloat.ltb 0 (PyFloat.or_zero (MaintenanceRecord.cost r)))
       records).

(** [max(costs) if costs else 0]: an item replaces the maximum when it is
    greater. *)
Definition max_cost (costs : list float) : float :=
  match costs with
  | [] => 0%float
  | x :: t => fold_left (fun m y => if PrimFloat.ltb m y then y else m) t x
  end.

(** [min(costs) if costs else 0] *)
Definition min_cost (costs : list float) : float :=
  match costs with
  | [] => 0%float
  | x :: t => fold_left (fun m y => if PrimFloat.ltb y m then y else m) t x
  end.

Module MonthFigures.
Record t : Type := mk {
  total_records_month : Z;
  total_cost_month : float;
  records_with_cost_month : Z;
  max_cost_month : float;
  min_cost_month : float;
  completed_month : Z;
  in_progress_month : Z
}.
End MonthFigures.

Definition month_figures (env : Env.t) (today : date)
    (table : list record) : MonthFigures.t :=
  let month_records := month_records today table in
  MonthFigures.mk
    (Z.of_nat (List.length month_records))
    (py_sum env
       (map (fun r => PyFloat.or_zero (MaintenanceRecord.cost r))
          month_records))
    (count_if
       (fun r => PrimFloat.ltb 0 (PyFloat.or_zero (MaintenanceRecord.cost r)))
       month_records)
    (max_cost (positive_costs month_records))
    (min_cost (positive_costs month_records))
    (count_if (status_is "completed") month_records)
    (count_if (status_is "in_progress") month_records).

(* ================================================================= *)
(** ** The list of maintenance records: [maintenance_list] *)

Module ListQuery.
(** The query string, each argument as [request.args.get] yields it. *)
Record t : Type := mk {
  page : Z;                 (* default 1 *)
  search : string;          (* default '' *)
  asset_id : option Z;
  month : option Z;
  year : option Z;
  overdue : option Z;
  due_30 : option Z
}.
End ListQuery.

(** [if v:] on an optional [int]. *)
Definition given (v : option Z) : bool :=
  match v with
  | Some n => negb (n =? 0)
  | None => false
  end.

(** [query.filter(p v)] when the argument [v] is given. *)
Definition filter_given (v : option Z) (p : Z -> record -> bool)
    (query : list record) : list record :=
  match v with
  | Some n => if n =? 0 then query else filter (p n) query
  | None => query
  end.

Module Pagination.
Record t : Type := mk {
  items : list record;
  page : Z;
  per_page : Z;
  total : Z
}.

(** [pages]: [ceil(total / per_page)], 0 without rows. *)
Definition pages (p : t) : Z :=
  if total p =? 0 then 0 else (total p + per_page p - 1) / per_page p.
End Pagination.

(** [query.paginate(page=page, per_page=per_page, error_out=False)], for
    a positive [per_page]: a page below 1 is page 1. *)
Definition paginate (page per_page : Z) (query : list record)
  : Pagination.t :=
  let page := if page <? 1 then 1 else page in
  Pagination.mk
    (limit (Z.to_nat per_page)
       (skipn (Z.to_nat ((page - 1) * per_page)) query))
    page per_page (Z.of_nat (List.length query)).

(** [column.ilike(pattern)] on a nullable column: NULL matches nothing. *)
Definition ilike_opt (ilike : string -> string -> bool) (pattern : string)
    (column : option string) : bool :=
  match column with
  | Some s => ilike pattern s
  | None => false
  end.

Definition maintenance_date_desc (r1 r2 : record) : bool :=
  MaintenanceRecord.maintenance_date r2 <=? MaintenanceRecord.maintenance_date r1.

(** [ilike pattern s] is the ILIKE of the backend. *)
Definition maintenance_list (ilike : string -> string -> bool) (today : date)
    (q : ListQuery.t) (table : list record) : Pagination.t :=
  let query := table in
  let query :=
    filter_given (ListQuery.asset_id q)
      (fun v r => MaintenanceRecord.asset_id r =? v) query in
  let query :=
    if String.eqb (ListQuery.search q) "" then query
    else
      let like := String.append "%" (String.append (ListQuery.search q) "%") in
      filter (fun r =>
                ilike_opt ilike like (MaintenanceRecord.description r)
                || ilike_opt ilike like (MaintenanceRecord.vendor r)
                || ilike_opt ilike like (MaintenanceRecord.person_in_charge r))
        query in
  let query :=
    filter_given (ListQuery.month q)
      (fun v r => PyDate.month (MaintenanceRecord.maintenance_date r) =? v)
      query in
  let query :=
    filter_given (ListQuery.year q)
      (fun v r => PyDate.year (MaintenanceRecord.maintenance_date r) =? v)
      query in
  let query :=
    if given (ListQuery.overdue q) then filter (due_before today) query
    else query in
  let query :=
    if given (ListQuery.due_30 q)
    then filter (due_between today (PyDate.add_days today 30)) query
    else query in
  paginate (ListQuery.page q) 10 (order_by maintenance_date_desc query).

(* ================================================================= *)
(** ** The template filters *)

(** [mapping.get(key, default)] *)
Fixpoint dict_get (mapping : list (string * string)) (key default : string)
  : string :=
  match mapping with
  | [] => default
  | (k, v) :: rest => if String.eqb k key then v else dict_get rest key default
  end.

(** [value or ''] *)
Definition or_empty (value : option string) : string :=
  match value with
  | Some s => s
  | None => ""
  end.

Definition status_mapping : list (string * string) :=
  [("completed", "Hoàn thành");
   ("scheduled", "Đã lên lịch");
   ("in_progress", "Đang thực hiện");
   ("cancelled", "Đã hủy")].

Definition type_mapping : list (string * string) :=
  [("maintenance", "Bảo trì định kỳ");
   ("repair", "Sửa chữa");
   ("inspection", "Kiểm tra");
   ("upgrade", "Nâng cấp");
   ("replacement", "Thay thế")].

(** The keys are ASCII and hold no [k]: lowering the ASCII letters finds
    the same key as [str.lower]. *)
Definition maintenance_status_vi (value : option string) : string :=
  let key := lower (or_empty value) in
  dict_get status_mapping key (or_empty value).

Definition maintenance_type_vi (value : option string) : string :=
  let key := lower (or_empty value) in
  dict_get type_mapping key (or_empty value).

(* ================================================================= *)
(** ** Roles, users and the browser session *)

Module Role.
Record t : Type := mk {
  id : Z;
  name : string;
  description : option string
}.
End Role.

Module User.
Record t : Type := mk {
  id : Z;
  username : string;
  password_hash : string;
  email : string;
  role_id : Z;
  is_active : option bool;
  deleted_at : option Z;
  last_login : option Z
}.

(** [soft_delete], at the instant [now]. *)
Definition soft_delete (now : Z) (u : t) : t :=
  mk (id u) (username u) (password_hash u) (email u) (role_id u)
    (Some false) (Some now) (last_login u).

Definition restore (u : t) : t :=
  mk (id u) (username u) (password_hash u) (email u) (role_id u)
    (Some true) None (last_login u).
End User.

Module WebSession.
(** The keys of Flask's [session] that the application writes. *)
Record t : Type := mk {
  user_id : option Z;
  username : option string;
  role : option string;
  lang : option string
}.

(** [session.clear()] *)
Definition clear : t := mk None None None None.
End WebSession.

(** [set_lang]: the session afterwards. *)
Definition set_lang (lang : string) (s : WebSession.t) : WebSession.t :=
  let lang :=
    if String.eqb lang "vi" || String.eqb lang "en" then lang else "vi" in
  WebSession.mk (WebSession.user_id s) (WebSession.username s)
    (WebSession.role s) (Some lang).

(** [logout]: the session afterwards. *)
Definition logout (s : WebSession.t) : WebSession.t := WebSession.clear.

(** [i18n[lang]['title']], [None] for a [KeyError]. *)
Definition login_title (lang : string) : option string :=
  if String.eqb lang "vi" then Some "Đăng nhập"
  else if String.eqb lang "en" then Some "Sign in"
  else None.

(** The answers of [login]: its page, with the title and whether the
    error is flashed, the redirect to the home page, or an exception (a
    [KeyError] of the texts, or [user.role] being [None]); the session and
    the table of users come with the first two. *)
Inductive login_response : Type :=
| LoginPage (title : string) (error : bool) (s : WebSession.t)
    (users : list User.t)
| LoginRedirect (s : WebSession.t) (users : list User.t)
| LoginRaises.

(** [User.query.filter_by(username=username).first()] *)
Definition find_user (username : string) (users : list User.t)
  : option User.t :=
  first (filter (fun u => String.eqb (User.username u) username) users).

(** [user.role]: the role the foreign key points to, if any. *)
Definition role_of (roles : list Role.t) (u : User.t) : option Role.t :=
  first (filter (fun r => Role.id r =? User.role_id u) roles).

(** The user [u] of the table, after [user.last_login = now]. *)
Definition touch_login (now : Z) (u : User.t) (users : list User.t)
  : list User.t :=
  map (fun x =>
         if User.id x =? User.id u
         then User.mk (User.id x) (User.username x) (User.password_hash x)
                (User.email x) (User.role_id x) (User.is_active x)
                (User.deleted_at x) (Some now)
         else x)
    users.

(** [login].  [check_password_hash] is werkzeug's, [form] is [None] for
    a GET and the posted user name and password for a POST, [now] is
    [datetime.utcnow()]. *)
Definition login (check_password_hash : string -> string -> bool) (now : Z)
    (form : option (string * string)) (roles : list Role.t)
    (users : list User.t) (s : WebSession.t) : login_response :=
  let lang := match WebSession.lang s with Some l => l | None => "vi" end in
  match login_title lang with
  | None => LoginRaises
  | Some title =>
      match form with
      | None => LoginPage title false s users
      | Some (username, password) =>
          match find_user username users with
          | Some user =>
              if check_password_hash (User.password_hash user) password
                 && match User.is_active user with
                    | Some b => b
                    | None => false
                    end
              then
                match role_of roles user with
                | None => LoginRaises
                | Some role =>
                    LoginRedirect
                      (WebSession.mk (Some (User.id user))
                         (Some (User.username user)) (Some (Role.name role))
                         (WebSession.lang s))
                      (touch_login now user users)
                end
              else LoginPage title true s users
          | None => LoginPage title true s users
          end
      end
  end.

(* ================================================================= *)
(** ** The first-run bootstrap: [dev_bootstrap] *)

Module Config.
Record t : Type := mk {
  INIT_TOKEN : string;
  ADMIN_USERNAME : string;
  ADMIN_PASSWORD : string;
  ADMIN_EMAIL : string
}.
End Config.

Module Db.
Record t : Type := mk {
  roles : list Role.t;
  users : list User.t
}.
End Db.

Inductive bootstrap_response : Type :=
| Unauthorized
| Bootstrapped (created_roles created_users : Z)
| BootstrapRaises.

(** INSERT of roles, the keys drawn from [fresh]. *)
Fixpoint add_roles (fresh : list Z -> Z) (new : list (string * string))
    (roles : list Role.t) : list Role.t :=
  match new with
  | [] => roles
  | (name, description) :: rest =>
      add_roles fresh rest
        (roles ++ [Role.mk (fresh (map Role.id roles)) name (Some description)])
  end.

(** [dev_bootstrap].  [fresh] gives the key of a new row from the keys in
    use, [generate_password_hash] is werkzeug's; the commit of the user
    raises when the e-mail is taken (the column is unique). *)
Definition dev_bootstrap (fresh : list Z -> Z)
    (generate_password_hash : string -> string) (config : Config.t)
    (token_req : string) (db : Db.t) : bootstrap_response * Db.t :=
  let token_cfg := Config.INIT_TOKEN config in
  if negb (String.eqb token_cfg "") && negb (String.eqb token_req token_cfg)
  then (Unauthorized, db)
  else
    let created_roles :=
      if (List.length (Db.roles db) =? 0)%nat then 3 else 0 in
    let roles :=
      if (List.length (Db.roles db) =? 0)%nat
      then add_roles fresh
             [("admin", "Quản trị"); ("manager", "Quản lý");
              ("user", "Nhân viên")] (Db.roles db)
      else Db.roles db in
    match find_user (Config.ADMIN_USERNAME config) (Db.users db) with
    | Some _ => (Bootstrapped created_roles 0, Db.mk roles (Db.users db))
    | None =>
        let roles :=
          match first (filter (fun r => String.eqb (Role.name r) "admin") roles) with
          | Some _ => roles
          | None => add_roles fresh [("admin", "Quản trị")] roles
          end in
        match first (filter (fun r => String.eqb (Role.name r) "admin") roles) with
        | None => (BootstrapRaises, Db.mk roles (Db.users db))
        | Some admin_role =>
            if existsb
                 (fun u => String.eqb (User.email u) (Config.ADMIN_EMAIL config))
                 (Db.users db)
            then (BootstrapRaises, Db.mk roles (Db.users db))
            else
              let u :=
                User.mk (fresh (map User.id (Db.users db)))
                  (Config.ADMIN_USERNAME config)
                  (generate_password_hash (Config.ADMIN_PASSWORD config))
                  (Config.ADMIN_EMAIL config)
                  (Role.id admin_role) (Some true) None None in
              (Bootstrapped created_roles 1,
               Db.mk roles (Db.users db ++ [u]))
        end
    end.

(* ================================================================= *)
(** ** Vocabulary of the calendar *)

(** The month and the day of the [n]-th day (from 0) of a year, the end
    of [_ord2ymd]. *)
Definition month_day (leapyear : bool) (n : Z) : Z * Z :=
  let month := Z.shiftr (n + 50) 5 in
  let preceding :=
    nth (Z.to_nat month) PyDate._DAYS_BEFORE_MONTH (-1)
    + (if (2 <? month) && leapyear then 1 else 0) in
  if n <? preceding then
    let month := month - 1 in
    let preceding :=
      preceding
      - (nth (Z.to_nat month) PyDate._DAYS_IN_MONTH (-1)
         + (if (month =? 2) && leapyear then 1 else 0)) in
    (month, n - preceding + 1)
  else (month, n - preceding + 1).

(** [_days_before_month] and [_days_in_month], by the leap flag. *)
Definition days_before (leapyear : bool) (m : Z) : Z :=
  nth (Z.to_nat m) PyDate._DAYS_BEFORE_MONTH (-1)
  + (if (2 <? m) && leapyear then 1 else 0).

Definition days_in (leapyear : bool) (m : Z) : Z :=
  if (m =? 2) && leapyear then 29
  else nth (Z.to_nat m) PyDate._DAYS_IN_MONTH (-1).

Definition month_day_ok (leapyear : bool) (n : Z) : bool :=
  let m := fst (month_day leapyear n) in
  let d := snd (month_day leapyear n) in
  (1 <=? m) && (m <=? 12) && (1 <=? d) && (d <=? days_in leapyear m)
  && (days_before leapyear m + d =? n + 1).

Definition months : list Z := [1; 2; 3; 4; 5; 6; 7; 8; 9; 10; 11; 12].

Definition month_table_ok (leapyear : bool) : bool :=
  forallb
    (fun m =>
       (0 <=? days_before leapyear m)
       && (days_before leapyear m + days_in leapyear m
           <=? 365 + (if leapyear then 1 else 0))
       && forallb
            (fun m' =>
               if m <? m'
               then days_before leapyear m + days_in leapyear m
                    <=? days_before leapyear m'
               else true)
            months)
    months.

(* ================================================================= *)
(** ** Vocabulary of the further statements *)

(** The records the loop of a page view stages on [table], [None] when
    it raises. *)
Definition batch_of (env : Env.t) (today : date) (assets : list Asset.t)
    (table : list record) : option (list record) :=
  option_map Session.new (schedule_all env today assets (Session.start table)).

(** [n] page views in a row, on the same day. *)
Fixpoint views (env : Env.t) (today : date) (assets : list Asset.t)
    (n : nat) (table : list record) : list record :=
  match n with
  | O => table
  | S k => table_after env today assets (views env today assets k table)
  end.

(** Asset [a] has a record in [l] that is due today or later. *)
Definition covered (today : date) (a : Asset.t) (l : list record) : Prop :=
  exists r d,
    In r l
    /\ MaintenanceRecord.asset_id r = Asset.id a
    /\ MaintenanceRecord.next_due_date r = Some d
    /\ today <= d.

(** The language of the session is one the login page has texts for. *)
Definition lang_ok (s : WebSession.t) : Prop :=
  WebSession.lang s = None
  \/ WebSession.lang s = Some "vi"
  \/ WebSession.lang s = Some "en".

(** The columns of a record that the scheduler reads. *)
Definition schedule_key (r : record) : Z * option date :=
  (MaintenanceRecord.asset_id r, MaintenanceRecord.next_due_date r).

(** Soft deletion of the records that [chosen] selects. *)
Definition soft_delete_some (chosen : record -> bool) (now : Z)
    (table : list record) : list record :=
  map (fun r => if chosen r then MaintenanceRecord.soft_delete now r else r)
    table.

(* ================================================================= *)
(** ** Further sample data *)

Module Case.

(** A password check that accepts the hash ["h:" ++ password]. *)
Definition check (hash password : string) : bool :=
  String.eqb hash (String.append "h:" password).

Definition hash (password : string) : string := String.append "h:" password.

(** Keys in sequence. *)
Definition fresh (ids : list Z) : Z := 1 + fold_right Z.max 0 ids.

Definition config : Config.t :=
  Config.mk "" "admin" "admin123" "admin@example.com".

Definition staff : Role.t := Role.mk 3 "user" None.

(** An inactive user. *)
Definition lan : User.t :=
  User.mk 7 "lan" "h:secret" "lan@example.com" 3 (Some false) None None.

(** An ILIKE that matches nothing. *)
Definition no_match (pattern s : string) : bool := false.

(** PostgreSQL ordering, nothing raises. *)
Definition env_nulls_high : Env.t :=
  Env.mk true (fun _ => false) (fun _ => false) (fun _ => false)
    Sample.plain_sum Sample.plain_sum.

(** Asset 1 has a record without due date and a record due in 2030. *)
Definition undated_table : list record :=
  [Sample.repair 1 (PyDate.mk 2023 12 1) None None None;
   Sample.repair 1 (PyDate.mk 2023 12 2) None (Some (PyDate.mk 2030 1 1)) None].

End Case.

(* ================================================================= *)
(** ** ORDER BY is a sort *)

Section OrderByFacts.
Context {A : Type} (leb : A -> A -> bool).

Lemma insert_by_perm (x : A) (l : list A) :
  Permutation (insert_by leb x l) (x :: l).
Proof.
  induction l as [|y t IH]; simpl.
  - apply Permutation_refl.
  - destruct (leb x y).
    + apply Permutation_refl.
    + eapply Permutation_trans.
      * apply perm_skip, IH.
      * apply perm_swap.
Qed.

Lemma order_by_perm (l : list A) : Permutation (order_by leb l) l.
Proof.
  induction l as [|x t IH]; simpl.
  - constructor.
  - eapply Permutation_trans.
    + apply insert_by_perm.
    + now apply perm_skip.
Qed.

Lemma order_by_In (x : A) (l : list A) : In x (order_by leb l) <-> In x l.
Proof.
  split; apply Permutation_in.
  - apply order_by_perm.
  - apply Permutation_sym, order_by_perm.
Qed.

Lemma order_by_length (l : list A) :
  List.length (order_by leb l) = List.length l.
Proof. apply Permutation_length, order_by_perm. Qed.

Lemma first_order_by_None (l : list A) :
  first (order_by leb l) = None -> l = [].
Proof.
  intros H. destruct (order_by leb l) eqn:E; [|discriminate].
  apply (f_equal (@List.length A)) in E. rewrite order_by_length in E.
  now destruct l.
Qed.

Lemma first_order_by_In (l : list A) (x : A) :
  first (order_by leb l) = Some x -> In x l.
Proof.
  intros H. apply order_by_In.
  destruct (order_by leb l); simpl in H; [discriminate|].
  injection H as ->. now left.
Qed.

Hypothesis leb_total : forall x y, leb x y = false -> leb y x = true.
Hypothesis leb_trans :
  forall x y z, leb x y = true -> leb y z = true -> leb x z = true.

Lemma insert_by_sorted (x : A) (l : list A) :
  StronglySorted (fun a b => leb a b = true) l ->
  StronglySorted (fun a b => leb a b = true) (insert_by leb x l).
Proof.
  induction 1 as [|y t Hs IH Hall]; simpl.
  - repeat constructor.
  - destruct (leb x y) eqn:E.
    + constructor; [now constructor|].
      constructor; [exact E|].
      rewrite Forall_forall in *. intros z Hz. eauto.
    + constructor; [exact IH|].
      rewrite Forall_forall in *. intros z Hz.
      apply (Permutation_in _ (insert_by_perm x t)) in Hz.
      destruct Hz as [<-|Hz]; auto.
Qed.

Lemma order_by_sorted (l : list A) :
  StronglySorted (fun a b => leb a b = true) (order_by leb l).
Proof.
  induction l as [|x t IH]; simpl.
  - constructor.
  - now apply insert_by_sorted.
Qed.

End OrderByFacts.

Lemma null_leb_total (b : bool) (x y : option date) :
  null_leb b x y = false -> null_leb b y x = true.
Proof.
  destruct x, y, b; simpl; intros H; try easy; lia.
Qed.

Lemma null_leb_trans (b : bool) (x y z : option date) :
  null_leb b x y = true -> null_leb b y z = true -> null_leb b x z = true.
Proof.
  destruct x, y, z, b; simpl; intros H1 H2; try easy; lia.
Qed.

(* ================================================================= *)
(** ** The scheduling loop *)

Lemma filter_by_asset_id_app (i : Z) (l1 l2 : list record) :
  filter_by_asset_id i (l1 ++ l2)
  = filter_by_asset_id i l1 ++ filter_by_asset_id i l2.
Proof. apply filter_app. Qed.

Lemma auto_record_same_id (a b : Asset.t) (today : date) :
  Asset.id a = Asset.id b -> auto_record a today = auto_record b today.
Proof. unfold auto_record. now intros ->. Qed.

(** The three ways an iteration ends. *)
Lemma schedule_asset_inv (env : Env.t) (today : date)
    (s : Session.t) (a : Asset.t) :
  let nd := next_due_of (last_record env s a) in
  (need_create nd today = false /\ schedule_asset env today s a = s)
  \/ (need_create nd today = true
      /\ Env.add_raises env (auto_record a today) = true
      /\ schedule_asset env today s a = Session.rollback s)
  \/ (need_create nd today = true
      /\ Env.add_raises env (auto_record a today) = false
      /\ schedule_asset env today s a = Session.add (auto_record a today) s).
Proof.
  unfold schedule_asset. cbv zeta.
  destruct (need_create _ today); [|now left].
  destruct (Env.add_raises env _); right; [left|right]; auto.
Qed.

Lemma schedule_asset_rows (env : Env.t) (today : date)
    (s : Session.t) (a : Asset.t) :
  Session.rows (schedule_asset env today s a) = Session.rows s.
Proof.
  destruct (schedule_asset_inv env today s a) as [[_ ->]|[(_ & _ & ->)|(_ & _ & ->)]];
    reflexivity.
Qed.

Lemma stage_all_rows (env : Env.t) (today : date)
    (assets : list Asset.t) (s : Session.t) :
  Session.rows (stage_all env today assets s) = Session.rows s.
Proof.
  unfold stage_all. revert s.
  induction assets as [|a t IH]; intros s; simpl.
  - reflexivity.
  - rewrite IH. apply schedule_asset_rows.
Qed.

(** The loop over a list of assets continues the loop over its first
    part. *)
Lemma schedule_all_app (env : Env.t) (today : date)
    (l1 l2 : list Asset.t) (s : Session.t) :
  schedule_all env today (l1 ++ l2) s
  = match schedule_all env today l1 s with
    | Some s1 => schedule_all env today l2 s1
    | None => None
    end.
Proof.
  revert s. induction l1 as [|a t IH]; intros s; simpl; [reflexivity|].
  destruct (Session.flush env s); [apply IH|reflexivity].
Qed.

Lemma stage_all_app (env : Env.t) (today : date)
    (l1 l2 : list Asset.t) (s : Session.t) :
  stage_all env today (l1 ++ l2) s
  = stage_all env today l2 (stage_all env today l1 s).
Proof. apply fold_left_app. Qed.

Lemma last_record_None (env : Env.t) (s : Session.t) (a : Asset.t) :
  last_record env s a = None <->
  filter_by_asset_id (Asset.id a) (Session.visible s) = [].
Proof.
  unfold last_record. split.
  - apply first_order_by_None.
  - now intros ->.
Qed.

(** The loop, when none of its queries raises. *)
Lemma schedule_all_stage (env : Env.t) (today : date)
    (assets : list Asset.t) (s s' : Session.t) :
  schedule_all env today assets s = Some s' ->
  s' = stage_all env today assets s.
Proof.
  unfold stage_all. revert s.
  induction assets as [|a t IH]; intros s; simpl.
  - now intros [= <-].
  - unfold Session.flush. destruct (existsb _ _); [discriminate|].
    apply IH.
Qed.

Lemma flush_accepts (env : Env.t) (s : Session.t) :
  (forall r, In r (Session.new s) -> Env.flush_raises env r = false) ->
  Session.flush env s = Some s.
Proof.
  intros H. unfold Session.flush.
  destruct (existsb _ _) eqn:E; [|reflexivity].
  apply existsb_exists in E. destruct E as (r & Hr & E).
  rewrite (H r Hr) in E. discriminate.
Qed.

Lemma flush_Some (env : Env.t) (s s' : Session.t) :
  Session.flush env s = Some s' -> s' = s.
Proof.
  unfold Session.flush. destruct (existsb _ _); [discriminate|].
  now intros [= <-].
Qed.

Lemma schedule_all_rows (env : Env.t) (today : date)
    (assets : list Asset.t) (s s' : Session.t) :
  schedule_all env today assets s = Some s' ->
  Session.rows s' = Session.rows s.
Proof.
  intros H. rewrite (schedule_all_stage _ _ _ _ _ H).
  apply stage_all_rows.
Qed.

Lemma commit_or_rollback_rows (env : Env.t) (s : Session.t) :
  commit_or_rollback env s
  = match Session.commit env s with
    | Some _ => Session.mk (Session.rows s ++ Session.new s) []
    | None => Session.mk (Session.rows s) []
    end.
Proof.
  unfold commit_or_rollback, Session.commit, Session.rollback, Session.flush.
  destruct (existsb _ _); [reflexivity|].
  now destruct (Env.commit_raises env _).
Qed.

(** The session that a page view leaves has nothing pending. *)
Lemma index_session (env : Env.t) (today : date)
    (assets : list Asset.t) (s : Session.t) :
  snd (index env true today assets s)
  = match schedule_all env today assets s with
    | Some s' => commit_or_rollback env s'
    | None => Session.rollback s
    end.
Proof.
  unfold index. simpl. now destruct (schedule_all env today assets s).
Qed.

Lemma table_after_eq (env : Env.t) (today : date)
    (assets : list Asset.t) (table : list record) :
  let batch :=
    Session.new (stage_all env today assets (Session.start table)) in
  table_after env today assets table
  = if commits env today assets table then table ++ batch else table.
Proof.
  unfold table_after, commits. rewrite index_session.
  destruct (schedule_all env today assets (Session.start table)) as [s|] eqn:E.
  - rewrite commit_or_rollback_rows.
    rewrite (schedule_all_stage _ _ _ _ _ E) in *.
    rewrite stage_all_rows. simpl.
    now destruct (Session.commit env _).
  - reflexivity.
Qed.

Lemma index_visible (env : Env.t) (today : date)
    (assets : list Asset.t) (table : list record) :
  Session.visible (snd (index env true today assets (Session.start table)))
  = table_after env today assets table.
Proof.
  unfold table_after. rewrite index_session.
  destruct (schedule_all env today assets (Session.start table)) as [s|].
  - rewrite commit_or_rollback_rows.
    destruct (Session.commit env s); unfold Session.visible; simpl;
      apply app_nil_r.
  - unfold Session.visible. simpl. apply app_nil_r.
Qed.

(** When storage accepts the automatic records of the assets, no query of
    the loop raises. *)
Lemma schedule_all_completes (env : Env.t) (today : date)
    (assets : list Asset.t) (s : Session.t) :
  (forall r, In r (Session.new s) -> Env.flush_raises env r = false) ->
  (forall a, In a assets ->
             Env.flush_raises env (auto_record a today) = false) ->
  schedule_all env today assets s = Some (stage_all env today assets s).
Proof.
  unfold stage_all. revert s.
  induction assets as [|a t IH]; intros s Hnew Hauto; simpl.
  - reflexivity.
  - rewrite (flush_accepts env s Hnew). apply IH.
    + intros r Hr.
      destruct (schedule_asset_inv env today s a)
        as [[_ E]|[(_ & _ & E)|(_ & _ & E)]]; rewrite E in Hr; simpl in Hr.
      * now apply Hnew.
      * destruct Hr.
      * apply in_app_or in Hr. destruct Hr as [Hr|[<-|[]]].
        -- now apply Hnew.
        -- apply Hauto. now left.
    + intros b Hb. apply Hauto. now right.
Qed.

Lemma no_failure_commits (env : Env.t) (today : date)
    (assets : list Asset.t) (table : list record) :
  no_failure env -> commits env today assets table = true.
Proof.
  intros (_ & Hflush & Hcommit). unfold commits.
  rewrite schedule_all_completes by auto.
  unfold Session.commit. rewrite flush_accepts by auto.
  now rewrite Hcommit.
Qed.

Section OneAsset.
Variables (env : Env.t) (today : date) (a : Asset.t).


Lemma last_record_committed (s : Session.t) (b : Asset.t) :
  Asset.id b = Asset.id a ->
  records_of a (Session.new s) = [] ->
  next_due_of (last_record env s b) = committed_due env a s.
Proof.
  intros Hid Hnew. unfold committed_due, last_record, records_of, Session.visible in *.
  now rewrite Hid, filter_by_asset_id_app, Hnew, app_nil_r.
Qed.

Lemma records_of_add_other (s : Session.t) (b : Asset.t) :
  Asset.id b <> Asset.id a ->
  records_of a (Session.new (Session.add (auto_record b today) s))
  = records_of a (Session.new s).
Proof.
  intros Hid. unfold records_of. simpl.
  rewrite filter_by_asset_id_app. simpl.
  destruct (Z.eqb_spec (Asset.id b) (Asset.id a)); [contradiction|].
  apply app_nil_r.
Qed.

Lemma records_of_add_same (s : Session.t) (b : Asset.t) :
  Asset.id b = Asset.id a ->
  records_of a (Session.new (Session.add (auto_record b today) s))
  = records_of a (Session.new s) ++ [auto_record a today].
Proof.
  intros Hid. unfold records_of. simpl.
  rewrite filter_by_asset_id_app. simpl.
  rewrite Hid, Z.eqb_refl. f_equal. f_equal.
  now apply auto_record_same_id.
Qed.

(** An asset whose latest due date is today or later gets no record. *)
Lemma settled_step (s : Session.t) (b : Asset.t) (d : date) :
  committed_due env a s = Some d -> today <= d ->
  records_of a (Session.new s) = [] ->
  records_of a (Session.new (schedule_asset env today s b)) = [].
Proof.
  intros Hd Hle Hnew.
  destruct (Z.eq_dec (Asset.id b) (Asset.id a)) as [Hid|Hid].
  - pose proof (last_record_committed s b Hid Hnew) as Hl.
    destruct (schedule_asset_inv env today s b)
      as [[_ ->]|[(Hn & _)|(Hn & _)]]; auto;
      rewrite Hl, Hd in Hn; simpl in Hn; lia.
  - destruct (schedule_asset_inv env today s b)
      as [[_ ->]|[(_ & _ & ->)|(_ & _ & ->)]]; auto.
    now rewrite records_of_add_other.
Qed.

Lemma settled_all (assets : list Asset.t) (s : Session.t) (d : date) :
  committed_due env a s = Some d -> today <= d ->
  records_of a (Session.new s) = [] ->
  records_of a (Session.new (stage_all env today assets s)) = [].
Proof.
  unfold stage_all. revert s.
  induction assets as [|b t IH]; intros s Hd Hle Hnew; simpl.
  - exact Hnew.
  - apply IH; auto.
    + unfold committed_due in *. now rewrite schedule_asset_rows.
    + now apply settled_step with d.
Qed.

(** An asset without history gets at most one record in a pass. *)
Lemma fresh_step (s : Session.t) (b : Asset.t) :
  records_of a (Session.rows s) = [] ->
  at_most_auto today a s -> at_most_auto today a (schedule_asset env today s b).
Proof.
  intros Hrows Hinv. unfold at_most_auto in *.
  destruct (Z.eq_dec (Asset.id b) (Asset.id a)) as [Hid|Hid].
  - destruct Hinv as [Hnew|Hnew].
    + destruct (schedule_asset_inv env today s b)
        as [[_ ->]|[(_ & _ & ->)|(_ & _ & ->)]]; auto.
      right. now rewrite records_of_add_same, Hnew.
    + assert (Hl : next_due_of (last_record env s b)
                   = Some (PyDate.add_days today 365)).
      { unfold last_record, Session.visible.
        rewrite Hid, filter_by_asset_id_app.
        unfold records_of in *. now rewrite Hrows, Hnew. }
      destruct (schedule_asset_inv env today s b)
        as [[_ ->]|[(Hn & _)|(Hn & _)]]; auto;
        rewrite Hl in Hn; unfold PyDate.add_days in Hn; simpl in Hn; lia.
  - destruct (schedule_asset_inv env today s b)
      as [[_ ->]|[(_ & _ & ->)|(_ & _ & ->)]]; auto.
    now rewrite records_of_add_other.
Qed.

Lemma fresh_all (assets : list Asset.t) (s : Session.t) :
  records_of a (Session.rows s) = [] ->
  at_most_auto today a s -> at_most_auto today a (stage_all env today assets s).
Proof.
  unfold stage_all. revert s.
  induction assets as [|b t IH]; intros s Hrows Hinv; simpl.
  - exact Hinv.
  - apply IH.
    + now rewrite schedule_asset_rows.
    + now apply fresh_step.
Qed.

(** When nothing raises, an asset that needs a record has one staged
    once the loop has passed it. *)
Hypothesis add_ok : forall r, Env.add_raises env r = false.

Lemma staged_kept (s : Session.t) (b : Asset.t) :
  In (auto_record a today) (Session.new s) ->
  In (auto_record a today) (Session.new (schedule_asset env today s b)).
Proof.
  intros Hin.
  destruct (schedule_asset_inv env today s b)
    as [[_ ->]|[(_ & Hr & _)|(_ & _ & ->)]]; auto.
  - rewrite add_ok in Hr. discriminate.
  - simpl. apply in_or_app. now left.
Qed.

Lemma staged_kept_all (assets : list Asset.t) (s : Session.t) :
  In (auto_record a today) (Session.new s) ->
  In (auto_record a today) (Session.new (stage_all env today assets s)).
Proof.
  unfold stage_all. revert s.
  induction assets as [|b t IH]; intros s Hin; simpl; auto using staged_kept.
Qed.

Lemma needed_step (s : Session.t) (b : Asset.t) :
  need_create (committed_due env a s) today = true ->
  staged_or_untouched today a s ->
  staged_or_untouched today a (schedule_asset env today s b)
  /\ (Asset.id b = Asset.id a ->
      In (auto_record a today) (Session.new (schedule_asset env today s b))).
Proof.
  intros Hneed [Hin|Hnew].
  - split; [left|intros _]; now apply staged_kept.
  - destruct (Z.eq_dec (Asset.id b) (Asset.id a)) as [Hid|Hid].
    + pose proof (last_record_committed s b Hid Hnew) as Hl.
      assert (Hgoal : In (auto_record a today)
                        (Session.new (schedule_asset env today s b))).
      { destruct (schedule_asset_inv env today s b)
          as [[Hn _]|[(_ & Hr & _)|(_ & _ & ->)]].
        - rewrite Hl, Hneed in Hn. discriminate.
        - rewrite add_ok in Hr. discriminate.
        - simpl. apply in_or_app. right.
          rewrite (auto_record_same_id b a today Hid). now left. }
      split; [now left|now intros _].
    + split; [|intros E; contradiction].
      right.
      destruct (schedule_asset_inv env today s b)
        as [[_ ->]|[(_ & _ & ->)|(_ & _ & ->)]]; auto.
      now rewrite records_of_add_other.
Qed.

Lemma needed_all (assets : list Asset.t) (s : Session.t) :
  need_create (committed_due env a s) today = true ->
  staged_or_untouched today a s ->
  In a assets ->
  In (auto_record a today) (Session.new (stage_all env today assets s)).
Proof.
  unfold stage_all. revert s.
  induction assets as [|b t IH]; intros s Hneed Hinv Hin; simpl.
  - destruct Hin.
  - destruct (needed_step s b Hneed Hinv) as [Hinv' Hnow].
    destruct Hin as [->|Hin].
    + apply (staged_kept_all t). now apply Hnow.
    + apply IH; auto.
      unfold committed_due in *. now rewrite schedule_asset_rows.
Qed.

End OneAsset.

Lemma in_records_of (a : Asset.t) (r : record) (l : list record) :
  In r (records_of a l) <->
  In r l /\ MaintenanceRecord.asset_id r = Asset.id a.
Proof.
  unfold records_of, filter_by_asset_id. rewrite filter_In.
  now rewrite Z.eqb_eq.
Qed.

Lemma at_most_auto_staged (today : date) (a : Asset.t) (s : Session.t) :
  at_most_auto today a s ->
  In (auto_record a today) (Session.new s) ->
  records_of a (Session.new s) = [auto_record a today].
Proof.
  intros [H|H] Hin; [|exact H].
  assert (Hr : In (auto_record a today) (records_of a (Session.new s)))
    by now apply in_records_of.
  rewrite H in Hr. destruct Hr.
Qed.

Lemma committed_due_fresh (env : Env.t) (a : Asset.t) (s : Session.t) :
  records_of a (Session.rows s) = [] -> committed_due env a s = None.
Proof. unfold committed_due. now intros ->. Qed.

(** A page view on a table where [a] has no record. *)
Lemma view_fresh (env : Env.t) (today : date) (assets : list Asset.t)
    (a : Asset.t) (table : list record) :
  records_of a table = [] ->
  let table' := table_after env today assets table in
  (records_of a table' = [] \/ records_of a table' = [auto_record a today])
  /\ (no_failure env -> In a assets ->
      records_of a table' = [auto_record a today]).
Proof.
  intros Hrows table'. subst table'.
  rewrite table_after_eq. cbv zeta.
  set (s := stage_all env today assets (Session.start table)).
  assert (Hinv : at_most_auto today a s)
    by (apply fresh_all; [exact Hrows|now left]).
  split.
  - destruct (commits env today assets table); [|now left].
    unfold records_of in *. rewrite filter_by_asset_id_app, Hrows. exact Hinv.
  - intros Hok Hin. rewrite (no_failure_commits env today assets table Hok).
    destruct Hok as (Hadd & _ & _).
    unfold records_of in *. rewrite filter_by_asset_id_app, Hrows. simpl.
    apply at_most_auto_staged; [exact Hinv|].
    apply needed_all; auto.
    + now rewrite committed_due_fresh.
    + now right.
Qed.

(** A page view on a table where the latest record of [a] is due today or
    later. *)
Lemma view_settled (env : Env.t) (today : date) (assets : list Asset.t)
    (a : Asset.t) (table : list record) (d : date) :
  committed_due env a (Session.start table) = Some d -> today <= d ->
  records_of a (table_after env today assets table) = records_of a table.
Proof.
  intros Hd Hle. rewrite table_after_eq. cbv zeta.
  destruct (commits env today assets table); [|reflexivity].
  unfold records_of. rewrite filter_by_asset_id_app.
  fold (records_of a table).
  fold (records_of a (Session.new
                        (stage_all env today assets (Session.start table)))).
  rewrite (settled_all env today a assets (Session.start table) d); auto.
  apply app_nil_r.
Qed.

(** Every pending record was pending before the loop or is the automatic
    record of an asset of the loop. *)
Lemma new_are_auto (env : Env.t) (today : date) (assets : list Asset.t)
    (s : Session.t) (r : record) :
  In r (Session.new (stage_all env today assets s)) ->
  In r (Session.new s) \/ exists a, In a assets /\ r = auto_record a today.
Proof.
  unfold stage_all. revert s.
  induction assets as [|b t IH]; intros s Hin; simpl in Hin.
  - now left.
  - apply IH in Hin. destruct Hin as [Hin|(a & Ha & ->)].
    + destruct (schedule_asset_inv env today s b)
        as [[_ E]|[(_ & _ & E)|(_ & _ & E)]]; rewrite E in Hin; simpl in Hin.
      * now left.
      * destruct Hin.
      * apply in_app_or in Hin. destruct Hin as [Hin|[<-|[]]].
        -- now left.
        -- right. exists b. split; [now left|reflexivity].
    + right. exists a. split; [now right|reflexivity].
Qed.

(* ================================================================= *)
(** ** The scheduler *)

(** C1. Idempotence within a day: on an asset without maintenance history,
    two views of the home page on the same day leave at most one record
    of the asset; they leave exactly the one automatic record as soon as
    one of the two views runs without a failure, and the first view
    alone does when it runs without a failure. *)
Theorem scheduler_idempotent_same_day :
  forall (env1 env2 : Env.t) (today : date) (assets : list Asset.t)
         (a : Asset.t) (table : list record),
    In a assets ->
    records_of a table = [] ->
    let table1 := table_after env1 today assets table in
    let table2 := table_after env2 today assets table1 in
    (List.length (records_of a table2) <= 1)%nat
    /\ (no_failure env1 -> records_of a table1 = [auto_record a today])
    /\ (no_failure env1 \/ no_failure env2 ->
        records_of a table2 = [auto_record a today]).
Proof.
  intros env1 env2 today assets a table Hin Hrows table1 table2.
  destruct (view_fresh env1 today assets a table Hrows) as [H1 H1ok].
  fold table1 in H1, H1ok.
  assert (Hkeep : records_of a table1 = [auto_record a today] ->
                  records_of a table2 = [auto_record a today]).
  { intros E. subst table2.
    rewrite (view_settled env2 today assets a table1 (PyDate.add_days today 365));
      auto.
    - unfold committed_due. simpl. now rewrite E.
    - unfold PyDate.add_days. lia. }
  destruct H1 as [E1|E1].
  - destruct (view_fresh env2 today assets a table1 E1) as [H2 H2ok].
    fold table2 in H2, H2ok.
    split; [|split].
    + destruct H2 as [->| ->]; simpl; lia.
    + intros Hok. rewrite (H1ok Hok Hin) in E1. discriminate.
    + intros [Hok|Hok]; [|now apply H2ok].
      rewrite (H1ok Hok Hin) in E1. discriminate.
  - split; [|split].
    + rewrite (Hkeep E1). simpl; lia.
    + now intros _.
    + intros _. now apply Hkeep.
Qed.

Lemma scheduler_idempotent_same_day_witness :
  records_of Sample.pc
    (table_after Sample.env_ok Sample.day [Sample.pc; Sample.printer]
       (table_after Sample.env_ok Sample.day [Sample.pc; Sample.printer] []))
  = [auto_record Sample.pc Sample.day].
Proof.
  apply (scheduler_idempotent_same_day Sample.env_ok Sample.env_ok Sample.day
           [Sample.pc; Sample.printer] Sample.pc []).
  - simpl. now left.
  - reflexivity.
  - left. repeat split.
Defined.

(** C2 (amended). Date arithmetic of the automatic record: every record a
    page view adds is the automatic record of one of the assets, dated
    today and due 365 days later; for an asset without records and today
    = 2024-01-10, a view without failure leaves exactly one record of
    the asset, due on 2025-01-09 (2024 is a leap year). *)
Theorem auto_schedule_date_math :
  forall (env : Env.t) (today : date) (assets : list Asset.t)
         (table : list record),
    (forall r, In r (table_after env today assets table) ->
       In r table
       \/ (exists a, In a assets /\ r = auto_record a today)
          /\ MaintenanceRecord.maintenance_date r = today
          /\ MaintenanceRecord.next_due_date r
             = Some (PyDate.add_days today 365))
    /\ (forall a, today = PyDate.mk 2024 1 10 -> no_failure env ->
          In a assets -> records_of a table = [] ->
          exists r,
            records_of a (table_after env today assets table) = [r]
            /\ MaintenanceRecord.next_due_date r = Some (PyDate.mk 2025 1 9)
            /\ option_map PyDate._ord2ymd (MaintenanceRecord.next_due_date r)
               = Some (2025, 1, 9)).
Proof.
  intros env today assets table. split.
  - intros r Hin. rewrite table_after_eq in Hin. cbv zeta in Hin.
    destruct (commits env today assets table); [|now left].
    apply in_app_or in Hin. destruct Hin as [Hin|Hin]; [now left|].
    apply new_are_auto in Hin. destruct Hin as [[]|(a & Ha & ->)].
    right. split; [|split]; try reflexivity. now exists a.
  - intros a -> Hok Hin Hrows.
    exists (auto_record a (PyDate.mk 2024 1 10)). split; [|split].
    + now apply view_fresh.
    + reflexivity.
    + reflexivity.
Qed.

Lemma auto_schedule_date_math_witness :
  exists r,
    records_of Sample.pc (table_after Sample.env_ok Sample.day [Sample.pc] [])
    = [r]
    /\ MaintenanceRecord.next_due_date r = Some (PyDate.mk 2025 1 9)
    /\ option_map PyDate._ord2ymd (MaintenanceRecord.next_due_date r)
       = Some (2025, 1, 9).
Proof.
  apply (auto_schedule_date_math Sample.env_ok Sample.day [Sample.pc] []).
  - reflexivity.
  - repeat split.
  - simpl. now left.
  - reflexivity.
Defined.

(** C2, as stated, fails: with today = 2024-01-10 and one asset without
    records, the record that is created is due on 2025-01-09, not on
    2025-01-10. *)
Lemma auto_schedule_2024_counterexample :
  exists r,
    table_after Sample.env_ok (PyDate.mk 2024 1 10) [Sample.pc] [] = [r]
    /\ MaintenanceRecord.next_due_date r
       = Some (PyDate.add_days (PyDate.mk 2024 1 10) 365)
    /\ MaintenanceRecord.next_due_date r <> Some (PyDate.mk 2025 1 10)
    /\ option_map PyDate._ord2ymd (MaintenanceRecord.next_due_date r)
       <> Some (2025, 1, 10).
Proof.
  exists (auto_record Sample.pc (PyDate.mk 2024 1 10)).
  repeat split; try reflexivity; intros H; vm_compute in H; discriminate.
Qed.

(** C3. The threshold is strict: a record is needed exactly when the
    latest due date is missing or strictly before today; an asset whose
    latest record is due today is left alone by its iteration and gets
    no record from the page view; an asset without any record enters the
    creating branch. *)
Theorem recreation_threshold_strict :
  forall (env : Env.t) (today : date) (a : Asset.t) (s : Session.t),
    (forall next_due,
       need_create next_due today = true <->
       next_due = None \/ exists d, next_due = Some d /\ d < today)
    /\ (forall r, last_record env s a = Some r ->
          MaintenanceRecord.next_due_date r = Some today ->
          schedule_asset env today s a = s)
    /\ (forall assets table r,
          last_record env (Session.start table) a = Some r ->
          MaintenanceRecord.next_due_date r = Some today ->
          records_of a (table_after env today assets table)
          = records_of a table)
    /\ (records_of a (Session.visible s) = [] ->
        need_create (next_due_of (last_record env s a)) today = true
        /\ schedule_asset env today s a
           = if Env.add_raises env (auto_record a today)
             then Session.rollback s
             else Session.add (auto_record a today) s).
Proof.
  intros env today a s. repeat split.
  - destruct next_due as [d|]; simpl; intros H; [right|now left].
    exists d. split; [reflexivity|lia].
  - intros [H|(d & -> & H)]; [now subst|]. simpl. lia.
  - intros r Hlast Hdue. unfold schedule_asset.
    rewrite Hlast. simpl. rewrite Hdue. simpl.
    now rewrite Z.ltb_irrefl.
  - intros assets table r Hlast Hdue.
    apply view_settled with today; [|lia].
    unfold committed_due, records_of.
    unfold last_record, Session.visible in Hlast.
    simpl in Hlast. rewrite app_nil_r in Hlast.
    change (Session.rows (Session.start table)) with table.
    now rewrite Hlast.
  - apply (proj2 (last_record_None env s a)) in H. now rewrite H.
  - apply (proj2 (last_record_None env s a)) in H.
    unfold schedule_asset. now rewrite H.
Qed.

Lemma recreation_threshold_strict_witness :
  let due_today :=
    Sample.repair 1 (PyDate.mk 2023 1 10) None (Some Sample.day) None in
  records_of Sample.pc
    (table_after Sample.env_ok Sample.day [Sample.pc; Sample.printer]
       [due_today])
  = [due_today].
Proof.
  intros due_today.
  apply (proj1 (proj2 (proj2
           (recreation_threshold_strict Sample.env_ok Sample.day Sample.pc
              (Session.start [due_today]))))
           [Sample.pc; Sample.printer] [due_today] due_today);
    reflexivity.
Defined.

(** C10. No filter on the assets: whatever its status and soft-delete
    marker, an asset of the table whose latest due date is missing or
    past has its automatic record in the table after a page view without
    failure. *)
Theorem scheduler_ignores_status_and_soft_delete :
  forall (env : Env.t) (today : date) (assets : list Asset.t)
         (table : list record) (i : Z) (name : string)
         (status : option string) (deleted_at : option Z),
    let a := Asset.mk i name status deleted_at in
    no_failure env ->
    In a assets ->
    need_create (next_due_of (last_record env (Session.start table) a)) today
    = true ->
    In (auto_record a today) (table_after env today assets table).
Proof.
  intros env today assets table i name status deleted_at a Hok Hin Hneed.
  rewrite table_after_eq. cbv zeta.
  rewrite (no_failure_commits env today assets table Hok).
  destruct Hok as (Hadd & _ & _).
  apply in_or_app. right.
  apply needed_all; auto.
  - rewrite <- Hneed. f_equal.
    symmetry. now apply last_record_committed.
  - now right.
Qed.

Lemma scheduler_ignores_status_and_soft_delete_witness :
  In (auto_record Sample.printer Sample.day)
    (table_after Sample.env_ok Sample.day [Sample.pc; Sample.printer]
       [Sample.repair 2 (PyDate.mk 2022 5 1) None
          (Some (PyDate.mk 2023 5 1)) None]).
Proof.
  apply (scheduler_ignores_status_and_soft_delete Sample.env_ok Sample.day
           [Sample.pc; Sample.printer] _ 2 "printer" (Some "disposed")
           (Some 1700000000)).
  - repeat split.
  - simpl. right. now left.
  - reflexivity.
Defined.

(** C6. One batch, all or nothing.  A pass that reaches its commit has
    staged automatic records only, and the commit settles them as a
    whole: when it raises, storage rejecting a record that is still to
    be written or the COMMIT failing, the session is rolled back, none
    of the staged records is kept and the page is rendered all the same;
    otherwise the table is the old one followed by the whole batch.  So
    it is for a batch of two records A, B when storage rejects B.  The
    view raises only before the commit, when the query of a later asset
    writes a staged record that storage rejects; the table is unchanged
    then too, and it does not happen when storage accepts the automatic
    records of the assets. *)
Theorem batch_commit_atomic :
  forall (env : Env.t) (today : date) (assets : list Asset.t)
         (table : list record),
    let out := index env true today assets (Session.start table) in
    (forall s,
       schedule_all env today assets (Session.start table) = Some s ->
       Session.rows s = table
       /\ (forall r, In r (Session.new s) ->
                     exists a, In a assets /\ r = auto_record a today)
       /\ (exists page,
             out = (Rendered page,
                    Session.mk
                      (match Session.commit env s with
                       | Some _ => table ++ Session.new s
                       | None => table
                       end)
                      []))
       /\ (Env.commit_raises env (Session.new s) = true ->
           Session.commit env s = None)
       /\ (forall A B,
             Session.new s = [A; B] -> Env.flush_raises env B = true ->
             Session.commit env s = None
             /\ table_after env today assets table = table))
    /\ (schedule_all env today assets (Session.start table) = None ->
        out = (Raised, Session.mk table []))
    /\ ((forall a, In a assets ->
                   Env.flush_raises env (auto_record a today) = false) ->
        exists page, fst out = Rendered page).
Proof.
  intros env today assets table out. split; [|split].
  - intros s Hs.
    pose proof (schedule_all_rows env today assets _ _ Hs) as Hrows.
    simpl in Hrows.
    assert (Hout : exists page,
              out = (Rendered page,
                     Session.mk
                       (match Session.commit env s with
                        | Some _ => table ++ Session.new s
                        | None => table
                        end)
                       [])).
    { unfold out, index. simpl. rewrite Hs.
      eexists. f_equal. rewrite commit_or_rollback_rows, Hrows.
      now destruct (Session.commit env s). }
    split; [exact Hrows|]. split; [|split; [exact Hout|split]].
    + intros r Hr. rewrite (schedule_all_stage _ _ _ _ _ Hs) in Hr.
      apply new_are_auto in Hr. now destruct Hr as [[]|Hr].
    + intros Hc. unfold Session.commit, Session.flush.
      destruct (existsb _ _); [reflexivity|]. now rewrite Hc.
    + intros A B Hnew HB.
      assert (Hc : Session.commit env s = None).
      { unfold Session.commit, Session.flush. rewrite Hnew. simpl.
        rewrite HB. now rewrite orb_true_r. }
      split; [exact Hc|].
      unfold table_after. rewrite index_session, Hs, commit_or_rollback_rows.
      now rewrite Hc.
  - intros Hs. unfold out, index. simpl. now rewrite Hs.
  - intros Hauto. unfold out, index. simpl.
    rewrite schedule_all_completes; [|intros r []|exact Hauto].
    eexists. reflexivity.
Qed.

Lemma batch_commit_atomic_witness :
  let env := Sample.env_storage_rejects 2 in
  Session.commit env
    (Session.mk []
       [auto_record Sample.pc Sample.day;
        auto_record Sample.printer Sample.day])
  = None
  /\ table_after env Sample.day [Sample.pc; Sample.printer] [] = [].
Proof.
  intros env.
  apply (proj2 (proj2 (proj2 (proj2
           (proj1 (batch_commit_atomic env Sample.day
                     [Sample.pc; Sample.printer] [])
              (Session.mk []
                 [auto_record Sample.pc Sample.day;
                  auto_record Sample.printer Sample.day])
              eq_refl))))
           (auto_record Sample.pc Sample.day)
           (auto_record Sample.printer Sample.day));
    reflexivity.
Defined.

(** A batch of two staged records, storage rejecting the second: the
    commit raises, neither record is kept and the page is rendered. *)
Example batch_of_two_discarded :
  let env := Sample.env_storage_rejects 2 in
  schedule_all env Sample.day [Sample.pc; Sample.printer] (Session.start [])
  = Some (Session.mk []
            [auto_record Sample.pc Sample.day;
             auto_record Sample.printer Sample.day])
  /\ table_after env Sample.day [Sample.pc; Sample.printer] [] = []
  /\ exists page,
       fst (index env true Sample.day [Sample.pc; Sample.printer]
              (Session.start []))
       = Rendered page.
Proof.
  repeat split. eexists. reflexivity.
Qed.

(** Storage rejecting the first of them: the query of the second asset
    writes it, outside every [try], and the view raises. *)
Example storage_failure_before_commit :
  index (Sample.env_storage_rejects 1) true Sample.day
    [Sample.pc; Sample.printer] (Session.start [])
  = (Raised, Session.mk [] []).
Proof. reflexivity. Qed.




(* ================================================================= *)
(** ** Due lists and due counts *)

Lemma StronglySorted_on_members {A : Type} (R R' : A -> A -> Prop)
    (l : list A) :
  (forall x y, In x l -> In y l -> R x y -> R' x y) ->
  StronglySorted R l -> StronglySorted R' l.
Proof.
  intros Himp Hs. induction Hs as [|x t Hs IH Hall].
  - constructor.
  - constructor.
    + apply IH. intros y z Hy Hz. apply Himp; now right.
    + rewrite Forall_forall in *. intros y Hy.
      apply Himp; [now left|now right|now apply Hall].
Qed.

Lemma due_on_or_before_spec (limit_date : date) (r : record) :
  due_on_or_before limit_date r = true <->
  exists d, MaintenanceRecord.next_due_date r = Some d /\ d <= limit_date.
Proof.
  unfold due_on_or_before.
  destruct (MaintenanceRecord.next_due_date r) as [d|]; split.
  - intros H. exists d. split; [reflexivity|lia].
  - intros (d' & [= <-] & H). lia.
  - discriminate.
  - now intros (d' & [=] & _).
Qed.

Lemma list_due_sorted (env : Env.t) (limit_date : date) (l : list record) :
  StronglySorted due_le
    (order_by (next_due_asc env) (filter (due_on_or_before limit_date) l)).
Proof.
  apply StronglySorted_on_members
    with (R := fun r1 r2 => next_due_asc env r1 r2 = true).
  - intros x y Hx Hy Hle.
    apply order_by_In, filter_In in Hx. apply order_by_In, filter_In in Hy.
    destruct Hx as [_ Hx], Hy as [_ Hy].
    apply due_on_or_before_spec in Hx, Hy.
    destruct Hx as (dx & Ex & _), Hy as (dy & Ey & _).
    unfold due_le, next_due_asc in *. rewrite Ex, Ey in *. simpl in Hle. lia.
  - apply order_by_sorted; unfold next_due_asc.
    + intros x y. apply null_leb_total.
    + intros x y z. apply null_leb_trans.
Qed.

(** What a rendered page shows. *)
Lemma index_rendered (env : Env.t) (today : date) (assets : list Asset.t)
    (s : Session.t) (page : IndexPage.t) :
  fst (index env true today assets s) = Rendered page ->
  let due := list_due env today (snd (index env true today assets s)) in
  let overdue := count_if (due_before today) due in
  let due_soon := count_if (due_from today) due in
  IndexPage.due_records page = due
  /\ IndexPage.flashed page
     = if negb (overdue =? 0) then Some ("warning", overdue)
       else if negb (due_soon =? 0) then Some ("info", due_soon)
       else None.
Proof.
  cbv zeta. unfold index. simpl.
  destruct (schedule_all env today assets s); [|discriminate].
  simpl. intros [= <-]. split; reflexivity.
Qed.

(** C4. The due list of the home page: the records of the table with a
    due date no later than today + 30 days, sorted by ascending due date,
    cut after the first 10. *)
Theorem list_due_correct :
  forall (env : Env.t) (today : date) (assets : list Asset.t)
         (table : list record) (page : IndexPage.t),
    fst (index env true today assets (Session.start table)) = Rendered page ->
    exists sorted,
      (forall r,
         In r sorted <->
         In r (table_after env today assets table)
         /\ exists d, MaintenanceRecord.next_due_date r = Some d
                      /\ d <= today + 30)
      /\ Permutation sorted
           (filter (due_on_or_before (today + 30))
              (table_after env today assets table))
      /\ StronglySorted due_le sorted
      /\ IndexPage.due_records page = firstn 10 sorted
      /\ (List.length (IndexPage.due_records page) <= 10)%nat.
Proof.
  intros env today assets table page Hpage.
  destruct (index_rendered env today assets (Session.start table) page Hpage)
    as [Hdue _].
  exists (order_by (next_due_asc env)
            (filter (due_on_or_before (today + 30))
               (table_after env today assets table))).
  split; [|split; [|split; [|split]]].
  - intros r. rewrite order_by_In, filter_In, due_on_or_before_spec.
    reflexivity.
  - apply order_by_perm.
  - apply list_due_sorted.
  - rewrite Hdue. unfold list_due, limit, PyDate.add_days.
    now rewrite index_visible.
  - rewrite Hdue. unfold list_due, limit. apply firstn_le_length.
Qed.

Lemma list_due_correct_witness :
  exists page sorted,
    fst (index Sample.env_ok true Sample.day [Sample.pc; Sample.printer]
           (Session.start Sample.boundary_table))
    = Rendered page
    /\ Permutation sorted
         (filter (due_on_or_before (Sample.day + 30))
            (table_after Sample.env_ok Sample.day [Sample.pc; Sample.printer]
               Sample.boundary_table))
    /\ StronglySorted due_le sorted
    /\ IndexPage.due_records page = firstn 10 sorted.
Proof.
  eexists.
  destruct (list_due_correct Sample.env_ok Sample.day
              [Sample.pc; Sample.printer] Sample.boundary_table _ eq_refl)
    as (sorted & _ & Hperm & Hsorted & Hdue & _).
  exists sorted. split; [reflexivity|]. split; [exact Hperm|].
  split; [exact Hsorted|exact Hdue].
Defined.

Lemma due_before_is_overdue (today window : date) (r : record) :
  due_before today r = is_overdue today window r.
Proof.
  unfold due_before, is_overdue, classify.
  destruct (MaintenanceRecord.next_due_date r) as [d|]; [|reflexivity].
  destruct (d <? today); [reflexivity|].
  now destruct (d <=? today + window).
Qed.

Lemma due_between_is_due_soon (today window : date) (r : record) :
  due_between today (PyDate.add_days today window) r
  = is_due_soon today window r.
Proof.
  unfold due_between, is_due_soon, classify, PyDate.add_days.
  destruct (MaintenanceRecord.next_due_date r) as [d|]; [|reflexivity].
  destruct (Z.ltb_spec d today), (Z.leb_spec today d); try lia; simpl;
    now destruct (d <=? today + window).
Qed.

Lemma due_from_is_due_soon (today window : date) (r : record) :
  due_on_or_before (PyDate.add_days today window) r = true ->
  due_from today r = is_due_soon today window r.
Proof.
  unfold due_on_or_before, due_from, is_due_soon, classify, PyDate.add_days.
  destruct (MaintenanceRecord.next_due_date r) as [d|]; [|reflexivity].
  intros H. rewrite H.
  destruct (Z.ltb_spec d today), (Z.leb_spec today d); try lia; reflexivity.
Qed.

Lemma count_if_ext_in {A : Type} (p q : A -> bool) (l : list A) :
  (forall x, In x l -> p x = q x) -> count_if p l = count_if q l.
Proof.
  intros H. unfold count_if. f_equal. f_equal. now apply filter_ext_in.
Qed.

Lemma limit_In {A : Type} (n : nat) (l : list A) (x : A) :
  In x (limit n l) -> In x l.
Proof.
  unfold limit. revert l.
  induction n as [|n IH]; intros [|y t]; simpl; try tauto.
  intros [->|H]; [now left|right; now apply IH].
Qed.

Lemma list_due_members (env : Env.t) (today : date) (s : Session.t)
    (r : record) :
  In r (list_due env today s) ->
  due_on_or_before (PyDate.add_days today 30) r = true.
Proof.
  unfold list_due. intros H.
  apply limit_In, order_by_In, filter_In in H. tauto.
Qed.

Lemma maintenance_dashboard_due_counts (env : Env.t) (today : date)
    (table : list record) (d : Dashboard.t) :
  maintenance_dashboard env today table = Some d ->
  Dashboard.overdue d = count_if (due_before today) table
  /\ Dashboard.due_30 d
     = count_if (due_between today (PyDate.add_days today 30)) table.
Proof.
  unfold maintenance_dashboard. cbv zeta.
  destruct (avg_cost_per_record_of _ _); [|discriminate].
  intros [= <-]. split; reflexivity.
Qed.

(** C5. Boundaries of the classifier: a due date of today - 1 is
    overdue, of today is due soon, of today + 31 is neither (window of 30
    days).  The dashboard counts the overdue and the due-soon records of
    the whole table; the home page counts them in its due list, where
    every record is overdue or due soon. *)
Theorem due_window_classification :
  forall (env : Env.t) (today : date) (table : list record),
    (forall r,
       (MaintenanceRecord.next_due_date r = Some (today - 1) ->
        classify today 30 r = Overdue)
       /\ (MaintenanceRecord.next_due_date r = Some today ->
           classify today 30 r = DueSoon)
       /\ (MaintenanceRecord.next_due_date r = Some (today + 31) ->
           classify today 30 r = Neither))
    /\ (forall d, maintenance_dashboard env today table = Some d ->
          Dashboard.overdue d = count_if (is_overdue today 30) table
          /\ Dashboard.due_30 d = count_if (is_due_soon today 30) table)
    /\ (forall assets page,
          fst (index env true today assets (Session.start table))
          = Rendered page ->
          (forall r, In r (IndexPage.due_records page) ->
             classify today 30 r <> Neither)
          /\ let overdue :=
               count_if (is_overdue today 30) (IndexPage.due_records page) in
             let due_soon :=
               count_if (is_due_soon today 30) (IndexPage.due_records page) in
             IndexPage.flashed page
             = if negb (overdue =? 0) then Some ("warning", overdue)
               else if negb (due_soon =? 0) then Some ("info", due_soon)
               else None).
Proof.
  intros env today table. split; [|split].
  - intros r. unfold classify. repeat split; intros ->.
    + destruct (Z.ltb_spec (today - 1) today); [reflexivity|lia].
    + rewrite Z.ltb_irrefl.
      destruct (Z.leb_spec today (today + 30)); [reflexivity|lia].
    + destruct (Z.ltb_spec (today + 31) today); [lia|].
      destruct (Z.leb_spec (today + 31) (today + 30)); [lia|reflexivity].
  - intros d Hd.
    destruct (maintenance_dashboard_due_counts env today table d Hd)
      as [-> ->].
    split; apply count_if_ext_in; intros r _.
    + apply due_before_is_overdue.
    + apply due_between_is_due_soon.
  - intros assets page Hpage.
    destruct (index_rendered env today assets (Session.start table) page Hpage)
      as (Hdue & Hflash).
    split.
    + intros r Hr. rewrite Hdue in Hr. apply list_due_members in Hr.
      unfold due_on_or_before, PyDate.add_days in Hr. unfold classify.
      destruct (MaintenanceRecord.next_due_date r) as [d|]; [|discriminate].
      destruct (d <? today); [discriminate|]. now rewrite Hr.
    + cbv zeta. rewrite Hflash, Hdue.
      set (l := list_due env today _).
      rewrite (count_if_ext_in (due_before today) (is_overdue today 30) l).
      * rewrite (count_if_ext_in (due_from today) (is_due_soon today 30) l);
          [reflexivity|].
        intros r Hr. apply due_from_is_due_soon.
        now apply list_due_members in Hr.
      * intros r _. apply due_before_is_overdue.
Qed.

Lemma due_window_classification_witness :
  (exists d,
     maintenance_dashboard Sample.env_ok Sample.day Sample.boundary_table
     = Some d
     /\ Dashboard.overdue d = 1 /\ Dashboard.due_30 d = 1)
  /\ (exists page,
        fst (index Sample.env_ok true Sample.day [Sample.pc]
               (Session.start Sample.boundary_table))
        = Rendered page
        /\ IndexPage.flashed page = Some ("warning", 1)).
Proof.
  split.
  - eexists. split.
    + vm_compute. reflexivity.
    + apply (proj1 (proj2 (due_window_classification Sample.env_ok Sample.day
                             Sample.boundary_table))).
      vm_compute. reflexivity.
  - eexists. split; [reflexivity|].
    destruct (proj2 (proj2 (due_window_classification Sample.env_ok
                              Sample.day Sample.boundary_table))
                [Sample.pc] _ eq_refl) as [_ Hflash].
    cbv zeta in Hflash. rewrite Hflash. reflexivity.
Defined.

(* ================================================================= *)
(** ** The monthly report *)

Lemma ord2ymd_month_range (n : Z) : 1 <= PyDate.month n <= 12.
Proof.
  unfold PyDate.month, PyDate._ord2ymd. cbv zeta.
  unfold PyDate._DI400Y, PyDate._DI100Y, PyDate._DI4Y.
  set (n0 := (n - 1) mod 146097).
  set (n1 := n0 mod 36524).
  set (n2 := n1 mod 1461).
  set (n3 := n2 mod 365).
  destruct ((n2 / 365 =? 4) || (n0 / 36524 =? 4)); simpl; [lia|].
  set (leapyear := (n2 / 365 =? 3) && _).
  assert (H3 : 0 <= n3 < 365) by (apply Z.mod_pos_bound; lia).
  rewrite Z.shiftr_div_pow2 by lia.
  change (2 ^ 5) with 32.
  set (m := (n3 + 50) / 32).
  assert (Hm : 1 <= m <= 12).
  { split.
    - apply Z.div_le_lower_bound; lia.
    - assert (m < 13) by (apply Z.div_lt_upper_bound; lia). lia. }
  assert (Hcases : m = 1 \/ m = 2 \/ m = 3 \/ m = 4 \/ m = 5 \/ m = 6 \/
                   m = 7 \/ m = 8 \/ m = 9 \/ m = 10 \/ m = 11 \/ m = 12)
    by lia.
  clearbody m leapyear.
  destruct Hcases as [->|[->|[->|[->|[->|[->|[->|[->|[->|[->|[->| ->]]]]]]]]]]];
    destruct leapyear; simpl;
    match goal with
    | |- context [if ?x <? ?y then _ else _] => destruct (Z.ltb_spec x y)
    end; simpl; lia.
Qed.

Lemma group_add_keys (k : Z) (c : option float)
    (groups : list (Z * list (option float))) (k' : Z) :
  In k' (map fst (group_add k c groups)) <->
  k' = k \/ In k' (map fst groups).
Proof.
  induction groups as [|[k0 cs] rest IH]; simpl.
  - intuition.
  - destruct (Z.eqb_spec k k0) as [->|Hne]; simpl; [intuition|].
    destruct (k <? k0); simpl; [intuition|].
    rewrite IH. intuition.
Qed.

Lemma group_add_sorted (k : Z) (c : option float)
    (groups : list (Z * list (option float))) :
  StronglySorted Z.lt (map fst groups) ->
  StronglySorted Z.lt (map fst (group_add k c groups)).
Proof.
  induction groups as [|[k0 cs] rest IH]; simpl; intros Hs.
  - repeat constructor.
  - inversion Hs as [|? ? Hs' Hall]; subst.
    destruct (Z.eqb_spec k k0) as [->|Hne]; simpl; [exact Hs|].
    destruct (Z.ltb_spec k k0) as [Hlt|Hge]; simpl.
    + constructor; [exact Hs|].
      constructor; [exact Hlt|].
      rewrite Forall_forall in *. intros z Hz. specialize (Hall z Hz). lia.
    + constructor; [now apply IH|].
      rewrite Forall_forall in *. intros z Hz.
      apply group_add_keys in Hz. destruct Hz as [->|Hz]; [lia|auto].
Qed.

Lemma group_of_below (k : Z) (groups : list (Z * list (option float))) :
  Forall (Z.lt k) (map fst groups) -> group_of k groups = [].
Proof.
  unfold group_of. induction groups as [|[k0 cs] rest IH]; simpl; intros H.
  - reflexivity.
  - inversion H; subst.
    destruct (Z.eqb_spec k0 k); [lia|]. now apply IH.
Qed.

Lemma group_of_cons (k k0 : Z) (cs : list (option float))
    (rest : list (Z * list (option float))) :
  group_of k ((k0, cs) :: rest) = if k0 =? k then cs else group_of k rest.
Proof. unfold group_of. simpl. now destruct (k0 =? k). Qed.

(** A row joins the values of its group, and of no other. *)
Lemma group_of_group_add (k : Z) (c : option float)
    (groups : list (Z * list (option float))) (k' : Z) :
  StronglySorted Z.lt (map fst groups) ->
  group_of k' (group_add k c groups)
  = if k' =? k then group_of k groups ++ [c] else group_of k' groups.
Proof.
  induction groups as [|[k0 cs] rest IH]; simpl; intros Hs.
  - rewrite group_of_cons, (Z.eqb_sym k k'). reflexivity.
  - inversion Hs as [|? ? Hs' Hall]; subst.
    destruct (Z.eqb_spec k k0) as [->|Hne].
    + rewrite !group_of_cons, Z.eqb_refl, (Z.eqb_sym k0 k').
      now destruct (k' =? k0).
    + destruct (Z.ltb_spec k k0) as [Hlt|Hge].
      * rewrite group_of_cons, (Z.eqb_sym k k').
        destruct (k' =? k); [|reflexivity].
        rewrite (group_of_below k ((k0, cs) :: rest)); [reflexivity|].
        simpl. constructor; [exact Hlt|].
        rewrite Forall_forall in *. intros z Hz. specialize (Hall z Hz). lia.
      * rewrite !group_of_cons, (IH Hs').
        destruct (Z.eqb_spec k0 k'), (Z.eqb_spec k' k), (Z.eqb_spec k0 k);
          try lia; reflexivity.
Qed.

Lemma group_of_In (k : Z) (cs : list (option float))
    (groups : list (Z * list (option float))) :
  StronglySorted Z.lt (map fst groups) ->
  In (k, cs) groups -> group_of k groups = cs.
Proof.
  induction groups as [|[k0 cs0] rest IH]; simpl; intros Hs Hin.
  - destruct Hin.
  - inversion Hs as [|? ? Hs' Hall]; subst. rewrite group_of_cons.
    destruct Hin as [[= -> ->]|Hin].
    + now rewrite Z.eqb_refl.
    + assert (k0 < k).
      { rewrite Forall_forall in Hall. apply Hall.
        change k with (fst (k, cs)). now apply in_map. }
      destruct (Z.eqb_spec k0 k); [lia|]. now apply IH.
Qed.

(** What GROUP BY computes, from any state of the groups. *)
Lemma group_fold_spec (l : list (Z * option float))
    (groups : list (Z * list (option float))) :
  StronglySorted Z.lt (map fst groups) ->
  let result :=
    fold_left (fun groups kc => group_add (fst kc) (snd kc) groups) l groups in
  StronglySorted Z.lt (map fst result)
  /\ (forall k, In k (map fst result) <->
                In k (map fst l) \/ In k (map fst groups))
  /\ (forall k, group_of k result
                = group_of k groups
                  ++ map snd (filter (fun kc => fst kc =? k) l)).
Proof.
  revert groups. induction l as [|[k0 c0] rest IH]; intros groups Hs; simpl.
  - repeat split; auto.
    + intros [[]|H]; exact H.
    + intros k. now rewrite app_nil_r.
  - destruct (IH (group_add k0 c0 groups) (group_add_sorted k0 c0 groups Hs))
      as (Hsorted & Hkeys & Hgroup).
    split; [exact Hsorted|]. split.
    + intros k. rewrite Hkeys, group_add_keys. intuition.
    + intros k. rewrite Hgroup, group_of_group_add by exact Hs.
      rewrite (Z.eqb_sym k k0).
      destruct (Z.eqb_spec k0 k) as [->|Hne]; simpl; [|reflexivity].
      now rewrite <- app_assoc.
Qed.

Lemma filter_map_swap {A B : Type} (p : B -> bool) (f : A -> B)
    (l : list A) :
  filter p (map f l) = map f (filter (fun x => p (f x)) l).
Proof.
  induction l as [|x t IH]; simpl; [reflexivity|].
  destruct (p (f x)); simpl; now rewrite IH.
Qed.

Lemma filter_andb {A : Type} (p q : A -> bool) (l : list A) :
  filter q (filter p l) = filter (fun x => p x && q x) l.
Proof.
  induction l as [|x t IH]; simpl; [reflexivity|].
  destruct (p x); simpl; [destruct (q x)|]; now rewrite IH.
Qed.

Lemma non_null_costs (l : list record) :
  non_null (map MaintenanceRecord.cost l)
  = flat_map (fun r => match MaintenanceRecord.cost r with
                       | Some c => [c]
                       | None => []
                       end) l.
Proof.
  induction l as [|r t IH]; simpl; [reflexivity|].
  destruct (MaintenanceRecord.cost r); simpl; now rewrite IH.
Qed.

(** The groups of the report: their months, and the costs that reach the
    SUM of each. *)
Lemma report_groups (y : Z) (table : list record) :
  let groups :=
    group_by
      (map (fun r => (PyDate.month (MaintenanceRecord.maintenance_date r),
                      MaintenanceRecord.cost r))
         (filter (fun r =>
                    PyDate.year (MaintenanceRecord.maintenance_date r) =? y)
            table)) in
  StronglySorted Z.lt (map fst groups)
  /\ (forall m,
        In m (map fst groups) <->
        exists r, In r table
                  /\ PyDate.year (MaintenanceRecord.maintenance_date r) = y
                  /\ PyDate.month (MaintenanceRecord.maintenance_date r) = m)
  /\ (forall m cs, In (m, cs) groups ->
        cs = map MaintenanceRecord.cost (filter (in_month y m) table)).
Proof.
  intros groups.
  set (in_year := fun r =>
         PyDate.year (MaintenanceRecord.maintenance_date r) =? y).
  set (key := fun r : record =>
         (PyDate.month (MaintenanceRecord.maintenance_date r),
          MaintenanceRecord.cost r)).
  destruct (group_fold_spec (map key (filter in_year table)) [])
    as (Hsorted & Hkeys & Hgroup); [constructor|].
  fold (group_by (map key (filter in_year table))) in Hsorted, Hkeys, Hgroup.
  subst groups. fold key in_year.
  set (groups := group_by (map key (filter in_year table))) in *.
  split; [exact Hsorted|]. split.
  - intros m. rewrite Hkeys, map_map. simpl. split.
    + intros [H|[]]. apply in_map_iff in H. destruct H as (r & <- & Hr).
      apply filter_In in Hr. destruct Hr as [Hr Hy].
      exists r. unfold in_year in Hy. repeat split; [exact Hr|lia].
    + intros (r & Hr & Hy & <-). left.
      apply in_map_iff. exists r. split; [reflexivity|].
      apply filter_In. split; [exact Hr|]. unfold in_year. lia.
  - intros m cs Hin.
    rewrite <- (group_of_In m cs groups Hsorted Hin), Hgroup. simpl.
    rewrite filter_map_swap, map_map, filter_andb. reflexivity.
Qed.

Lemma sorted_lt_unique (l1 l2 : list Z) :
  StronglySorted Z.lt l1 -> StronglySorted Z.lt l2 ->
  (forall x, In x l1 <-> In x l2) -> l1 = l2.
Proof.
  intros H1. revert l2.
  induction H1 as [|x1 t1 H1 IH Hall1]; intros l2 H2 Hmem.
  - destruct l2 as [|x2 t2]; [reflexivity|].
    destruct (proj2 (Hmem x2)). now left.
  - destruct H2 as [|x2 t2 H2 Hall2].
    + destruct (proj1 (Hmem x1)). now left.
    + rewrite Forall_forall in Hall1, Hall2.
      assert (x1 = x2).
      { destruct (proj1 (Hmem x1) (or_introl eq_refl)) as [E|Hin1];
          [now symmetry|].
        destruct (proj2 (Hmem x2) (or_introl eq_refl)) as [E|Hin2];
          [exact E|].
        specialize (Hall1 _ Hin2). specialize (Hall2 _ Hin1). lia. }
      subst x2. f_equal. apply IH; [exact H2|].
      intros x. split; intros Hx.
      * destruct (proj1 (Hmem x) (or_intror Hx)) as [<-|Hx2]; [|exact Hx2].
        specialize (Hall1 _ Hx). lia.
      * destruct (proj2 (Hmem x) (or_intror Hx)) as [<-|Hx1]; [|exact Hx1].
        specialize (Hall2 _ Hx). lia.
Qed.

Lemma StronglySorted_filter {A : Type} (R : A -> A -> Prop) (p : A -> bool)
    (l : list A) :
  StronglySorted R l -> StronglySorted R (filter p l).
Proof.
  intros Hs. induction Hs as [|x t Hs IH Hall]; simpl; [constructor|].
  destruct (p x); [|exact IH].
  constructor; [exact IH|].
  rewrite Forall_forall in *. intros y Hy. apply filter_In in Hy.
  now apply Hall.
Qed.

Lemma rows_of_keys {A : Type} (f : Z -> A) (l : list (Z * A)) :
  (forall k v, In (k, v) l -> v = f k) ->
  l = map (fun k => (k, f k)) (map fst l).
Proof.
  induction l as [|[k v] t IH]; intros H; simpl; [reflexivity|].
  rewrite (H k v) by now left. f_equal.
  apply IH. intros k' v' Hin. apply H. now right.
Qed.

(** C8. The monthly report is sparse: its rows are ordered by month
    without repetition, a month (always one of 1 to 12) has a row exactly
    when some record was maintained in that month of the year, the row
    carries the sum of the costs of those records, and the total of the
    year is the sum of the rows: the report is the one the specification
    describes, month by month.  Records in March (cost 100) and July
    (cost 200) alone give [(3, 100); (7, 200)] and 300, where 100 and 200
    alone sum to themselves and together to 300. *)
Theorem monthly_report_sparse :
  forall (env : Env.t) (year_arg : option Z) (current_year : Z)
         (table : list record),
    let report := maintenance_report env year_arg current_year table in
    let y := Report.year report in
    StronglySorted Z.lt (map fst (Report.data report))
    /\ (forall m,
          In m (map fst (Report.data report)) <->
          exists r, In r table
                    /\ PyDate.year (MaintenanceRecord.maintenance_date r) = y
                    /\ PyDate.month (MaintenanceRecord.maintenance_date r) = m)
    /\ (forall m, In m (map fst (Report.data report)) -> 1 <= m <= 12)
    /\ (forall m total, In (m, total) (Report.data report) ->
          total
          = match month_costs table y m with
            | [] => 0%float
            | costs =>
                if PrimFloat.eqb (Env.sum_sql env costs) 0 then 0%float
                else Env.sum_sql env costs
            end)
    /\ (Report.data report, Report.total_year report)
       = monthly_cost_report env table y
    /\ (forall march july,
          y <> 0 ->
          PyDate.year (MaintenanceRecord.maintenance_date march) = y ->
          PyDate.month (MaintenanceRecord.maintenance_date march) = 3 ->
          MaintenanceRecord.cost march = Some 100%float ->
          PyDate.year (MaintenanceRecord.maintenance_date july) = y ->
          PyDate.month (MaintenanceRecord.maintenance_date july) = 7 ->
          MaintenanceRecord.cost july = Some 200%float ->
          Env.sum_sql env [100%float] = 100%float ->
          Env.sum_sql env [200%float] = 200%float ->
          Env.sum_py env [100%float; 200%float] = 300%float ->
          maintenance_report env (Some y) current_year [july; march]
          = Report.mk y [(3, 100%float); (7, 200%float)] 300%float).
Proof.
  intros env year_arg current_year table report y.
  set (key := fun r : record =>
         (PyDate.month (MaintenanceRecord.maintenance_date r),
          MaintenanceRecord.cost r)).
  set (in_year := fun r =>
         PyDate.year (MaintenanceRecord.maintenance_date r) =? y).
  set (groups := group_by (map key (filter in_year table))).
  destruct (report_groups y table) as (Hsorted & Hkeys & Hcosts).
  fold key in_year groups in Hsorted, Hkeys, Hcosts.
  assert (Hdata : Report.data report
                  = map (fun g => (fst g, PyFloat.or_zero (sql_sum env (snd g))))
                      groups).
  { unfold report, maintenance_report, group_sum. cbv zeta. simpl.
    now rewrite map_map. }
  assert (Hfst : map fst (Report.data report) = map fst groups).
  { rewrite Hdata, map_map. reflexivity. }
  assert (Hrange : forall m, In m (map fst (Report.data report)) ->
                             1 <= m <= 12).
  { intros m Hm. rewrite Hfst in Hm. apply Hkeys in Hm.
    destruct Hm as (r & _ & _ & <-). apply ord2ymd_month_range. }
  assert (Htotal : forall m total, In (m, total) (Report.data report) ->
                     total = month_total env table y m).
  { intros m total Hin. rewrite Hdata in Hin.
    apply in_map_iff in Hin. destruct Hin as ([m' cs] & [= -> <-] & Hin).
    rewrite (Hcosts m cs Hin).
    unfold month_total, month_costs, sql_sum. rewrite non_null_costs.
    now destruct (flat_map _ _). }
  assert (Hmonths :
            map fst (Report.data report)
            = filter (fun m => existsb (in_month y m) table)
                [1; 2; 3; 4; 5; 6; 7; 8; 9; 10; 11; 12]).
  { apply sorted_lt_unique.
    - now rewrite Hfst.
    - apply StronglySorted_filter.
      repeat (constructor; [|repeat (constructor; try lia)]). constructor.
    - intros m. rewrite filter_In, existsb_exists. split.
      + intros Hm. pose proof (Hrange m Hm) as Hr.
        rewrite Hfst in Hm. apply Hkeys in Hm.
        destruct Hm as (r & Hin & Hy & Hmo). split.
        * simpl. lia.
        * exists r. split; [exact Hin|]. unfold in_month.
          rewrite Hy, Hmo, !Z.eqb_refl. reflexivity.
      + intros [_ (r & Hin & Hr)]. rewrite Hfst. apply Hkeys.
        unfold in_month in Hr. apply andb_true_iff in Hr.
        exists r. split; [exact Hin|]. lia. }
  split; [now rewrite Hfst|]. split; [now rewrite Hfst|].
  split; [exact Hrange|]. split; [|split].
  - intros m total Hin. rewrite (Htotal m total Hin).
    unfold month_total. now destruct (month_costs table y m).
  - assert (Erows : Report.data report
                    = map (fun m => (m, month_total env table y m))
                        (filter (fun m => existsb (in_month y m) table)
                           [1; 2; 3; 4; 5; 6; 7; 8; 9; 10; 11; 12])).
    { rewrite <- Hmonths. now apply rows_of_keys. }
    unfold monthly_cost_report. cbv zeta. rewrite <- Erows.
    f_equal.
    change (Report.total_year report)
      with (py_sum env (map snd (Report.data report))).
    unfold py_sum. now destruct (Report.data report).
  - intros march july Hy Hym Hmm Hcm Hyj Hmj Hcj H100 H200 H300.
    unfold maintenance_report.
    destruct (Z.eqb_spec y 0); [contradiction|].
    simpl. rewrite Hym, Hyj, Z.eqb_refl. simpl.
    rewrite Hmm, Hcm, Hmj, Hcj. unfold group_sum, sql_sum. simpl.
    rewrite H100, H200. simpl. now rewrite H300.
Qed.

Lemma monthly_report_sparse_witness :
  maintenance_report Sample.env_ok (Some 2024) 2026
    [Sample.repair 1 (PyDate.mk 2024 7 4) (Some 200%float) None None;
     Sample.repair 1 (PyDate.mk 2024 3 31) (Some 100%float) None None]
  = Report.mk 2024 [(3, 100%float); (7, 200%float)] 300%float.
Proof.
  apply (proj2 (proj2 (proj2 (proj2 (proj2
           (monthly_report_sparse Sample.env_ok (Some 2024) 2026
              Sample.report_table))))));
    try reflexivity.
  discriminate.
Defined.

(** Several records in one month: their costs are summed, the one without
    a cost left out. *)
Example report_sums_the_month :
  maintenance_report Sample.env_ok (Some 2024) 2026
    [Sample.repair 1 (PyDate.mk 2024 3 31) (Some 100%float) None None;
     Sample.repair 2 (PyDate.mk 2024 7 4) (Some 200%float) None None;
     Sample.repair 3 (PyDate.mk 2024 3 1) None None None;
     Sample.repair 2 (PyDate.mk 2024 3 9) (Some 25.5%float) None None;
     Sample.repair 1 (PyDate.mk 2024 11 2) None None None]
  = Report.mk 2024
      [(3, 125.5%float); (7, 200%float); (11, 0%float)] 325.5%float.
Proof. vm_compute. reflexivity. Qed.

Set Warnings "-inexact-float".

(** The total of a month depends on how the database adds: 0.1, 0.2 and
    0.3 give the double nearest to 0.6 with the compensated sum, and the
    next one when added one after the other. *)
Example report_depends_on_the_sum :
  let table :=
    [Sample.repair 1 (PyDate.mk 2024 3 1) (Some 0.1%float) None None;
     Sample.repair 1 (PyDate.mk 2024 3 2) (Some 0.2%float) None None;
     Sample.repair 1 (PyDate.mk 2024 3 3) (Some 0.3%float) None None] in
  Report.data (maintenance_report Sample.env_compensated (Some 2024) 2026 table)
  = [(3, 0.6%float)]
  /\ Report.data (maintenance_report Sample.env_ok (Some 2024) 2026 table)
     = [(3, (0.1 + 0.2 + 0.3)%float)]
  /\ PrimFloat.eqb (0.1 + 0.2 + 0.3) 0.6 = false.
Proof. vm_compute. repeat split. Qed.

(* ================================================================= *)
(** ** The figures of the dashboard *)

Lemma round_half_even_nearest (num den : Z) :
  0 < den -> nearest_int num den (PyFloat.round_half_even num den).
Proof.
  intros Hden. unfold nearest_int, PyFloat.round_half_even. cbv zeta.
  pose proof (Z.div_mod num den ltac:(lia)) as Hdm.
  pose proof (Z.mod_pos_bound num den Hden) as Hr.
  set (q := num / den) in *. set (r := num mod den) in *.
  destruct (Z.ltb_spec (2 * r) den) as [H1|H1].
  - replace (q * den - num) with (- r) by lia. lia.
  - destruct (Z.ltb_spec den (2 * r)) as [H2|H2].
    + replace ((q + 1) * den - num) with (den - r) by lia. lia.
    + destruct (Z.even q).
      * replace (q * den - num) with (- r) by lia. lia.
      * replace ((q + 1) * den - num) with (den - r) by lia. lia.
Qed.

Lemma to_fraction_den_pos (x : float) (num den : Z) :
  PyFloat.to_fraction x = Some (num, den) -> 0 < den.
Proof.
  unfold PyFloat.to_fraction.
  destruct (Prim2SF x) as [| | |s m e]; try discriminate.
  - intros [= <- <-]. lia.
  - destruct (Z.leb_spec 0 e); intros [= <- <-]; [lia|].
    apply Z.pow_pos_nonneg; lia.
Qed.

Lemma round_int_nearest (x : float) (num den k : Z) :
  PyFloat.to_fraction x = Some (num, den) ->
  PyFloat.round_int x = Some k -> nearest_int num den k.
Proof.
  intros Hx. unfold PyFloat.round_int. rewrite Hx. intros [= <-].
  apply round_half_even_nearest. now apply to_fraction_den_pos with x num.
Qed.

Lemma round_ndigits_one (x : float) (num den : Z) :
  PyFloat.to_fraction x = Some (num, den) ->
  exists k,
    nearest_int (num * 10) den k
    /\ PyFloat.round_ndigits x 1
       = if k =? 0 then (if get_sign x then neg_zero else zero)
         else tenths k.
Proof.
  intros Hx. unfold PyFloat.round_ndigits. rewrite Hx.
  exists (PyFloat.round_half_even (num * 10 ^ 1) den). split.
  - apply round_half_even_nearest. now apply to_fraction_den_pos with x num.
  - reflexivity.
Qed.

Set Warnings "-inexact-float".

(** C9. The two rates of the year: both are 0 when the year has no
    record; otherwise the average cost is an integer nearest to the
    quotient of the total cost by the number of records, and the
    completion rate is [completed / total * 100] rounded to one decimal,
    that is the double nearest to [k / 10] for an integer [k] nearest to
    ten times that product.  3 completed out of 7 give 42.9, and a total
    of 1000 over 7 records gives 143. *)
Theorem kpi_rounding :
  forall (env : Env.t) (today : date) (table : list record),
    let records := year_records today table in
    let n := Z.of_nat (List.length records) in
    let c := count_if (status_is "completed") records in
    let total_cost :=
      PyFloat.or_zero (sql_sum env (map MaintenanceRecord.cost records)) in
    let ratio := (PyFloat.int_truediv c n * 100)%float in
    (n = 0 ->
     exists d, maintenance_dashboard env today table = Some d
               /\ Dashboard.completion_rate d = 0%float
               /\ Dashboard.avg_cost_per_record d = 0)
    /\ (n <> 0 ->
        forall num den,
          PyFloat.to_fraction (total_cost / PyFloat.of_int n)%float
          = Some (num, den) ->
          exists d, maintenance_dashboard env today table = Some d
                    /\ Dashboard.total_records_year d = n
                    /\ Dashboard.completed_year d = c
                    /\ Dashboard.total_cost_year d = total_cost
                    /\ nearest_int num den (Dashboard.avg_cost_per_record d)
                    /\ Dashboard.completion_rate d
                       = PyFloat.round_ndigits ratio 1
                    /\ (forall num' den',
                          PyFloat.to_fraction ratio = Some (num', den') ->
                          exists k,
                            nearest_int (num' * 10) den' k
                            /\ Dashboard.completion_rate d
                               = if k =? 0
                                 then (if get_sign ratio then neg_zero else zero)
                                 else tenths k))
    /\ completion_rate_of 3 7 = 42.9%float
    /\ avg_cost_per_record_of 1000 7 = Some 143.
Proof.
  intros env today table records n c total_cost ratio.
  split; [|split; [|split; reflexivity]].
  - intros Hn. unfold maintenance_dashboard. cbv zeta.
    fold records. fold n. fold c. fold total_cost.
    unfold avg_cost_per_record_of, completion_rate_of. rewrite Hn. simpl.
    eexists. split; [reflexivity|]. split; reflexivity.
  - intros Hn num den Hfrac.
    unfold maintenance_dashboard. cbv zeta.
    fold records. fold n. fold c. fold total_cost.
    unfold avg_cost_per_record_of, completion_rate_of.
    destruct (Z.eqb_spec n 0) as [E|_]; [contradiction|].
    fold ratio.
    destruct (PyFloat.round_int (total_cost / PyFloat.of_int n)) as [avg|] eqn:Ea.
    + eexists. split; [reflexivity|]. simpl.
      repeat split; try reflexivity.
      * now apply round_int_nearest with (total_cost / PyFloat.of_int n)%float.
      * intros num' den' Hr. now apply round_ndigits_one.
    + unfold PyFloat.round_int in Ea. rewrite Hfrac in Ea. discriminate.
Qed.

Lemma kpi_rounding_witness :
  exists d,
    maintenance_dashboard Sample.env_ok Sample.day Sample.kpi_table = Some d
    /\ Dashboard.total_records_year d = 7
    /\ Dashboard.completed_year d = 3
    /\ Dashboard.total_cost_year d = 1000%float
    /\ Dashboard.completion_rate d = 42.9%float
    /\ Dashboard.avg_cost_per_record d = 143.
Proof.
  destruct (proj1 (proj2
              (kpi_rounding Sample.env_ok Sample.day Sample.kpi_table))
              ltac:(discriminate)
              5026338869833143 35184372088832 ltac:(reflexivity))
    as (d & Hd & _).
  exists d. split; [exact Hd|].
  vm_compute in Hd. injection Hd as <-.
  repeat split; reflexivity.
Defined.

(* ================================================================= *)
(** ** Further properties of the scheduler *)

Lemma next_due_desc_total (env : Env.t) (x y : record) :
  next_due_desc env x y = false -> next_due_desc env y x = true.
Proof. unfold next_due_desc. apply null_leb_total. Qed.

Lemma next_due_desc_trans (env : Env.t) (x y z : record) :
  next_due_desc env x y = true -> next_due_desc env y z = true ->
  next_due_desc env x z = true.
Proof.
  unfold next_due_desc. intros H1 H2. eapply null_leb_trans; eassumption.
Qed.

(** The first row of a sorted list is below every row. *)
Lemma first_order_by_least {A : Type} (leb : A -> A -> bool) (l : list A)
    (h x : A) :
  (forall a b, leb a b = false -> leb b a = true) ->
  (forall a b c, leb a b = true -> leb b c = true -> leb a c = true) ->
  first (order_by leb l) = Some h -> In x l -> leb h x = true.
Proof.
  intros Htot Htrans Hfirst Hin.
  pose proof (order_by_sorted leb Htot Htrans l) as Hs.
  apply (order_by_In leb) in Hin.
  destruct (order_by leb l) as [|h' t]; [discriminate|].
  injection Hfirst as ->.
  inversion Hs as [|? ? _ Hall]; subst.
  destruct Hin as [->|Hin].
  - destruct (leb x x) eqn:E; [reflexivity|].
    pose proof (Htot _ _ E). congruence.
  - rewrite Forall_forall in Hall. now apply Hall.
Qed.

(** The due date that [last] yields is that of a record of the asset, and
    no record of the asset sorts above it. *)
Lemma last_record_greatest (env : Env.t) (s : Session.t) (a : Asset.t)
    (r : record) :
  In r (Session.visible s) ->
  MaintenanceRecord.asset_id r = Asset.id a ->
  exists h,
    last_record env s a = Some h
    /\ In h (Session.visible s)
    /\ MaintenanceRecord.asset_id h = Asset.id a
    /\ null_leb (Env.nulls_largest env)
         (MaintenanceRecord.next_due_date r)
         (MaintenanceRecord.next_due_date h) = true.
Proof.
  intros Hin Hid.
  assert (Hr : In r (filter_by_asset_id (Asset.id a) (Session.visible s))).
  { apply filter_In. split; [exact Hin|]. now apply Z.eqb_eq. }
  unfold last_record.
  destruct (first (order_by (next_due_desc env)
                     (filter_by_asset_id (Asset.id a) (Session.visible s))))
    as [h|] eqn:E.
  - exists h. split; [reflexivity|].
    pose proof (first_order_by_In _ _ _ E) as Hh.
    apply filter_In in Hh. destruct Hh as [Hh1 Hh2].
    split; [exact Hh1|]. split; [now apply Z.eqb_eq|].
    apply (first_order_by_least (next_due_desc env) _ h r
             (next_due_desc_total env) (next_due_desc_trans env) E Hr).
  - apply first_order_by_None in E. rewrite E in Hr. destruct Hr.
Qed.

Lemma covered_no_need (env : Env.t) (today : date) (s : Session.t)
    (a : Asset.t) :
  Env.nulls_largest env = false ->
  covered today a (Session.visible s) ->
  need_create (next_due_of (last_record env s a)) today = false.
Proof.
  intros Hnulls (r & d & Hin & Hid & Hdue & Hle).
  destruct (last_record_greatest env s a r Hin Hid) as (h & -> & _ & _ & Hmax).
  rewrite Hnulls, Hdue in Hmax. simpl.
  destruct (MaintenanceRecord.next_due_date h) as [d'|]; simpl in *;
    [lia|discriminate].
Qed.

Lemma covered_unchanged (env : Env.t) (today : date)
    (assets : list Asset.t) (s : Session.t) :
  Env.nulls_largest env = false ->
  (forall a, In a assets -> covered today a (Session.visible s)) ->
  stage_all env today assets s = s.
Proof.
  intros Hnulls. unfold stage_all.
  induction assets as [|a t IH]; intros Hcov; simpl; [reflexivity|].
  assert (E : schedule_asset env today s a = s).
  { unfold schedule_asset.
    rewrite (covered_no_need env today s a Hnulls); [reflexivity|].
    apply Hcov. now left. }
  rewrite E. apply IH. intros b Hb. apply Hcov. now right.
Qed.

Lemma schedule_asset_grows (env : Env.t) (today : date) (s : Session.t)
    (a : Asset.t) (r : record) :
  (forall x, Env.add_raises env x = false) ->
  In r (Session.visible s) ->
  In r (Session.visible (schedule_asset env today s a)).
Proof.
  intros Hadd Hin.
  destruct (schedule_asset_inv env today s a)
    as [[_ ->]|[(_ & Hr & _)|(_ & _ & ->)]]; auto.
  - rewrite Hadd in Hr. discriminate.
  - unfold Session.visible, Session.add in *. simpl.
    rewrite app_assoc. apply in_or_app. now left.
Qed.

Lemma stage_all_grows (env : Env.t) (today : date)
    (assets : list Asset.t) (s : Session.t) (r : record) :
  (forall x, Env.add_raises env x = false) ->
  In r (Session.visible s) ->
  In r (Session.visible (stage_all env today assets s)).
Proof.
  intros Hadd. unfold stage_all. revert s.
  induction assets as [|a t IH]; intros s Hin; simpl; [exact Hin|].
  apply IH. now apply schedule_asset_grows.
Qed.

Lemma schedule_asset_covers (env : Env.t) (today : date) (s : Session.t)
    (a : Asset.t) :
  (forall x, Env.add_raises env x = false) ->
  covered today a (Session.visible (schedule_asset env today s a)).
Proof.
  intros Hadd.
  destruct (schedule_asset_inv env today s a)
    as [[Hn ->]|[(_ & Hr & _)|(_ & _ & ->)]].
  - destruct (last_record env s a) as [h|] eqn:E; [|discriminate].
    simpl in Hn.
    destruct (MaintenanceRecord.next_due_date h) as [d|] eqn:Ed;
      [|discriminate].
    simpl in Hn. exists h, d.
    unfold last_record in E. apply first_order_by_In, filter_In in E.
    destruct E as [E1 E2]. repeat split; auto; lia.
  - rewrite Hadd in Hr. discriminate.
  - exists (auto_record a today), (PyDate.add_days today 365).
    repeat split.
    + unfold Session.visible, Session.add. simpl.
      rewrite app_assoc. apply in_or_app. right. now left.
    + unfold PyDate.add_days. lia.
Qed.

Lemma stage_all_covers (env : Env.t) (today : date)
    (assets : list Asset.t) (s : Session.t) (a : Asset.t) :
  (forall x, Env.add_raises env x = false) ->
  In a assets ->
  covered today a (Session.visible (stage_all env today assets s)).
Proof.
  intros Hadd. unfold stage_all. revert s.
  induction assets as [|b t IH]; intros s Hin; simpl; [destruct Hin|].
  destruct Hin as [->|Hin]; [|now apply IH].
  destruct (schedule_asset_covers env today s a Hadd)
    as (r & d & Hr & Hid & Hdue & Hle).
  exists r, d. repeat split; auto.
  now apply (stage_all_grows env today t).
Qed.

(** X1. On a backend that sorts NULL below every date, a page view
    without failure settles the table for the day: a later view on the
    same day, whatever fails in it, leaves the table as it is. *)
Theorem home_page_settles_nulls_low :
  forall (env1 env2 : Env.t) (today : date) (assets : list Asset.t)
         (table : list record),
    no_failure env1 ->
    Env.nulls_largest env2 = false ->
    table_after env2 today assets (table_after env1 today assets table)
    = table_after env1 today assets table.
Proof.
  intros env1 env2 today assets table Hok Hnulls.
  set (table1 := table_after env1 today assets table).
  assert (Hcov : forall a, In a assets -> covered today a table1).
  { intros a Ha. unfold table1. rewrite table_after_eq. cbv zeta.
    rewrite (no_failure_commits env1 today assets table Hok).
    destruct Hok as (Hadd & _ & _).
    pose proof (stage_all_covers env1 today assets (Session.start table)
                  a Hadd Ha) as H.
    unfold Session.visible in H. now rewrite stage_all_rows in H. }
  rewrite table_after_eq. cbv zeta.
  rewrite (covered_unchanged env2 today assets (Session.start table1) Hnulls).
  - simpl. rewrite app_nil_r.
    now destruct (commits env2 today assets table1).
  - intros a Ha. unfold Session.visible. simpl. rewrite app_nil_r.
    now apply Hcov.
Qed.

Lemma home_page_settles_nulls_low_witness :
  table_after Sample.env_commit_fails Sample.day [Sample.pc; Sample.printer]
    (table_after Sample.env_ok Sample.day [Sample.pc; Sample.printer]
       Sample.boundary_table)
  = table_after Sample.env_ok Sample.day [Sample.pc; Sample.printer]
      Sample.boundary_table.
Proof.
  apply (home_page_settles_nulls_low Sample.env_ok Sample.env_commit_fails
           Sample.day [Sample.pc; Sample.printer] Sample.boundary_table).
  - repeat split.
  - reflexivity.
Defined.

Lemma stage_all_others (env : Env.t) (today : date) (a : Asset.t)
    (assets : list Asset.t) (s : Session.t) :
  (forall x, Env.add_raises env x = false) ->
  (forall b, In b assets -> Asset.id b <> Asset.id a) ->
  records_of a (Session.new (stage_all env today assets s))
  = records_of a (Session.new s).
Proof.
  intros Hadd. unfold stage_all. revert s.
  induction assets as [|b t IH]; intros s Hne; simpl; [reflexivity|].
  rewrite IH by (intros c Hc; apply Hne; now right).
  destruct (schedule_asset_inv env today s b)
    as [[_ ->]|[(_ & Hr & _)|(_ & _ & ->)]]; auto.
  - rewrite Hadd in Hr. discriminate.
  - apply records_of_add_other. apply Hne. now left.
Qed.

Lemma null_record_forces_creation (env : Env.t) (today : date)
    (s : Session.t) (a : Asset.t) (r : record) :
  Env.nulls_largest env = true ->
  In r (Session.visible s) ->
  MaintenanceRecord.asset_id r = Asset.id a ->
  MaintenanceRecord.next_due_date r = None ->
  need_create (next_due_of (last_record env s a)) today = true.
Proof.
  intros Hnulls Hin Hid Hdue.
  destruct (last_record_greatest env s a r Hin Hid) as (h & -> & _ & _ & Hmax).
  rewrite Hnulls, Hdue in Hmax. simpl.
  destruct (MaintenanceRecord.next_due_date h); [discriminate|reflexivity].
Qed.

Lemma NoDup_ids_split (a : Asset.t) (l1 l2 : list Asset.t) :
  NoDup (map Asset.id (l1 ++ a :: l2)) ->
  (forall b, In b l1 -> Asset.id b <> Asset.id a)
  /\ (forall b, In b l2 -> Asset.id b <> Asset.id a).
Proof.
  rewrite map_app. simpl. intros H.
  apply NoDup_remove_2 in H.
  split; intros b Hb E; apply H, in_or_app; [left|right];
    rewrite <- E; now apply in_map.
Qed.

Lemma view_with_null_record (env : Env.t) (today : date)
    (assets : list Asset.t) (table : list record) (a : Asset.t) (r : record) :
  Env.nulls_largest env = true ->
  no_failure env ->
  NoDup (map Asset.id assets) ->
  In a assets ->
  In r table ->
  MaintenanceRecord.asset_id r = Asset.id a ->
  MaintenanceRecord.next_due_date r = None ->
  let batch :=
    Session.new (stage_all env today assets (Session.start table)) in
  table_after env today assets table = table ++ batch
  /\ records_of a batch = [auto_record a today].
Proof.
  intros Hnulls Hok Hnodup Ha Hr Hid Hdue batch. subst batch.
  split.
  { rewrite table_after_eq. cbv zeta.
    now rewrite (no_failure_commits env today assets table Hok). }
  destruct Hok as (Hadd & _ & _).
  destruct (in_split _ _ Ha) as (l1 & l2 & ->).
  destruct (NoDup_ids_split a l1 l2 Hnodup) as [H1 H2].
  rewrite stage_all_app.
  set (s1 := stage_all env today l1 (Session.start table)).
  change (stage_all env today (a :: l2) s1)
    with (stage_all env today l2 (schedule_asset env today s1 a)).
  rewrite (stage_all_others env today a l2 _ Hadd H2).
  assert (Hs1 : records_of a (Session.new s1) = []).
  { unfold s1. now rewrite (stage_all_others env today a l1 _ Hadd H1). }
  assert (Hvis : In r (Session.visible s1)).
  { unfold Session.visible, s1. rewrite stage_all_rows.
    apply in_or_app. now left. }
  unfold schedule_asset.
  rewrite (null_record_forces_creation env today s1 a r Hnulls Hvis Hid Hdue).
  rewrite Hadd. rewrite records_of_add_same by reflexivity.
  now rewrite Hs1.
Qed.

(** X2. On a backend that sorts NULL above every date (PostgreSQL), an
    asset that has a record without due date gets one more automatic
    record at every page view without failure: [last] is that record,
    whatever the due dates of the others. *)
Theorem auto_records_pile_up_nulls_high :
  forall (env : Env.t) (today : date) (assets : list Asset.t)
         (table : list record) (a : Asset.t) (r : record) (n : nat),
    Env.nulls_largest env = true ->
    no_failure env ->
    NoDup (map Asset.id assets) ->
    In a assets ->
    In r table ->
    MaintenanceRecord.asset_id r = Asset.id a ->
    MaintenanceRecord.next_due_date r = None ->
    records_of a (views env today assets n table)
    = records_of a table ++ repeat (auto_record a today) n.
Proof.
  intros env today assets table a r n Hnulls Hok Hnodup Ha Hr Hid Hdue.
  assert (H : In r (views env today assets n table)
              /\ records_of a (views env today assets n table)
                 = records_of a table ++ repeat (auto_record a today) n).
  { induction n as [|n [IHin IHeq]]; simpl.
    - split; [exact Hr|]. now rewrite app_nil_r.
    - destruct (view_with_null_record env today assets
                  (views env today assets n table) a r
                  Hnulls Hok Hnodup Ha IHin Hid Hdue) as [E1 E2].
      rewrite E1. split.
      + apply in_or_app. now left.
      + unfold records_of in *. rewrite filter_by_asset_id_app, E2, IHeq.
        rewrite <- app_assoc. f_equal.
        change (auto_record a today :: repeat (auto_record a today) n)
          with (repeat (auto_record a today) (S n)).
        now rewrite <- repeat_cons. }
  apply H.
Qed.

Lemma auto_records_pile_up_nulls_high_witness :
  records_of Sample.pc
    (views Case.env_nulls_high Sample.day [Sample.pc; Sample.printer] 3
       Case.undated_table)
  = records_of Sample.pc Case.undated_table
    ++ repeat (auto_record Sample.pc Sample.day) 3.
Proof.
  apply (auto_records_pile_up_nulls_high Case.env_nulls_high Sample.day
           [Sample.pc; Sample.printer] Case.undated_table Sample.pc
           (Sample.repair 1 (PyDate.mk 2023 12 1) None None None) 3).
  - reflexivity.
  - repeat split.
  - repeat constructor; simpl; intuition discriminate.
  - simpl. now left.
  - simpl. now left.
  - reflexivity.
  - reflexivity.
Defined.

(* ================================================================= *)
(** ** The notice of the home page *)

Lemma filter_none {A : Type} (p : A -> bool) (l : list A) :
  (forall x, In x l -> p x = false) -> filter p l = [].
Proof.
  induction l as [|x t IH]; intros H; simpl; [reflexivity|].
  rewrite (H x) by now left. apply IH. intros y Hy. apply H. now right.
Qed.

Lemma batch_not_due (env : Env.t) (today : date) (assets : list Asset.t)
    (table : list record) (p : record -> bool) :
  (forall a, p (auto_record a today) = false) ->
  filter p (table_after env today assets table) = filter p table.
Proof.
  intros Hp. rewrite table_after_eq. cbv zeta.
  destruct (commits env today assets table); [|reflexivity].
  rewrite filter_app, (filter_none p (Session.new _)); [apply app_nil_r|].
  intros r Hr. apply new_are_auto in Hr.
  destruct Hr as [[]|(a & _ & ->)]. apply Hp.
Qed.

Lemma auto_not_due_on_or_before (today : date) (a : Asset.t) :
  due_on_or_before (PyDate.add_days today 30) (auto_record a today) = false.
Proof.
  unfold due_on_or_before, auto_record, PyDate.add_days.
  cbn [MaintenanceRecord.next_due_date]. apply Z.leb_gt. lia.
Qed.

Lemma list_due_after_view (env : Env.t) (today : date)
    (assets : list Asset.t) (table : list record) :
  list_due env today (snd (index env true today assets (Session.start table)))
  = list_due env today (Session.start table).
Proof.
  unfold list_due.
  rewrite index_visible, batch_not_due by apply auto_not_due_on_or_before.
  unfold Session.visible, Session.start. simpl. now rewrite app_nil_r.
Qed.

Lemma due_records_of_table (env : Env.t) (today : date)
    (assets : list Asset.t) (table : list record) (page : IndexPage.t) :
  fst (index env true today assets (Session.start table)) = Rendered page ->
  IndexPage.due_records page
  = limit 10
      (order_by (next_due_asc env)
         (filter (due_on_or_before (today + 30)) table)).
Proof.
  intros Hpage.
  destruct (index_rendered env today assets (Session.start table) page Hpage)
    as (Hdue & _).
  rewrite Hdue, list_due_after_view. unfold list_due, PyDate.add_days.
  unfold Session.visible, Session.start. simpl. now rewrite app_nil_r.
Qed.

(** X3. The due list of a rendered home page is that of the table as it
    was before the view: what the scheduler stages, commits or loses in
    the same view never enters it. *)
Theorem due_list_ignores_scheduling :
  forall (env : Env.t) (today : date) (assets : list Asset.t)
         (table : list record) (page : IndexPage.t),
    fst (index env true today assets (Session.start table)) = Rendered page ->
    IndexPage.due_records page
    = limit 10
        (order_by (next_due_asc env)
           (filter (due_on_or_before (today + 30)) table)).
Proof.
  intros env today assets table page Hpage.
  destruct (index_rendered env today assets (Session.start table) page Hpage)
    as (Hdue & _).
  rewrite Hdue. unfold list_due.
  rewrite index_visible, batch_not_due by apply auto_not_due_on_or_before.
  reflexivity.
Qed.

Lemma due_list_ignores_scheduling_witness :
  exists page,
    fst (index Sample.env_ok true Sample.day [Sample.pc; Sample.printer]
           (Session.start Sample.boundary_table))
    = Rendered page
    /\ IndexPage.due_records page
       = limit 10
           (order_by (next_due_asc Sample.env_ok)
              (filter (due_on_or_before (Sample.day + 30))
                 Sample.boundary_table)).
Proof.
  eexists. split; [reflexivity|].
  apply (due_list_ignores_scheduling Sample.env_ok Sample.day
           [Sample.pc; Sample.printer] Sample.boundary_table).
  reflexivity.
Defined.

(** In a sorted list, the rows that satisfy a downward closed predicate
    come first: LIMIT and the predicate commute. *)
Lemma filter_firstn_sorted {A : Type} (R : A -> A -> Prop) (p : A -> bool)
    (l : list A) (k : nat) :
  (forall x y, R x y -> p y = true -> p x = true) ->
  StronglySorted R l ->
  filter p (firstn k l) = firstn k (filter p l).
Proof.
  intros Hp Hs. revert k.
  induction Hs as [|x t Hs IH Hall]; intros k.
  - now rewrite !firstn_nil.
  - destruct k as [|k]; [reflexivity|]. simpl.
    destruct (p x) eqn:E; simpl; [now rewrite IH|].
    assert (Hnone : forall y, In y t -> p y = false).
    { intros y Hy. destruct (p y) eqn:Ey; [|reflexivity].
      rewrite Forall_forall in Hall. rewrite (Hp x y (Hall y Hy) Ey) in E.
      discriminate. }
    rewrite (filter_none p t Hnone).
    rewrite filter_none; [now destruct k|].
    intros y Hy. apply Hnone. revert Hy. apply (limit_In k).
Qed.

Lemma count_if_split {A : Type} (p : A -> bool) (l : list A) :
  count_if p l + count_if (fun x => negb (p x)) l = Z.of_nat (List.length l).
Proof.
  unfold count_if. induction l as [|x t IH]; [reflexivity|].
  cbn [filter List.length]. destruct (p x); cbn [negb List.length]; lia.
Qed.

Lemma count_if_filter {A : Type} (p q : A -> bool) (l : list A) :
  count_if q (filter p l) = count_if (fun x => p x && q x) l.
Proof. unfold count_if. now rewrite filter_andb. Qed.

Lemma count_if_perm {A : Type} (p : A -> bool) (l l' : list A) :
  Permutation l l' -> count_if p l = count_if p l'.
Proof.
  intros H. unfold count_if. f_equal. apply Permutation_length.
  induction H; simpl.
  - constructor.
  - destruct (p x); [now constructor|assumption].
  - destruct (p x), (p y); try constructor; apply Permutation_refl.
  - eapply Permutation_trans; eassumption.
Qed.

Lemma count_if_firstn_sorted {A : Type} (R : A -> A -> Prop) (p : A -> bool)
    (l : list A) (k : nat) :
  (forall x y, R x y -> p y = true -> p x = true) ->
  StronglySorted R l ->
  count_if p (firstn k l) = Z.min (Z.of_nat k) (count_if p l).
Proof.
  intros Hp Hs. unfold count_if.
  rewrite (filter_firstn_sorted R p l k Hp Hs), length_firstn. lia.
Qed.

(** X4. What the notice of a rendered home page counts: with [c]
    overdue records and [s] records due within 30 days in the table, the
    due list holds [min 10 c] overdue records and
    [min 10 (c + s) - min 10 c] upcoming ones; the notice is a warning
    with [min 10 c] when [c] is not 0, else an information with
    [min 10 s] when [s] is not 0, else there is none. *)
Theorem home_notice_counts :
  forall (env : Env.t) (today : date) (assets : list Asset.t)
         (table : list record) (page : IndexPage.t),
    fst (index env true today assets (Session.start table)) = Rendered page ->
    let c := count_if (due_before today) table in
    let s := count_if (due_between today (PyDate.add_days today 30)) table in
    count_if (due_before today) (IndexPage.due_records page) = Z.min 10 c
    /\ count_if (due_from today) (IndexPage.due_records page)
       = Z.min 10 (c + s) - Z.min 10 c
    /\ IndexPage.flashed page
       = if c =? 0
         then (if s =? 0 then None else Some ("info", Z.min 10 s))
         else Some ("warning", Z.min 10 c).
Proof.
  intros env today assets table page Hpage c s.
  destruct (index_rendered env today assets (Session.start table) page Hpage)
    as (Hdue & Hflash).
  rewrite list_due_after_view in Hdue, Hflash.
  set (due := filter (due_on_or_before (PyDate.add_days today 30)) table).
  set (sorted := order_by (next_due_asc env) due).
  assert (HL : list_due env today (Session.start table) = firstn 10 sorted).
  { unfold list_due, limit, Session.visible, Session.start. simpl.
    now rewrite app_nil_r. }
  rewrite HL in Hdue, Hflash.
  assert (Hsorted : StronglySorted due_le sorted) by apply list_due_sorted.
  assert (Hclosed : forall x y, due_le x y ->
                      due_before today y = true -> due_before today x = true).
  { intros x y. unfold due_le, due_before.
    destruct (MaintenanceRecord.next_due_date x),
             (MaintenanceRecord.next_due_date y); try easy. lia. }
  assert (Hc : count_if (due_before today) sorted = c).
  { unfold sorted. rewrite (count_if_perm _ _ due (order_by_perm _ due)).
    unfold due. rewrite count_if_filter. apply count_if_ext_in.
    intros r _. unfold due_on_or_before, due_before, PyDate.add_days.
    destruct (MaintenanceRecord.next_due_date r); [|reflexivity]. lia. }
  assert (Hlen : Z.of_nat (List.length sorted) = c + s).
  { unfold sorted. rewrite order_by_length.
    rewrite <- (count_if_split (due_before today) due).
    unfold due. rewrite !count_if_filter. f_equal.
    - apply count_if_ext_in.
      intros r _. unfold due_on_or_before, due_before, PyDate.add_days.
      destruct (MaintenanceRecord.next_due_date r); [|reflexivity]. lia.
    - apply count_if_ext_in.
      intros r _.
      unfold due_on_or_before, due_before, due_between, PyDate.add_days.
      destruct (MaintenanceRecord.next_due_date r); [|reflexivity]. lia. }
  assert (Hover : count_if (due_before today) (firstn 10 sorted) = Z.min 10 c).
  { rewrite (count_if_firstn_sorted due_le _ sorted 10 Hclosed Hsorted), Hc.
    reflexivity. }
  assert (Hsoon : count_if (due_from today) (firstn 10 sorted)
                  = Z.min 10 (c + s) - Z.min 10 c).
  { rewrite <- Hover.
    pose proof (count_if_split (due_before today) (firstn 10 sorted)) as Hsp.
    rewrite length_firstn, Nat2Z.inj_min, Hlen in Hsp.
    rewrite (count_if_ext_in (due_from today)
               (fun x => negb (due_before today x)) (firstn 10 sorted)).
    - change (Z.of_nat 10) with 10 in Hsp. lia.
    - intros r Hr. apply (limit_In 10), order_by_In, filter_In in Hr.
      destruct Hr as [_ Hr]. unfold due_on_or_before, due_from, due_before in *.
      destruct (MaintenanceRecord.next_due_date r); [|discriminate]. lia. }
  assert (Hc0 : 0 <= c) by (unfold c, count_if; lia).
  assert (Hs0 : 0 <= s) by (unfold s, count_if; lia).
  rewrite Hdue.
  split; [exact Hover|]. split; [exact Hsoon|].
  rewrite Hflash. cbv zeta. rewrite Hover, Hsoon.
  clearbody c s. clear - Hc0 Hs0.
  destruct (Z.eqb_spec c 0) as [->|E].
  - change (Z.min 10 0) with 0. rewrite Z.add_0_l, Z.sub_0_r.
    change (negb (0 =? 0)) with false. cbv iota.
    destruct (Z.eqb_spec s 0) as [->|E']; [reflexivity|].
    destruct (Z.eqb_spec (Z.min 10 s) 0); [lia|reflexivity].
  - destruct (Z.eqb_spec (Z.min 10 c) 0); [lia|reflexivity].
Qed.

Lemma home_notice_counts_witness :
  exists page,
    fst (index Sample.env_commit_fails true Sample.day
           [Sample.pc; Sample.printer] (Session.start Sample.boundary_table))
    = Rendered page
    /\ count_if (due_before Sample.day) (IndexPage.due_records page) = 1
    /\ count_if (due_from Sample.day) (IndexPage.due_records page) = 1
    /\ IndexPage.flashed page = Some ("warning", 1).
Proof.
  eexists. split; [reflexivity|].
  apply (home_notice_counts Sample.env_commit_fails Sample.day
           [Sample.pc; Sample.printer] Sample.boundary_table).
  reflexivity.
Defined.

(* ================================================================= *)
(** ** Soft-deleted maintenance records *)

Lemma insert_by_map {A B : Type} (f : A -> B) (leb : A -> A -> bool)
    (leb' : B -> B -> bool) (x : A) (l : list A) :
  (forall a b, leb a b = leb' (f a) (f b)) ->
  map f (insert_by leb x l) = insert_by leb' (f x) (map f l).
Proof.
  intros H. induction l as [|y t IH]; simpl; [reflexivity|].
  rewrite <- H. destruct (leb x y); simpl; [reflexivity|now rewrite IH].
Qed.

Lemma order_by_map {A B : Type} (f : A -> B) (leb : A -> A -> bool)
    (leb' : B -> B -> bool) (l : list A) :
  (forall a b, leb a b = leb' (f a) (f b)) ->
  map f (order_by leb l) = order_by leb' (map f l).
Proof.
  intros H. induction l as [|x t IH]; simpl; [reflexivity|].
  now rewrite (insert_by_map f leb leb' x _ H), IH.
Qed.

(** The due date [last] yields is read off the keys of the visible
    rows. *)
Lemma next_due_by_keys (env : Env.t) (s : Session.t) (a : Asset.t) :
  next_due_of (last_record env s a)
  = match
      first
        (order_by
           (fun k1 k2 => null_leb (Env.nulls_largest env) (snd k2) (snd k1))
           (filter (fun k => fst k =? Asset.id a)
              (map schedule_key (Session.visible s))))
    with
    | Some k => snd k
    | None => None
    end.
Proof.
  unfold last_record, filter_by_asset_id.
  rewrite (filter_map_swap (fun k => fst k =? Asset.id a) schedule_key).
  rewrite <- (order_by_map schedule_key (next_due_desc env)
                (fun k1 k2 =>
                   null_leb (Env.nulls_largest env) (snd k2) (snd k1)))
    by reflexivity.
  simpl.
  destruct (order_by (next_due_desc env) _); reflexivity.
Qed.

Lemma schedule_asset_by_keys (env : Env.t) (today : date)
    (s s' : Session.t) (a : Asset.t) :
  map schedule_key (Session.rows s') = map schedule_key (Session.rows s) ->
  Session.new s' = Session.new s ->
  Session.new (schedule_asset env today s' a)
  = Session.new (schedule_asset env today s a).
Proof.
  intros Hrows Hnew. unfold schedule_asset.
  rewrite !next_due_by_keys. unfold Session.visible.
  rewrite !map_app, Hrows, Hnew.
  destruct (need_create _ today); [|exact Hnew].
  destruct (Env.add_raises env _); simpl; [reflexivity|now rewrite Hnew].
Qed.

Lemma stage_all_by_keys (env : Env.t) (today : date)
    (assets : list Asset.t) (s s' : Session.t) :
  map schedule_key (Session.rows s') = map schedule_key (Session.rows s) ->
  Session.new s' = Session.new s ->
  Session.new (stage_all env today assets s')
  = Session.new (stage_all env today assets s).
Proof.
  unfold stage_all. revert s s'.
  induction assets as [|a t IH]; intros s s' Hrows Hnew; simpl; [exact Hnew|].
  apply IH.
  - now rewrite !schedule_asset_rows.
  - now apply schedule_asset_by_keys.
Qed.

Lemma soft_delete_some_keys (chosen : record -> bool) (now : Z)
    (table : list record) :
  map schedule_key (soft_delete_some chosen now table)
  = map schedule_key table.
Proof.
  unfold soft_delete_some. rewrite map_map. apply map_ext.
  intros r. now destruct (chosen r).
Qed.

(** The loop reads the keys of the committed rows and the pending
    records only. *)
Lemma schedule_all_by_keys (env : Env.t) (today : date)
    (assets : list Asset.t) (s s' : Session.t) :
  map schedule_key (Session.rows s') = map schedule_key (Session.rows s) ->
  Session.new s' = Session.new s ->
  option_map Session.new (schedule_all env today assets s')
  = option_map Session.new (schedule_all env today assets s).
Proof.
  revert s s'.
  induction assets as [|a t IH]; intros s s' Hrows Hnew; simpl.
  - now rewrite Hnew.
  - unfold Session.flush. rewrite Hnew.
    destruct (existsb _ _); [reflexivity|].
    apply IH.
    + now rewrite !schedule_asset_rows.
    + now apply schedule_asset_by_keys.
Qed.

Lemma commit_by_new (env : Env.t) (s s' : Session.t) :
  Session.new s' = Session.new s ->
  (Session.commit env s' = None <-> Session.commit env s = None).
Proof.
  intros Hnew. unfold Session.commit, Session.flush. rewrite Hnew.
  destruct (existsb _ _); [tauto|]. rewrite Hnew.
  destruct (Env.commit_raises env _); [tauto|]. split; discriminate.
Qed.

(** A page is rendered exactly when the loop does not raise. *)
Lemma index_renders (env : Env.t) (today : date) (assets : list Asset.t)
    (s : Session.t) :
  (exists page, fst (index env true today assets s) = Rendered page)
  <-> schedule_all env today assets s <> None.
Proof.
  unfold index. simpl.
  destruct (schedule_all env today assets s); simpl; split.
  - discriminate.
  - intros _. eexists. reflexivity.
  - intros (page & H). discriminate.
  - intros H. now elim H.
Qed.

(** X5. The home page does not look at the soft-delete marker of
    maintenance records: with any of them soft-deleted, the scheduler
    stages the same records, the view adds the same records to the
    table, and the due list of the page shows the same rows, the
    soft-deleted ones included. *)
Theorem home_page_ignores_record_soft_delete :
  forall (env : Env.t) (today : date) (assets : list Asset.t)
         (table : list record) (chosen : record -> bool) (now : Z),
    let table' := soft_delete_some chosen now table in
    batch_of env today assets table' = batch_of env today assets table
    /\ table_after env today assets table'
       = table'
         ++ skipn (List.length table) (table_after env today assets table)
    /\ (forall page,
          fst (index env true today assets (Session.start table))
          = Rendered page ->
          exists page',
            fst (index env true today assets (Session.start table'))
            = Rendered page'
            /\ IndexPage.due_records page'
               = soft_delete_some chosen now (IndexPage.due_records page)).
Proof.
  intros env today assets table chosen now table'.
  assert (Hbatch : batch_of env today assets table'
                   = batch_of env today assets table).
  { unfold batch_of. apply schedule_all_by_keys; [|reflexivity].
    apply soft_delete_some_keys. }
  split; [exact Hbatch|]. split.
  - assert (Hstage : Session.new
                       (stage_all env today assets (Session.start table'))
                     = Session.new
                         (stage_all env today assets (Session.start table))).
    { apply stage_all_by_keys; [|reflexivity]. apply soft_delete_some_keys. }
    assert (Hcommits : commits env today assets table'
                       = commits env today assets table).
    { unfold commits. unfold batch_of in Hbatch.
      destruct (schedule_all env today assets (Session.start table'))
        as [s'|],
        (schedule_all env today assets (Session.start table)) as [s|];
        try discriminate; [|reflexivity].
      injection Hbatch as Hnew.
      pose proof (commit_by_new env s s' Hnew) as Hc.
      destruct (Session.commit env s'), (Session.commit env s);
        try reflexivity.
      - discriminate (proj2 Hc eq_refl).
      - discriminate (proj1 Hc eq_refl). }
    rewrite !table_after_eq. cbv zeta. rewrite Hstage, Hcommits.
    destruct (commits env today assets table).
    + rewrite skipn_app, skipn_all, Nat.sub_diag. reflexivity.
    + now rewrite skipn_all, app_nil_r.
  - intros page Hpage.
    assert (Hsome : schedule_all env today assets (Session.start table')
                    <> None).
    { intros E. unfold batch_of in Hbatch. rewrite E in Hbatch.
      assert (Hr : schedule_all env today assets (Session.start table)
                   <> None).
      { apply index_renders. now exists page. }
      destruct (schedule_all env today assets (Session.start table));
        [discriminate|now apply Hr]. }
    apply index_renders in Hsome. destruct Hsome as (page' & Hpage').
    exists page'. split; [exact Hpage'|].
    rewrite (due_records_of_table env today assets table page Hpage).
    rewrite (due_records_of_table env today assets table' page' Hpage').
    unfold limit, table', soft_delete_some.
    set (g := fun r => if chosen r then MaintenanceRecord.soft_delete now r
                       else r).
    rewrite (filter_map_swap _ g).
    rewrite <- (order_by_map g (next_due_asc env) (next_due_asc env)).
    + rewrite firstn_map. f_equal. f_equal. f_equal.
      apply filter_ext. intros r. unfold g, due_on_or_before.
      now destruct (chosen r).
    + intros x y. unfold g, next_due_asc.
      now destruct (chosen x), (chosen y).
Qed.

(* ================================================================= *)
(** ** The calendar *)

Lemma ord2ymd_eq (n : Z) :
  PyDate._ord2ymd n =
  let n0 := (n - 1) mod 146097 in
  let n1 := n0 mod 36524 in
  let n2 := n1 mod 1461 in
  let y := (n - 1) / 146097 * 400 + 1 + (n0 / 36524 * 100 + n1 / 1461 * 4 + n2 / 365) in
  if (n2 / 365 =? 4) || (n0 / 36524 =? 4) then (y - 1, 12, 31)
  else
    let leapyear := (n2 / 365 =? 3) && (negb (n1 / 1461 =? 24) || (n0 / 36524 =? 3)) in
    (y, fst (month_day leapyear (n2 mod 365)), snd (month_day leapyear (n2 mod 365))).
Proof.
  unfold PyDate._ord2ymd, month_day. cbv zeta.
  unfold PyDate._DI400Y, PyDate._DI100Y, PyDate._DI4Y.
  destruct (_ || _); [reflexivity|].
  match goal with |- context [if ?c then _ else _] => destruct c end; reflexivity.
Qed.

Lemma month_day_ok_all (leapyear : bool) :
  forallb (fun k => month_day_ok leapyear (Z.of_nat k)) (seq 0 365) = true.
Proof. destruct leapyear; vm_compute; reflexivity. Qed.

Lemma month_day_spec (leapyear : bool) (n : Z) :
  0 <= n < 365 ->
  let m := fst (month_day leapyear n) in
  let d := snd (month_day leapyear n) in
  1 <= m <= 12 /\ 1 <= d <= days_in leapyear m
  /\ days_before leapyear m + d = n + 1.
Proof.
  intros Hn m d.
  pose proof (month_day_ok_all leapyear) as H.
  rewrite forallb_forall in H.
  specialize (H (Z.to_nat n)).
  rewrite Z2Nat.id in H by lia.
  assert (Hin : In (Z.to_nat n) (seq 0 365)) by (apply in_seq; lia).
  apply H in Hin. unfold month_day_ok in Hin. fold m d in Hin.
  rewrite !andb_true_iff in Hin. lia.
Qed.

Lemma is_leap_spec (y : Z) :
  PyDate._is_leap y = true <->
  y mod 4 = 0 /\ (y mod 100 <> 0 \/ y mod 400 = 0).
Proof.
  unfold PyDate._is_leap.
  rewrite andb_true_iff, orb_true_iff, negb_true_iff, !Z.eqb_eq, Z.eqb_neq.
  reflexivity.
Qed.

Lemma leap_flag (q n100 n4 n1 : Z) :
  0 <= n100 <= 3 -> 0 <= n4 <= 24 -> 0 <= n1 <= 3 ->
  PyDate._is_leap (q * 400 + 1 + (n100 * 100 + n4 * 4 + n1))
  = (n1 =? 3) && (negb (n4 =? 24) || (n100 =? 3)).
Proof.
  intros H100 H4 H1.
  apply eq_true_iff_eq. rewrite is_leap_spec.
  rewrite andb_true_iff, orb_true_iff, negb_true_iff, !Z.eqb_eq, Z.eqb_neq.
  split; intros H; Z.div_mod_to_equations; lia.
Qed.

Lemma days_before_year_succ (y : Z) :
  PyDate._days_before_year (y + 1)
  = PyDate._days_before_year y + 365 + (if PyDate._is_leap y then 1 else 0).
Proof.
  destruct (PyDate._is_leap y) eqn:E.
  - apply is_leap_spec in E. unfold PyDate._days_before_year. cbv zeta.
    Z.div_mod_to_equations. lia.
  - assert (H : ~ (y mod 4 = 0 /\ (y mod 100 <> 0 \/ y mod 400 = 0))).
    { rewrite <- is_leap_spec. congruence. }
    unfold PyDate._days_before_year. cbv zeta.
    Z.div_mod_to_equations. lia.
Qed.

Lemma ord2ymd_decomp (n : Z) :
  let n0 := (n - 1) mod 146097 in
  let n1 := n0 mod 36524 in
  let n2 := n1 mod 1461 in
  let q := (n - 1) / 146097 in
  let a100 := n0 / 36524 in let a4 := n1 / 1461 in let a1 := n2 / 365 in
  n - 1 = 146097 * q + 36524 * a100 + 1461 * a4 + 365 * a1 + n2 mod 365
                    /\ 0 <= a100 <= 4 /\ 0 <= a4 <= 24 /\ 0 <= a1 <= 4
                    /\ 0 <= n2 mod 365 < 365
                    /\ 365 * a1 + n2 mod 365 < 1461
                    /\ 1461 * a4 + 365 * a1 + n2 mod 365 < 36524
                    /\ 36524 * a100 + 1461 * a4 + 365 * a1 + n2 mod 365
                       < 146097.
Proof.
  cbv zeta.
  pose proof (Z.div_mod (n-1) 146097 ltac:(lia)).
  pose proof (Z.mod_pos_bound (n-1) 146097 ltac:(lia)).
  set (n0 := (n - 1) mod 146097) in *.
  pose proof (Z.div_mod n0 36524 ltac:(lia)).
  pose proof (Z.mod_pos_bound n0 36524 ltac:(lia)).
  set (n1 := n0 mod 36524) in *.
  pose proof (Z.div_mod n1 1461 ltac:(lia)).
  pose proof (Z.mod_pos_bound n1 1461 ltac:(lia)).
  set (n2 := n1 mod 1461) in *.
  pose proof (Z.div_mod n2 365 ltac:(lia)).
  pose proof (Z.mod_pos_bound n2 365 ltac:(lia)).
  set (n3 := n2 mod 365) in *.
  generalize dependent (n2 / 365). generalize dependent (n1 / 1461).
  generalize dependent (n0 / 36524). generalize dependent ((n-1) / 146097).
  intros. repeat split; try lia.
Qed.

Lemma ord2ymd_valid (n : Z) :
  1 <= PyDate.month n <= 12
  /\ 1 <= PyDate.day n
     <= days_in (PyDate._is_leap (PyDate.year n)) (PyDate.month n)
  /\ PyDate._days_before_year (PyDate.year n)
     + days_before (PyDate._is_leap (PyDate.year n)) (PyDate.month n)
     + PyDate.day n = n.
Proof.
  unfold PyDate.year, PyDate.month, PyDate.day. rewrite ord2ymd_eq. cbv zeta.
  set (n0 := (n - 1) mod 146097).
  set (n1 := n0 mod 36524).
  set (n2 := n1 mod 1461).
  set (q := (n - 1) / 146097).
  set (a100 := n0 / 36524). set (a4 := n1 / 1461). set (a1 := n2 / 365).
  pose proof (ord2ymd_decomp n) as Hdecomp. cbv zeta in Hdecomp.
  fold n0 in Hdecomp. fold n1 in Hdecomp. fold n2 in Hdecomp.
  fold q a100 a4 a1 in Hdecomp.
  destruct Hdecomp as (Hn & H100 & H4 & H1 & H3 & Hb1 & Hb4 & Hb100).
  set (n3 := n2 mod 365) in *.
  clearbody n3 a1 a4 a100 q. clear n0 n1 n2.
  destruct (Z.eqb_spec a1 4) as [E1|E1];
    [|destruct (Z.eqb_spec a100 4) as [E100|E100]]; cbn [orb fst snd].
  - (* last day of a leap year *)
    assert (Hleap : PyDate._is_leap
                      (q * 400 + 1 + (a100 * 100 + a4 * 4 + a1) - 1) = true).
    { apply is_leap_spec. Z.div_mod_to_equations. lia. }
    rewrite Hleap.
    change (days_in true 12) with 31. change (days_before true 12) with 335.
    unfold PyDate._days_before_year. cbv zeta.
    split; [lia|]. split; [lia|]. Z.div_mod_to_equations. lia.
  - assert (Hleap : PyDate._is_leap
                      (q * 400 + 1 + (a100 * 100 + a4 * 4 + a1) - 1) = true).
    { apply is_leap_spec. Z.div_mod_to_equations. lia. }
    rewrite Hleap.
    change (days_in true 12) with 31. change (days_before true 12) with 335.
    unfold PyDate._days_before_year. cbv zeta.
    split; [lia|]. split; [lia|]. Z.div_mod_to_equations. lia.
  - set (L := (a1 =? 3) && (negb (a4 =? 24) || (a100 =? 3))).
    destruct (month_day_spec L n3 H3) as (Hm & Hd & Hsum).
    assert (Hleap : PyDate._is_leap (q * 400 + 1 + (a100 * 100 + a4 * 4 + a1))
                    = L) by (apply leap_flag; lia).
    rewrite Hleap.
    split; [exact Hm|]. split; [exact Hd|].
    unfold PyDate._days_before_year. cbv zeta.
    revert Hsum. generalize (days_before L (fst (month_day L n3))).
    generalize (snd (month_day L n3)). intros dd bb Hsum.
    Z.div_mod_to_equations. lia.
Qed.

Lemma in_months (m : Z) : 1 <= m <= 12 -> In m months.
Proof.
  intros H.
  assert (Hc : m = 1 \/ m = 2 \/ m = 3 \/ m = 4 \/ m = 5 \/ m = 6 \/
               m = 7 \/ m = 8 \/ m = 9 \/ m = 10 \/ m = 11 \/ m = 12) by lia.
  unfold months. simpl. intuition.
Qed.

Lemma month_table (leapyear : bool) (m : Z) :
  1 <= m <= 12 ->
  0 <= days_before leapyear m
  /\ days_before leapyear m + days_in leapyear m
     <= 365 + (if leapyear then 1 else 0)
  /\ (forall m', 1 <= m' <= 12 -> m < m' ->
        days_before leapyear m + days_in leapyear m
        <= days_before leapyear m').
Proof.
  intros Hm.
  assert (H : month_table_ok leapyear = true)
    by (destruct leapyear; vm_compute; reflexivity).
  unfold month_table_ok in H. rewrite forallb_forall in H.
  specialize (H m (in_months m Hm)).
  rewrite !andb_true_iff, forallb_forall in H.
  destruct H as [[H1 H2] H3].
  split; [lia|]. split; [lia|].
  intros m' Hm' Hlt. specialize (H3 m' (in_months m' Hm')).
  destruct (Z.ltb_spec m m'); lia.
Qed.

Lemma days_before_year_mono (y y' : Z) :
  y < y' -> PyDate._days_before_year (y + 1) <= PyDate._days_before_year y'.
Proof.
  intros H. unfold PyDate._days_before_year. cbv zeta.
  Z.div_mod_to_equations. lia.
Qed.

(** Where a date lies: after the days before its month, within the days
    of its month. *)
Lemma date_position (n : Z) :
  let y := PyDate.year n in
  let m := PyDate.month n in
  let base :=
    PyDate._days_before_year y + days_before (PyDate._is_leap y) m in
  1 <= m <= 12 /\ base < n <= base + days_in (PyDate._is_leap y) m.
Proof.
  cbv zeta. destruct (ord2ymd_valid n) as (Hm & Hd & Hn).
  split; [exact Hm|]. lia.
Qed.

Lemma in_month_iff (Y M n : Z) :
  1 <= M <= 12 ->
  let base :=
    PyDate._days_before_year Y + days_before (PyDate._is_leap Y) M in
  base < n <= base + days_in (PyDate._is_leap Y) M <->
  PyDate.year n = Y /\ PyDate.month n = M.
Proof.
  intros HM base.
  destruct (date_position n) as (Hm & Hn).
  set (y := PyDate.year n) in *. set (m := PyDate.month n) in *.
  destruct (month_table (PyDate._is_leap y) m Hm) as (Hb0 & Hb1 & Hmono).
  destruct (month_table (PyDate._is_leap Y) M HM) as (HB0 & HB1 & HMono).
  pose proof (days_before_year_succ y) as Hy.
  pose proof (days_before_year_succ Y) as HY.
  split.
  - intros Hin. unfold base in Hin.
    destruct (Z.lt_trichotomy y Y) as [Hlt|[Heq|Hgt]].
    + pose proof (days_before_year_mono y Y Hlt). lia.
    + split; [exact Heq|]. rewrite Heq in *.
      destruct (Z.lt_trichotomy m M) as [Hlt|[Heq'|Hgt]]; [|exact Heq'|].
      * specialize (Hmono M HM Hlt). lia.
      * specialize (HMono m Hm Hgt). lia.
    + pose proof (days_before_year_mono Y y Hgt). lia.
  - intros [<- <-]. exact Hn.
Qed.

Lemma in_year_iff (Y n : Z) :
  PyDate.mk Y 1 1 <= n <= PyDate.mk Y 12 31 <-> PyDate.year n = Y.
Proof.
  assert (Hs : PyDate.mk Y 1 1 = PyDate._days_before_year Y + 1).
  { unfold PyDate.mk, PyDate._ymd2ord, PyDate._days_before_month.
    change (2 <? 1) with false. cbn [andb].
    change (nth (Z.to_nat 1) PyDate._DAYS_BEFORE_MONTH (-1)) with 0. lia. }
  assert (He : PyDate.mk Y 12 31 = PyDate._days_before_year (Y + 1)).
  { rewrite days_before_year_succ.
    unfold PyDate.mk, PyDate._ymd2ord, PyDate._days_before_month.
    change (2 <? 12) with true. cbn [andb].
    change (nth (Z.to_nat 12) PyDate._DAYS_BEFORE_MONTH (-1)) with 334.
    destruct (PyDate._is_leap Y); lia. }
  rewrite Hs, He.
  destruct (date_position n) as (Hm & Hn).
  set (y := PyDate.year n) in *. set (m := PyDate.month n) in *.
  destruct (month_table (PyDate._is_leap y) m Hm) as (Hb0 & Hb1 & _).
  pose proof (days_before_year_succ y) as Hy.
  split.
  - intros Hin.
    destruct (Z.lt_trichotomy y Y) as [Hlt|[Heq|Hgt]]; [|exact Heq|].
    + pose proof (days_before_year_mono y Y Hlt). lia.
    + pose proof (days_before_year_mono Y y Hgt). lia.
  - intros <-. lia.
Qed.

Lemma month_window_eq (today : date) :
  let Y := PyDate.year today in
  let M := PyDate.month today in
  let base :=
    PyDate._days_before_year Y + days_before (PyDate._is_leap Y) M in
  month_window today = (base + 1, base + days_in (PyDate._is_leap Y) M).
Proof.
  cbv zeta. unfold month_window. cbv zeta.
  destruct (date_position today) as (Hm & _).
  set (Y := PyDate.year today) in *. set (M := PyDate.month today) in *.
  set (L := PyDate._is_leap Y).
  apply f_equal2.
  { unfold PyDate.mk, PyDate._ymd2ord, PyDate._days_before_month, days_before.
    reflexivity. }
  unfold PyDate.add_days.
  assert (Hc : M = 1 \/ M = 2 \/ M = 3 \/ M = 4 \/ M = 5 \/ M = 6 \/
               M = 7 \/ M = 8 \/ M = 9 \/ M = 10 \/ M = 11 \/ M = 12) by lia.
  clearbody M.
  destruct (Z.eqb_spec M 12) as [->|Hne].
  - pose proof (days_before_year_succ Y) as HY. fold L in HY.
    unfold PyDate.mk, PyDate._ymd2ord, PyDate._days_before_month.
    change (2 <? 1) with false. cbn [andb].
    change (nth (Z.to_nat 1) PyDate._DAYS_BEFORE_MONTH (-1)) with 0.
    assert (E : days_before L 12 + days_in L 12
                = 365 + (if L then 1 else 0))
      by (destruct L; vm_compute; reflexivity).
    lia.
  - unfold PyDate.mk, PyDate._ymd2ord, PyDate._days_before_month.
    fold L. fold (days_before L (M + 1)).
    assert (E : days_before L (M + 1) = days_before L M + days_in L M).
    { destruct Hc as [->|[->|[->|[->|[->|[->|[->|[->|[->|[->|[->| ->]]]]]]]]]]];
        try lia; destruct L; vm_compute; reflexivity. }
    lia.
Qed.

(* ================================================================= *)
(** ** The periods of the dashboard *)

Lemma maintained_between_year (today : date) (r : record) :
  maintained_between (PyDate.mk (PyDate.year today) 1 1)
    (PyDate.mk (PyDate.year today) 12 31) r
  = (PyDate.year (MaintenanceRecord.maintenance_date r) =? PyDate.year today).
Proof.
  unfold maintained_between. apply eq_true_iff_eq.
  rewrite andb_true_iff, !Z.leb_le, Z.eqb_eq. apply in_year_iff.
Qed.

Lemma maintained_between_month (today : date) (r : record) :
  maintained_between (fst (month_window today)) (snd (month_window today)) r
  = (PyDate.year (MaintenanceRecord.maintenance_date r) =? PyDate.year today)
    && (PyDate.month (MaintenanceRecord.maintenance_date r)
        =? PyDate.month today).
Proof.
  pose proof (month_window_eq today) as Hw. cbv zeta in Hw. rewrite Hw.
  cbn [fst snd]. unfold maintained_between. apply eq_true_iff_eq.
  rewrite !andb_true_iff, !Z.leb_le, !Z.eqb_eq.
  destruct (date_position today) as (HM & _).
  pose proof (in_month_iff (PyDate.year today) (PyDate.month today)
                (MaintenanceRecord.maintenance_date r) HM) as H.
  cbv zeta in H. rewrite <- H. lia.
Qed.

Lemma report_months (env : Env.t) (year_arg : option Z) (current_year : Z)
    (table : list record) (m : Z) :
  let report := maintenance_report env year_arg current_year table in
  In m (map fst (Report.data report)) <->
  exists r,
    In r table
    /\ PyDate.year (MaintenanceRecord.maintenance_date r) = Report.year report
    /\ PyDate.month (MaintenanceRecord.maintenance_date r) = m.
Proof.
  intros report.
  destruct (report_groups (Report.year report) table) as (_ & Hkeys & _).
  rewrite <- Hkeys.
  unfold report, maintenance_report, group_sum. cbn [Report.data Report.year].
  rewrite !map_map. reflexivity.
Qed.

(** X6. The year of the dashboard is the calendar year: the records
    between 1 January and 31 December of the year of today are the
    records whose date falls in that year, the ones the monthly report of
    that year aggregates; the report has a row for a month exactly when
    one of them was maintained in that month. *)
Theorem dashboard_year_is_calendar_year :
  forall (env : Env.t) (today : date) (table : list record),
    year_records today table
    = filter (fun r =>
                PyDate.year (MaintenanceRecord.maintenance_date r)
                =? PyDate.year today) table
    /\ (forall m,
          In m (map fst
                  (Report.data
                     (maintenance_report env None (PyDate.year today) table)))
          <-> exists r,
                In r (year_records today table)
                /\ PyDate.month (MaintenanceRecord.maintenance_date r) = m).
Proof.
  intros env today table.
  assert (E : year_records today table
              = filter (fun r =>
                          PyDate.year (MaintenanceRecord.maintenance_date r)
                          =? PyDate.year today) table).
  { unfold year_records. cbv zeta. apply filter_ext.
    intros r. apply maintained_between_year. }
  split; [exact E|].
  intros m. rewrite (report_months env None (PyDate.year today) table m).
  cbn [maintenance_report Report.year]. rewrite E.
  split; intros (r & H1 & H2).
  - destruct H2 as [Hy Hm]. exists r. split; [|exact Hm].
    apply filter_In. split; [exact H1|]. now apply Z.eqb_eq.
  - apply filter_In in H1. destruct H1 as [H1 Hy].
    exists r. repeat split; auto. now apply Z.eqb_eq.
Qed.

(** X7. The month of the dashboard is the calendar month: the records
    between the first day of the month of today and the day before the
    first day of the next month (January of the next year after December)
    are the records whose date falls in that month of that year.  They
    all are records of the year, and the monthly report of the year has a
    row for the month exactly when there is one. *)
Theorem dashboard_month_is_calendar_month :
  forall (env : Env.t) (today : date) (table : list record),
    month_records today table
    = filter (fun r =>
                (PyDate.year (MaintenanceRecord.maintenance_date r)
                 =? PyDate.year today)
                && (PyDate.month (MaintenanceRecord.maintenance_date r)
                    =? PyDate.month today)) table
    /\ (forall r, In r (month_records today table) ->
                  In r (year_records today table))
    /\ MonthFigures.total_records_month (month_figures env today table)
       <= Z.of_nat (List.length (year_records today table))
    /\ (In (PyDate.month today)
          (map fst
             (Report.data
                (maintenance_report env None (PyDate.year today) table)))
        <-> month_records today table <> []).
Proof.
  intros env today table.
  assert (E : month_records today table
              = filter (fun r =>
                          (PyDate.year (MaintenanceRecord.maintenance_date r)
                           =? PyDate.year today)
                          && (PyDate.month (MaintenanceRecord.maintenance_date r)
                              =? PyDate.month today)) table).
  { unfold month_records. apply filter_ext.
    intros r. apply maintained_between_month. }
  assert (Ey : year_records today table
               = filter (fun r =>
                           PyDate.year (MaintenanceRecord.maintenance_date r)
                           =? PyDate.year today) table).
  { unfold year_records. cbv zeta. apply filter_ext.
    intros r. apply maintained_between_year. }
  assert (Esub : month_records today table
                 = filter (fun r =>
                             PyDate.month (MaintenanceRecord.maintenance_date r)
                             =? PyDate.month today)
                     (year_records today table)).
  { rewrite E, Ey. symmetry. apply filter_andb. }
  split; [exact E|]. split; [|split].
  - intros r Hr. rewrite Esub in Hr. apply filter_In in Hr. tauto.
  - unfold month_figures. cbn [MonthFigures.total_records_month].
    rewrite Esub. apply inj_le, filter_length_le.
  - rewrite (report_months env None (PyDate.year today) table
               (PyDate.month today)).
    cbn [maintenance_report Report.year]. rewrite E. split.
    + intros (r & Hr & Hy & Hm) Hnil.
      assert (Hin : In r (filter (fun r0 =>
                 (PyDate.year (MaintenanceRecord.maintenance_date r0)
                  =? PyDate.year today)
                 && (PyDate.month (MaintenanceRecord.maintenance_date r0)
                     =? PyDate.month today)) table)).
      { apply filter_In. split; [exact Hr|].
        rewrite Hy, Hm, !Z.eqb_refl. reflexivity. }
      rewrite Hnil in Hin. destruct Hin.
    + intros Hne.
      destruct (filter _ table) as [|r t] eqn:Ef; [contradiction|].
      assert (Hin : In r (r :: t)) by now left.
      rewrite <- Ef in Hin. apply filter_In in Hin.
      destruct Hin as [Hr Hb]. apply andb_true_iff in Hb.
      rewrite !Z.eqb_eq in Hb. exists r. tauto.
Qed.

(* ================================================================= *)
(** ** The list of maintenance records *)


Lemma filter_disjoint {A : Type} (p q : A -> bool) (l : list A) :
  (forall x, p x = true -> q x = false) -> filter q (filter p l) = [].
Proof.
  intros H. apply filter_none. intros x Hx.
  apply filter_In in Hx. now apply H.
Qed.


(** X8. The two due filters of the list exclude each other: with both
    [overdue] and [due_30] given, the list is empty, whatever the other
    arguments and the table. *)
Theorem maintenance_list_overdue_and_due_30 :
  forall (ilike : string -> string -> bool) (today : date)
         (q : ListQuery.t) (table : list record),
    given (ListQuery.overdue q) = true ->
    given (ListQuery.due_30 q) = true ->
    Pagination.items (maintenance_list ilike today q table) = []
    /\ Pagination.total (maintenance_list ilike today q table) = 0
    /\ Pagination.pages (maintenance_list ilike today q table) = 0.
Proof.
  intros ilike today q table Ho Hd.
  unfold maintenance_list. cbv zeta. rewrite Ho, Hd.
  rewrite (filter_disjoint (due_before today)
             (due_between today (PyDate.add_days today 30))).
  - simpl. unfold paginate, limit. cbn [Pagination.items Pagination.total].
    rewrite skipn_nil, firstn_nil. repeat split.
  - intros r. unfold due_before, due_between.
    destruct (MaintenanceRecord.next_due_date r); [|discriminate]. lia.
Qed.

Lemma maintenance_list_overdue_and_due_30_witness :
  Pagination.items
    (maintenance_list Case.no_match Sample.day
       (ListQuery.mk 1 "" None None None (Some 1) (Some 1))
       Sample.boundary_table) = []
  /\ Pagination.total
       (maintenance_list Case.no_match Sample.day
          (ListQuery.mk 1 "" None None None (Some 1) (Some 1))
          Sample.boundary_table) = 0
  /\ Pagination.pages
       (maintenance_list Case.no_match Sample.day
          (ListQuery.mk 1 "" None None None (Some 1) (Some 1))
          Sample.boundary_table) = 0.
Proof.
  apply (maintenance_list_overdue_and_due_30 Case.no_match Sample.day
           (ListQuery.mk 1 "" None None None (Some 1) (Some 1))
           Sample.boundary_table); reflexivity.
Defined.







(** X10. The counts of the dashboard are the totals of the list: with
    [overdue] alone given the list has as many rows as the dashboard
    counts overdue records, and with [due_30] alone as many as it counts
    records due within 30 days. *)
Theorem maintenance_list_matches_dashboard :
  forall (ilike : string -> string -> bool) (env : Env.t) (today : date)
         (table : list record) (d : Dashboard.t) (page flag : Z),
    maintenance_dashboard env today table = Some d ->
    flag <> 0 ->
    Pagination.total
      (maintenance_list ilike today
         (ListQuery.mk page "" None None None (Some flag) None) table)
    = Dashboard.overdue d
    /\ Pagination.total
         (maintenance_list ilike today
            (ListQuery.mk page "" None None None None (Some flag)) table)
       = Dashboard.due_30 d.
Proof.
  intros ilike env today table d page flag Hd Hflag.
  destruct (maintenance_dashboard_due_counts env today table d Hd) as [-> ->].
  unfold maintenance_list, given, filter_given. cbv zeta.
  cbn [ListQuery.asset_id ListQuery.search ListQuery.month ListQuery.year
         ListQuery.overdue ListQuery.due_30 ListQuery.page].
  change (String.eqb "" "") with true. cbv iota.
  destruct (Z.eqb_spec flag 0) as [E|_]; [contradiction|].
  cbn [negb]. unfold paginate. cbn [Pagination.total].
  rewrite !order_by_length. split; reflexivity.
Qed.

Lemma maintenance_list_matches_dashboard_witness :
  exists d,
    maintenance_dashboard Sample.env_ok Sample.day Sample.boundary_table
    = Some d
    /\ Pagination.total
         (maintenance_list Case.no_match Sample.day
            (ListQuery.mk 1 "" None None None (Some 1) None)
            Sample.boundary_table)
       = Dashboard.overdue d
    /\ Pagination.total
         (maintenance_list Case.no_match Sample.day
            (ListQuery.mk 1 "" None None None None (Some 1))
            Sample.boundary_table)
       = Dashboard.due_30 d.
Proof.
  eexists. split.
  - vm_compute. reflexivity.
  - apply (maintenance_list_matches_dashboard Case.no_match Sample.env_ok
             Sample.day Sample.boundary_table _ 1 1).
    + vm_compute. reflexivity.
    + discriminate.
Defined.

(* ================================================================= *)
(** ** The template filters *)

Lemma status_label_miss (label : string) :
  In label (map snd status_mapping) ->
  dict_get status_mapping (lower label) label = label.
Proof.
  simpl. intros [<-|[<-|[<-|[<-|[]]]]]; reflexivity.
Qed.

Lemma type_label_miss (label : string) :
  In label (map snd type_mapping) ->
  dict_get type_mapping (lower label) label = label.
Proof.
  simpl. intros [<-|[<-|[<-|[<-|[<-|[]]]]]]; reflexivity.
Qed.

Lemma dict_get_cases (mapping : list (string * string))
    (key default : string) :
  (dict_get mapping key default = default
   /\ forall label, ~ In (key, label) mapping)
  \/ (exists label,
        In (key, label) mapping /\ dict_get mapping key default = label).
Proof.
  induction mapping as [|[k v] rest IH]; simpl.
  - left. split; [reflexivity|]. intros label [].
  - destruct (String.eqb_spec k key) as [->|Hne].
    + right. exists v. split; [now left|reflexivity].
    + destruct IH as [[E Hno]|(label & Hin & E)].
      * left. split; [exact E|]. intros label [[= H _]|H];
          [contradiction|]. now apply (Hno label).
      * right. exists label. split; [now right|exact E].
Qed.

(** X11. The two label filters: for each of them, filtering twice is
    filtering once, a value that lowers to none of the keys comes back
    as it is, and a value that lowers to a key comes back as the label
    of the key.  A record counts as [key] in the figures of the
    dashboard exactly when its status, not itself the label, is shown
    under the label of [key]. *)
Theorem label_filters :
  (forall value,
     maintenance_status_vi (Some (maintenance_status_vi value))
     = maintenance_status_vi value
     /\ maintenance_type_vi (Some (maintenance_type_vi value))
        = maintenance_type_vi value)
  /\ (forall value,
        (~ In (lower (or_empty value)) (map fst status_mapping) ->
         maintenance_status_vi value = or_empty value)
        /\ (~ In (lower (or_empty value)) (map fst type_mapping) ->
            maintenance_type_vi value = or_empty value))
  /\ (forall value label,
        (In (lower (or_empty value), label) status_mapping ->
         maintenance_status_vi value = label)
        /\ (In (lower (or_empty value), label) type_mapping ->
            maintenance_type_vi value = label))
  /\ (forall r key label,
        In (key, label) status_mapping ->
        (status_is key r = true <->
         maintenance_status_vi (MaintenanceRecord.status r) = label
         /\ MaintenanceRecord.status r <> Some label)).
Proof.
  split; [|split; [|split]].
  - intros value. split.
    + unfold maintenance_status_vi. cbv zeta.
      destruct (dict_get_cases status_mapping (lower (or_empty value))
                  (or_empty value)) as [[E _]|(label & Hin & E)];
        rewrite E; cbn [or_empty].
      * exact E.
      * apply status_label_miss. change label with (snd (lower (or_empty value), label)).
        now apply in_map.
    + unfold maintenance_type_vi. cbv zeta.
      destruct (dict_get_cases type_mapping (lower (or_empty value))
                  (or_empty value)) as [[E _]|(label & Hin & E)];
        rewrite E; cbn [or_empty].
      * exact E.
      * apply type_label_miss. change label with (snd (lower (or_empty value), label)).
        now apply in_map.
  - intros value. split; intros Hno.
    + unfold maintenance_status_vi. cbv zeta.
      destruct (dict_get_cases status_mapping (lower (or_empty value))
                  (or_empty value)) as [[E _]|(label & Hin & E)]; [exact E|].
      exfalso. apply Hno.
      change (lower (or_empty value))
        with (fst (lower (or_empty value), label)).
      now apply in_map.
    + unfold maintenance_type_vi. cbv zeta.
      destruct (dict_get_cases type_mapping (lower (or_empty value))
                  (or_empty value)) as [[E _]|(label & Hin & E)]; [exact E|].
      exfalso. apply Hno.
      change (lower (or_empty value))
        with (fst (lower (or_empty value), label)).
      now apply in_map.
  - intros value label. split; intros Hin.
    + unfold maintenance_status_vi. cbv zeta.
      generalize (or_empty value) at 2. intros default.
      revert Hin. generalize (lower (or_empty value)). intros key. simpl.
      intros [[= <- <-]|[[= <- <-]|[[= <- <-]|[[= <- <-]|[]]]]];
        reflexivity.
    + unfold maintenance_type_vi. cbv zeta.
      generalize (or_empty value) at 2. intros default.
      revert Hin. generalize (lower (or_empty value)). intros key. simpl.
      intros [[= <- <-]|[[= <- <-]|[[= <- <-]|[[= <- <-]|[[= <- <-]|[]]]]]];
        reflexivity.
  - intros r key label Hin.
    unfold status_is, maintenance_status_vi. cbv zeta.
    fold (or_empty (MaintenanceRecord.status r)).
    set (v := or_empty (MaintenanceRecord.status r)).
    assert (Hv : MaintenanceRecord.status r = Some label -> v = label)
      by (unfold v; now intros ->).
    assert (Hv' : v = label -> label <> "" ->
                  MaintenanceRecord.status r = Some label).
    { unfold v. destruct (MaintenanceRecord.status r); simpl.
      - now intros ->.
      - intros <- H. now contradiction H. }
    clearbody v.
    simpl in Hin.
    destruct Hin as [[= <- <-]|[[= <- <-]|[[= <- <-]|[[= <- <-]|[]]]]];
      (split;
       [ intros H; apply String.eqb_eq in H; rewrite H; split;
         [reflexivity|];
         intros Hs; apply Hv in Hs; rewrite Hs in H; vm_compute in H;
         discriminate
       | intros [H Hs]; apply String.eqb_eq;
         destruct (dict_get_cases status_mapping (lower v) v)
           as [[E _]|(label' & Hin' & E)];
         [ rewrite E in H; exfalso; apply Hs, Hv'; [exact H|discriminate]
         | rewrite E in H; subst label'; simpl in Hin';
           destruct Hin' as [[= <-]|[[= <-]|[[= <-]|[[= <-]|[]]]]];
           first [reflexivity | discriminate] ] ]).
Qed.

(* ================================================================= *)
(** ** Soft deletion of assets and users, and the session *)

(** X12. Restoring a soft-deleted asset does not give the asset back as
    it was: it is no longer deleted and its status is 'active' whatever
    the status before; only an active, undeleted asset survives the
    round trip unchanged. *)
Theorem asset_restore_after_soft_delete :
  forall (now : Z) (a : Asset.t),
    let a' := Asset.restore (Asset.soft_delete now a) in
    Asset.id a' = Asset.id a
    /\ Asset.name a' = Asset.name a
    /\ Asset.deleted_at a' = None
    /\ Asset.status a' = Some "active"
    /\ (a' = a <-> Asset.status a = Some "active" /\ Asset.deleted_at a = None).
Proof.
  intros now a a'. unfold a', Asset.restore, Asset.soft_delete.
  cbn [Asset.id Asset.name Asset.status Asset.deleted_at].
  change (String.eqb "disposed" "disposed") with true. cbv iota.
  do 4 (split; [reflexivity|]).
  destruct a as [i n st del].
  cbn [Asset.id Asset.name Asset.status Asset.deleted_at]. split.
  - intros H. injection H as Hst Hdel. now subst.
  - intros [-> ->]. reflexivity.
Qed.

Lemma find_user_skip (name : string) (l1 l2 : list User.t) (u : User.t) :
  (forall x, In x l1 -> User.username x <> name) ->
  User.username u = name ->
  find_user name (l1 ++ u :: l2) = Some u.
Proof.
  intros Hl1 Hu. unfold find_user.
  rewrite filter_app, (filter_none _ l1).
  - simpl. rewrite Hu, String.eqb_refl. reflexivity.
  - intros x Hx. apply String.eqb_neq. now apply Hl1.
Qed.

(** X13. The language of the session stays one the login page has texts
    for: [set_lang] stores 'vi' or 'en' whatever it is given, [logout]
    and a successful [login] keep it so, and with such a session [login]
    shows its page on a GET and raises on a POST only for a user whose
    role is missing. *)
Theorem session_language_stays_valid :
  forall (check : string -> string -> bool) (now : Z)
         (form : option (string * string)) (roles : list Role.t)
         (users : list User.t) (s : WebSession.t) (lang : string),
    lang_ok (set_lang lang s)
    /\ lang_ok (logout s)
    /\ (lang_ok s ->
        (forall s' users',
           login check now form roles users s = LoginRedirect s' users' ->
           lang_ok s')
        /\ (exists title,
              login check now None roles users s = LoginPage title false s users)
        /\ (login check now form roles users s = LoginRaises ->
            exists name password user,
              form = Some (name, password)
              /\ find_user name users = Some user
              /\ role_of roles user = None)).
Proof.
  intros check now form roles users s lang. split; [|split].
  - unfold lang_ok, set_lang. cbn [WebSession.lang].
    destruct (String.eqb_spec lang "vi") as [->|_]; [now right; left|].
    destruct (String.eqb_spec lang "en") as [->|_]; [now right; right|].
    now right; left.
  - now left.
  - intros Hok.
    assert (Htitle : exists title,
              login_title (match WebSession.lang s with
                           | Some l => l
                           | None => "vi"
                           end) = Some title).
    { destruct Hok as [-> | [-> | ->]]; eexists; reflexivity. }
    destruct Htitle as (title & Htitle).
    unfold login. rewrite Htitle. split; [|split].
    + intros s' users'. destruct form as [[name password]|]; [|discriminate].
      destruct (find_user name users) as [user|]; [|discriminate].
      destruct (_ && _); [|discriminate].
      destruct (role_of roles user); [|discriminate].
      intros [= <- _]. exact Hok.
    + now exists title.
    + destruct form as [[name password]|]; [|discriminate].
      destruct (find_user name users) as [user|] eqn:Eu; [|discriminate].
      destruct (_ && _); [|discriminate].
      destruct (role_of roles user) eqn:Er; [discriminate|].
      intros _. now exists name, password, user.
Qed.

(** X14. A soft-deleted user cannot log in, whatever the password: the
    login page comes back with its error and the session and the table
    are as before.  Once restored the user logs in with the right
    password, even when the account was inactive before its deletion. *)
Theorem soft_deleted_user_cannot_log_in :
  forall (check : string -> string -> bool) (now deleted : Z)
         (roles : list Role.t) (l1 l2 : list User.t) (u : User.t)
         (s : WebSession.t) (password : string),
    lang_ok s ->
    (forall x, In x l1 -> User.username x <> User.username u) ->
    (exists title,
       login check now (Some (User.username u, password)) roles
         (l1 ++ User.soft_delete deleted u :: l2) s
       = LoginPage title true s (l1 ++ User.soft_delete deleted u :: l2))
    /\ (forall role,
          check (User.password_hash u) password = true ->
          role_of roles u = Some role ->
          exists users',
            login check now (Some (User.username u, password)) roles
              (l1 ++ User.restore (User.soft_delete deleted u) :: l2) s
            = LoginRedirect
                (WebSession.mk (Some (User.id u)) (Some (User.username u))
                   (Some (Role.name role)) (WebSession.lang s))
                users').
Proof.
  intros check now deleted roles l1 l2 u s password Hok Hl1.
  assert (Htitle : exists title,
            login_title (match WebSession.lang s with
                         | Some l => l
                         | None => "vi"
                         end) = Some title).
  { destruct Hok as [-> | [-> | ->]]; eexists; reflexivity. }
  destruct Htitle as (title & Htitle).
  split.
  - exists title. unfold login. rewrite Htitle.
    rewrite (find_user_skip (User.username u) l1 l2
               (User.soft_delete deleted u) Hl1 eq_refl).
    cbn [User.soft_delete User.is_active User.password_hash].
    now rewrite andb_false_r.
  - intros role Hcheck Hrole. eexists.
    set (u' := User.restore (User.soft_delete deleted u)).
    assert (Hr : role_of roles u' = Some role) by exact Hrole.
    unfold login. rewrite Htitle.
    rewrite (find_user_skip (User.username u) l1 l2 u' Hl1 eq_refl).
    change (User.password_hash u') with (User.password_hash u).
    change (User.is_active u') with (Some true).
    rewrite Hcheck, Hr. reflexivity.
Qed.

Lemma soft_deleted_user_cannot_log_in_witness :
  (exists title,
     login Case.check 0 (Some ("lan", "secret")) [Case.staff]
       ([] ++ User.soft_delete 5 Case.lan :: []) WebSession.clear
     = LoginPage title true WebSession.clear
         ([] ++ User.soft_delete 5 Case.lan :: []))
  /\ exists users',
       login Case.check 0 (Some ("lan", "secret")) [Case.staff]
         ([] ++ User.restore (User.soft_delete 5 Case.lan) :: [])
         WebSession.clear
       = LoginRedirect
           (WebSession.mk (Some 7) (Some "lan") (Some "user") None) users'.
Proof.
  destruct (soft_deleted_user_cannot_log_in Case.check 0 5 [Case.staff] [] []
              Case.lan WebSession.clear "secret") as [H1 H2].
  - now left.
  - intros x [].
  - split; [exact H1|].
    apply (H2 Case.staff); reflexivity.
Defined.

(* ================================================================= *)
(** ** The first-run bootstrap *)

Lemma add_roles_length (fresh : list Z -> Z) (new : list (string * string))
    (roles : list Role.t) :
  List.length (add_roles fresh new roles)
  = (List.length roles + List.length new)%nat.
Proof.
  revert roles. induction new as [|[name description] rest IH]; intros roles.
  - simpl. lia.
  - cbn [add_roles]. rewrite IH, length_app. simpl. lia.
Qed.

Lemma find_user_last (name : string) (l : list User.t) (u : User.t) :
  User.username u = name ->
  exists found, find_user name (l ++ [u]) = Some found.
Proof.
  intros Hu. unfold find_user. rewrite filter_app. simpl.
  rewrite Hu, String.eqb_refl.
  destruct (filter _ l) as [|x t]; eexists; reflexivity.
Qed.

(** X15. [dev_bootstrap] is safe to run again: once it has answered with
    success, the table of roles is not empty and holds the administrator's
    account, and a second call with the same request creates nothing and
    leaves the database as the first call left it. *)
Theorem dev_bootstrap_idempotent :
  forall (fresh : list Z -> Z) (hash : string -> string) (config : Config.t)
         (token : string) (db db' : Db.t) (created_roles created_users : Z),
    dev_bootstrap fresh hash config token db
    = (Bootstrapped created_roles created_users, db') ->
    Db.roles db' <> []
    /\ (exists admin,
          find_user (Config.ADMIN_USERNAME config) (Db.users db') = Some admin)
    /\ dev_bootstrap fresh hash config token db' = (Bootstrapped 0 0, db').
Proof.
  intros fresh hash config token db db' cr cu H.
  assert (Hfacts :
            negb (String.eqb (Config.INIT_TOKEN config) "")
            && negb (String.eqb token (Config.INIT_TOKEN config)) = false
            /\ Db.roles db' <> []
            /\ exists admin,
                 find_user (Config.ADMIN_USERNAME config) (Db.users db')
                 = Some admin).
  { unfold dev_bootstrap in H.
    destruct (negb _ && negb _); [discriminate|].
    split; [reflexivity|].
    set (roles1 := if (List.length (Db.roles db) =? 0)%nat
                   then add_roles fresh _ (Db.roles db)
                   else Db.roles db) in H.
    assert (Hroles1 : roles1 <> []).
    { unfold roles1. destruct (Nat.eqb_spec (List.length (Db.roles db)) 0) as [E|E].
      - intros E'. apply (f_equal (@List.length _)) in E'.
        rewrite add_roles_length in E'. simpl in E'. lia.
      - intros E'. rewrite E' in E. now apply E. }
    destruct (find_user (Config.ADMIN_USERNAME config) (Db.users db))
      as [admin|] eqn:Eadmin.
    - injection H as _ _ <-. cbn [Db.roles Db.users].
      split; [exact Hroles1|]. now exists admin.
    - set (roles2 := match first (filter _ roles1) with
                     | Some _ => roles1
                     | None => add_roles fresh _ roles1
                     end) in H.
      assert (Hroles2 : roles2 <> []).
      { unfold roles2. destruct (first _); [exact Hroles1|].
        intros E'. apply (f_equal (@List.length _)) in E'.
        rewrite add_roles_length in E'. simpl in E'. lia. }
      destruct (first (filter _ roles2)) as [admin_role|]; [|discriminate].
      destruct (existsb _ _); [discriminate|].
      injection H as _ _ <-. cbn [Db.roles Db.users].
      split; [exact Hroles2|]. now apply find_user_last. }
  destruct Hfacts as (Htoken & Hroles & admin & Hadmin).
  split; [exact Hroles|]. split; [now exists admin|].
  unfold dev_bootstrap. rewrite Htoken, Hadmin.
  destruct db' as [roles' users']. cbn [Db.roles Db.users] in *.
  destruct roles' as [|r0 rest]; [now elim Hroles|]. reflexivity.
Qed.

Lemma dev_bootstrap_idempotent_witness :
  let db' :=
    Db.mk [Role.mk 1 "admin" (Some "Quản trị");
           Role.mk 2 "manager" (Some "Quản lý");
           Role.mk 3 "user" (Some "Nhân viên")]
          [User.mk 1 "admin" "h:admin123" "admin@example.com" 1 (Some true)
             None None] in
  dev_bootstrap Case.fresh Case.hash Case.config "" (Db.mk [] [])
  = (Bootstrapped 3 1, db')
  /\ dev_bootstrap Case.fresh Case.hash Case.config "" db'
     = (Bootstrapped 0 0, db').
Proof.
  split; [reflexivity|].
  apply (dev_bootstrap_idempotent Case.fresh Case.hash Case.config ""
           (Db.mk [] []) _ 3 1).
  reflexivity.
Defined.

(** X16. On an empty database a bootstrap with an accepted token creates
    the three roles and the administrator, who can then log in with the
    configured name and password and gets the role 'admin'. *)
Theorem bootstrap_then_admin_logs_in :
  forall (fresh : list Z -> Z) (hash : string -> string)
         (check : string -> string -> bool) (config : Config.t)
         (token : string) (now : Z) (s : WebSession.t),
    lang_ok s ->
    Config.INIT_TOKEN config = "" \/ token = Config.INIT_TOKEN config ->
    check (hash (Config.ADMIN_PASSWORD config)) (Config.ADMIN_PASSWORD config)
    = true ->
    exists db' users',
      dev_bootstrap fresh hash config token (Db.mk [] [])
      = (Bootstrapped 3 1, db')
      /\ map Role.name (Db.roles db') = ["admin"; "manager"; "user"]
      /\ login check now
           (Some (Config.ADMIN_USERNAME config, Config.ADMIN_PASSWORD config))
           (Db.roles db') (Db.users db') s
         = LoginRedirect
             (WebSession.mk (Some (fresh [])) (Some (Config.ADMIN_USERNAME config))
                (Some "admin") (WebSession.lang s))
             users'.
Proof.
  intros fresh hash check config token now s Hok Htoken Hcheck.
  assert (Htitle : exists title,
            login_title (match WebSession.lang s with
                         | Some l => l
                         | None => "vi"
                         end) = Some title).
  { destruct Hok as [-> | [-> | ->]]; eexists; reflexivity. }
  destruct Htitle as (title & Htitle).
  assert (Ht : negb (String.eqb (Config.INIT_TOKEN config) "")
               && negb (String.eqb token (Config.INIT_TOKEN config)) = false).
  { destruct Htoken as [-> | ->].
    - reflexivity.
    - rewrite String.eqb_refl. apply andb_false_r. }
  eexists. eexists. split; [|split].
  - unfold dev_bootstrap. rewrite Ht. cbn. reflexivity.
  - reflexivity.
  - cbn [Db.roles Db.users]. unfold login. rewrite Htitle.
    unfold find_user. cbn [filter User.username].
    rewrite String.eqb_refl.
    cbn [first hd_error User.password_hash User.is_active].
    rewrite Hcheck. cbn [andb].
    unfold role_of. cbn [filter Role.id User.role_id].
    rewrite Z.eqb_refl.
    cbn [first hd_error Role.name User.id User.username].
    reflexivity.
Qed.

Lemma bootstrap_then_admin_logs_in_witness :
  exists db' users',
    dev_bootstrap Case.fresh Case.hash Case.config "" (Db.mk [] [])
    = (Bootstrapped 3 1, db')
    /\ map Role.name (Db.roles db') = ["admin"; "manager"; "user"]
    /\ login Case.check 0 (Some ("admin", "admin123"))
         (Db.roles db') (Db.users db') (set_lang "fr" WebSession.clear)
       = LoginRedirect
           (WebSession.mk (Some 1) (Some "admin") (Some "admin") (Some "vi"))
           users'.
Proof.
  apply (bootstrap_then_admin_logs_in Case.fresh Case.hash Case.check
           Case.config "" 0 (set_lang "fr" WebSession.clear)).
  - right. left. reflexivity.
  - left. reflexivity.
  - reflexivity.
Defined.

(** X17. The bootstrap does not give back a soft-deleted administrator:
    the account is still found by its name, so no user is created and the
    table of users is as before, and the login of that name is refused
    whatever the password. *)
Theorem bootstrap_keeps_deleted_admin_out :
  forall (fresh : list Z -> Z) (hash : string -> string)
         (check : string -> string -> bool) (config : Config.t)
         (token password : string) (now deleted : Z) (roles : list Role.t)
         (l1 l2 : list User.t) (u : User.t) (s : WebSession.t),
    lang_ok s ->
    Config.INIT_TOKEN config = "" \/ token = Config.INIT_TOKEN config ->
    User.username u = Config.ADMIN_USERNAME config ->
    (forall x, In x l1 -> User.username x <> Config.ADMIN_USERNAME config) ->
    let users := l1 ++ User.soft_delete deleted u :: l2 in
    exists created_roles roles' title,
      dev_bootstrap fresh hash config token (Db.mk roles users)
      = (Bootstrapped created_roles 0, Db.mk roles' users)
      /\ login check now (Some (Config.ADMIN_USERNAME config, password))
           roles' users s
         = LoginPage title true s users.
Proof.
  intros fresh hash check config token password now deleted roles l1 l2 u s
    Hok Htoken Hu Hl1 users.
  assert (Htitle : exists title,
            login_title (match WebSession.lang s with
                         | Some l => l
                         | None => "vi"
                         end) = Some title).
  { destruct Hok as [-> | [-> | ->]]; eexists; reflexivity. }
  destruct Htitle as (title & Htitle).
  assert (Ht : negb (String.eqb (Config.INIT_TOKEN config) "")
               && negb (String.eqb token (Config.INIT_TOKEN config)) = false).
  { destruct Htoken as [-> | ->].
    - reflexivity.
    - rewrite String.eqb_refl. apply andb_false_r. }
  assert (Hfind : find_user (Config.ADMIN_USERNAME config) users
                  = Some (User.soft_delete deleted u)).
  { apply find_user_skip; [exact Hl1 | exact Hu]. }
  eexists. eexists. exists title. split.
  - unfold dev_bootstrap. rewrite Ht. cbn [Db.roles Db.users].
    rewrite Hfind. reflexivity.
  - unfold login. rewrite Htitle, Hfind.
    cbn [User.soft_delete User.is_active].
    now rewrite andb_false_r.
Qed.

Lemma bootstrap_keeps_deleted_admin_out_witness :
  let admin :=
    User.mk 1 "admin" "h:admin123" "admin@example.com" 1 (Some true) None None in
  let users := [] ++ User.soft_delete 9 admin :: [Case.lan] in
  exists created_roles roles' title,
    dev_bootstrap Case.fresh Case.hash Case.config "" (Db.mk [] users)
    = (Bootstrapped created_roles 0, Db.mk roles' users)
    /\ login Case.check 0 (Some ("admin", "admin123")) roles' users
         WebSession.clear
       = LoginPage title true WebSession.clear users.
Proof.
  apply (bootstrap_keeps_deleted_admin_out Case.fresh Case.hash Case.check
           Case.config "" "admin123" 0 9 [] [] [Case.lan]
           (User.mk 1 "admin" "h:admin123" "admin@example.com" 1 (Some true)
              None None)
           WebSession.clear).
  - left. reflexivity.
  - left. reflexivity.
  - reflexivity.
  - intros x [].
Defined.

(* ================================================================= *)
(** ** A storage failure before the commit *)

Lemma flush_rejects (env : Env.t) (s : Session.t) (r : record) :
  In r (Session.new s) -> Env.flush_raises env r = true ->
  Session.flush env s = None.
Proof.
  intros Hin Hr. unfold Session.flush.
  destruct (existsb _ _) eqn:E; [reflexivity|].
  assert (H : existsb (Env.flush_raises env) (Session.new s) = true).
  { apply existsb_exists. now exists r. }
  congruence.
Qed.

(** X18. Where a storage failure on a staged record surfaces: when
    storage rejects the record staged for an asset, the view raises if
    another asset follows, whose query writes the record outside every
    [try]; if the asset is the last one, the commit writes the record,
    its failure is caught and the page is rendered.  The table is
    unchanged in both cases. *)
Theorem storage_failure_surfaces :
  forall (env : Env.t) (today : date) (before after : list Asset.t)
         (a b : Asset.t) (table : list record) (s1 : Session.t),
    schedule_all env today before (Session.start table) = Some s1 ->
    Session.flush env s1 = Some s1 ->
    need_create (next_due_of (last_record env s1 a)) today = true ->
    Env.add_raises env (auto_record a today) = false ->
    Env.flush_raises env (auto_record a today) = true ->
    index env true today (before ++ a :: b :: after) (Session.start table)
    = (Raised, Session.mk table [])
    /\ (exists page,
          fst (index env true today (before ++ [a]) (Session.start table))
          = Rendered page)
    /\ table_after env today (before ++ [a]) table = table.
Proof.
  intros env today before after a b table s1 Hbefore Hflush Hneed Hadd Hrej.
  assert (Hstep : schedule_asset env today s1 a
                  = Session.add (auto_record a today) s1).
  { unfold schedule_asset. now rewrite Hneed, Hadd. }
  assert (Hin : In (auto_record a today)
                  (Session.new (Session.add (auto_record a today) s1))).
  { simpl. apply in_or_app. right. now left. }
  split; [|split].
  - unfold index. simpl.
    rewrite schedule_all_app, Hbefore. simpl.
    rewrite Hflush, Hstep.
    now rewrite (flush_rejects env _ _ Hin Hrej).
  - apply index_renders.
    rewrite schedule_all_app, Hbefore. simpl.
    rewrite Hflush. discriminate.
  - unfold table_after. rewrite index_session.
    rewrite schedule_all_app, Hbefore. simpl.
    rewrite Hflush, Hstep, commit_or_rollback_rows.
    unfold Session.commit.
    rewrite (flush_rejects env _ _ Hin Hrej). simpl.
    apply (schedule_all_rows env today before _ _ Hbefore).
Qed.

Lemma storage_failure_surfaces_witness :
  index (Sample.env_storage_rejects 1) true Sample.day
    ([] ++ Sample.pc :: Sample.printer :: []) (Session.start [])
  = (Raised, Session.mk [] [])
  /\ (exists page,
        fst (index (Sample.env_storage_rejects 1) true Sample.day
               ([] ++ [Sample.pc]) (Session.start []))
        = Rendered page)
  /\ table_after (Sample.env_storage_rejects 1) Sample.day
       ([] ++ [Sample.pc]) []
     = [].
Proof.
  apply (storage_failure_surfaces (Sample.env_storage_rejects 1) Sample.day
           [] [] Sample.pc Sample.printer [] (Session.start []));
    reflexivity.
Defined.
